(** * HiveToVW: a shallow embedding of [HiveToVW.py]

    The module turns the schema of a Hive table into a query that prints
    every row in Vowpal Wabbit's input format, and runs that query
    through the [hive] command line client.

    Python values are modelled as follows.
    - [str] is [string], a sequence of bytes; a [unicode] object is
      represented by its UTF-8 encoding, so that decoding a byte string
      checks it and gives the same bytes; a [list] is a [list];
      [None]-able arguments are [option]s; [int] is [Z].
    - A [dict] that is only looked up is a [gmap string _].  The [dict]
      that the program iterates is a [dict _]: its items in the order in
      which their keys were first stored, iterated in the order a
      [DictOrder] gives, since Python 2 leaves that order to the
      interpreter.
    - A raised exception is the [Raise] constructor of [res]; code that
      also touches the file system, the logger, the metastore or a
      subprocess runs in the monad [M] over a [World]. *)

From stdpp Require Import gmap strings list fin_maps pretty.
From Stdlib Require Import QArith Ascii.

Set Warnings "-register-all".

Local Open Scope string_scope.
Local Open Scope Z_scope.
Local Open Scope list_scope.

(** ** Exceptions and the result of pure code *)

Inductive exn : Type :=
  | NotImplementedError
  | NameError (name : string)
  | UnboundLocalError (name : string)
  | TypeError
  | KeyError (key : string)
  | IndexError
  | ValueError
  | IOError
  | OSError
  | ImportError
  | UnicodeDecodeError
  | MetastoreError.

Inductive res (A : Type) : Type :=
  | Ok (a : A)
  | Raise (e : exn).
Arguments Ok {A} a.
Arguments Raise {A} e.

Definition res_bind {A B} (r : res A) (k : A -> res B) : res B :=
  match r with
  | Ok a => k a
  | Raise e => Raise e
  end.

Declare Scope res_scope.
Delimit Scope res_scope with res.
Notation "x <-? r ; k" := (res_bind r (fun x => k))
  (at level 100, r at next level, right associativity) : res_scope.

(** [[f(x) for x in l]], stopping at the first exception. *)
Fixpoint res_map {A B} (f : A -> res B) (l : list A) : res (list B) :=
  match l with
  | [] => Ok []
  | x :: l' =>
      match f x with
      | Ok y =>
          match res_map f l' with
          | Ok ys => Ok (y :: ys)
          | Raise e => Raise e
          end
      | Raise e => Raise e
      end
  end.

(** ** The string methods the program uses *)

Module Py.

(** [s.startswith(p)] *)
Fixpoint startswith (p s : string) : bool :=
  match p, s with
  | EmptyString, _ => true
  | String a p', String b s' => if Ascii.eqb a b then startswith p' s' else false
  | String _ _, EmptyString => false
  end.

(** The scan behind [s.split(sep)] for a non-empty [sep]: [skip] counts
    the characters of a separator just matched that are still to be
    passed over, [cur] is the piece being read. *)
Fixpoint split_go (sep : string) (skip : nat) (cur : string) (s : string)
  : list string :=
  match s with
  | EmptyString => [cur]
  | String c s' =>
      match skip with
      | S k => split_go sep k cur s'
      | O =>
          if startswith sep s
          then cur :: split_go sep (String.length sep - 1) EmptyString s'
          else split_go sep O (cur +:+ String c EmptyString) s'
      end
  end.

(** [s.split(sep)]: the pieces between the non-overlapping occurrences
    of [sep], found from the left. *)
Definition split (sep s : string) : list string := split_go sep O EmptyString s.

(** The blanks of [str.split()]. *)
Definition is_space (c : Ascii.ascii) : bool :=
  let n := Ascii.nat_of_ascii c in
  (Nat.eqb n 32 || (Nat.leb 9 n && Nat.leb n 13))%bool.

(** The scan behind [s.split()]: [cur] is the word being read, if any. *)
Fixpoint split_ws_go (cur : option string) (s : string) : list string :=
  match s with
  | EmptyString => match cur with Some w => [w] | None => [] end
  | String c s' =>
      if is_space c
      then match cur with
           | Some w => w :: split_ws_go None s'
           | None => split_ws_go None s'
           end
      else split_ws_go (Some (default EmptyString cur +:+ String c EmptyString)) s'
  end.

(** [s.split()]: the maximal runs of non-blank characters. *)
Definition split_ws (s : string) : list string := split_ws_go None s.

(** *** Byte strings and unicode objects *)

Definition is_ascii_char (c : Ascii.ascii) : bool := (N_of_ascii c <? 0x80)%N.

Fixpoint is_ascii (s : string) : bool :=
  match s with
  | EmptyString => true
  | String c s' => (is_ascii_char c && is_ascii s')%bool
  end.

(** [s.encode('UTF-8')] for a [str]: Python 2 first decodes the bytes
    with the default codec, [ascii], which raises on a byte above
    [\x7f]; the encoding of ASCII text is the text. *)
Definition encode_utf8 (s : string) : res string :=
  if is_ascii s then Ok s else Raise UnicodeDecodeError.

(** A continuation byte, [10xxxxxx]. *)
Definition is_cont (c : Ascii.ascii) : bool :=
  ((0x80 <=? N_of_ascii c) && (N_of_ascii c <? 0xC0))%N.

(** The six payload bits of a continuation byte. *)
Definition low6 (c : Ascii.ascii) : N := (N_of_ascii c mod 64)%N.

Definition bytes1 (a : Ascii.ascii) : string := String a EmptyString.
Definition bytes2 (a b : Ascii.ascii) : string := String a (bytes1 b).
Definition bytes3 (a b c : Ascii.ascii) : string := String a (bytes2 b c).
Definition bytes4 (a b c d : Ascii.ascii) : string := String a (bytes3 b c d).

(** The characters of a UTF-8 text, each with its code point and its
    bytes, as the strict decoder of CPython 2.7 reads them: a lead byte
    [\xc2]-[\xdf], [\xe0]-[\xef] or [\xf0]-[\xf4] with one, two or three
    continuation bytes; no overlong form and nothing above [U+10FFFF];
    surrogates are let through.  [None] when the decoder raises. *)
Fixpoint utf8_chars (s : string) : option (list (N * string)) :=
  match s with
  | EmptyString => Some []
  | String b0 s1 =>
      let n0 := N_of_ascii b0 in
      if (n0 <? 0x80)%N then cons (n0, bytes1 b0) <$> utf8_chars s1
      else if (n0 <? 0xC2)%N then None
      else if (n0 <? 0xE0)%N then
        match s1 with
        | String b1 s2 =>
            if is_cont b1
            then cons ((n0 mod 32) * 64 + low6 b1, bytes2 b0 b1)%N <$> utf8_chars s2
            else None
        | EmptyString => None
        end
      else if (n0 <? 0xF0)%N then
        match s1 with
        | String b1 (String b2 s3) =>
            if (is_cont b1 && is_cont b2
                && negb ((n0 =? 0xE0)%N && (N_of_ascii b1 <? 0xA0)%N))%bool
            then cons (((n0 mod 16) * 64 + low6 b1) * 64 + low6 b2, bytes3 b0 b1 b2)%N
                   <$> utf8_chars s3
            else None
        | _ => None
        end
      else if (n0 <? 0xF5)%N then
        match s1 with
        | String b1 (String b2 (String b3 s4)) =>
            if (is_cont b1 && is_cont b2 && is_cont b3
                && negb ((n0 =? 0xF0)%N && (N_of_ascii b1 <? 0x90)%N)
                && negb ((n0 =? 0xF4)%N && (0x8F <? N_of_ascii b1)%N))%bool
            then cons ((((n0 mod 8) * 64 + low6 b1) * 64 + low6 b2) * 64 + low6 b3,
                       bytes4 b0 b1 b2 b3)%N
                   <$> utf8_chars s4
            else None
        | _ => None
        end
      else None
  end.

Definition utf8_valid (s : string) : bool :=
  match utf8_chars s with
  | Some _ => true
  | None => false
  end.

(** [s.decode('UTF-8')]: the unicode object, which its UTF-8 encoding
    [s] represents. *)
Definition decode_utf8 (s : string) : res string :=
  if utf8_valid s then Ok s else Raise UnicodeDecodeError.

(** The blanks of [unicode.strip()] in CPython 2.7: those of [str], the
    four separator controls, and the characters of the Unicode 5.2
    database that are spaces or have a blank bidirectional type. *)
Definition is_uspace (n : N) : bool :=
  (((0x09 <=? n) && (n <=? 0x0D)) || ((0x1C <=? n) && (n <=? 0x20))
   || (n =? 0x85) || (n =? 0xA0) || (n =? 0x1680) || (n =? 0x180E)
   || ((0x2000 <=? n) && (n <=? 0x200A))
   || (n =? 0x2028) || (n =? 0x2029) || (n =? 0x202F) || (n =? 0x205F)
   || (n =? 0x3000))%N%bool.

Fixpoint lstrip_chars (cs : list (N * string)) : list (N * string) :=
  match cs with
  | c :: cs' => if is_uspace (fst c) then lstrip_chars cs' else cs
  | [] => []
  end.

Definition strip_chars (cs : list (N * string)) : list (N * string) :=
  rev (lstrip_chars (rev (lstrip_chars cs))).

Fixpoint concat_bytes (l : list string) : string :=
  match l with
  | [] => EmptyString
  | x :: l' => x +:+ concat_bytes l'
  end.

(** [s.strip()] for the decoded line that [run_cli] logs: the text
    without the blanks at its two ends. *)
Definition strip (s : string) : string :=
  match utf8_chars s with
  | Some cs => concat_bytes (snd <$> strip_chars cs)
  | None => s
  end.

(** [sep.join(l)] *)
Fixpoint join (sep : string) (l : list string) : string :=
  match l with
  | [] => EmptyString
  | [x] => x
  | x :: l' => x +:+ sep +:+ join sep l'
  end.

Fixpoint kwarg (kwargs : list (string * string)) (k : string) : option string :=
  match kwargs with
  | [] => None
  | (k', v) :: rest => if String.eqb k' k then Some v else kwarg rest k
  end.

(** The scan behind [template.format] with positional and keyword arguments. [field] is
    [None] outside a replacement field and holds the field name read
    so far inside one.  [{}] takes the next positional argument,
    [{name}] the keyword argument [name].  The templates of this
    program use neither [{{]/[}}] nor conversions, so a brace is
    always the start or the end of a field. *)
Fixpoint format_go (field : option string) (args : list string)
    (kwargs : list (string * string)) (t : string) : res string :=
  match t with
  | EmptyString =>
      match field with
      | None => Ok EmptyString
      | Some _ => Raise ValueError
      end
  | String c t' =>
      match field with
      | None =>
          if Ascii.eqb c "{"%char then format_go (Some EmptyString) args kwargs t'
          else if Ascii.eqb c "}"%char then Raise ValueError
          else match format_go None args kwargs t' with
               | Ok r => Ok (String c r)
               | Raise e => Raise e
               end
      | Some f =>
          if Ascii.eqb c "}"%char then
            match f with
            | EmptyString =>
                match args with
                | [] => Raise IndexError
                | v :: args' =>
                    match format_go None args' kwargs t' with
                    | Ok r => Ok (v +:+ r)
                    | Raise e => Raise e
                    end
                end
            | _ =>
                match kwarg kwargs f with
                | None => Raise (KeyError f)
                | Some v =>
                    match format_go None args kwargs t' with
                    | Ok r => Ok (v +:+ r)
                    | Raise e => Raise e
                    end
                end
            end
          else format_go (Some (f +:+ String c EmptyString)) args kwargs t'
      end
  end.

Definition format (t : string) (args : list string)
    (kwargs : list (string * string)) : res string :=
  format_go None args kwargs t.

(** [str(n)] for an [int] *)
Definition str_int (n : Z) : string := pretty n.

(** Truth value of an optional string or integer argument: [None],
    [''] and [0] are false. *)
Definition truthy_str (o : option string) : bool :=
  match o with
  | None | Some EmptyString => false
  | Some _ => true
  end.

Definition truthy_int (o : option Z) : bool :=
  match o with
  | None => false
  | Some n => negb (n =? 0)
  end.

End Py.

(** ** Dictionaries *)

(** A Python 2 [dict] keyed by strings that the program builds by
    storing under keys: its items, in the order in which their keys were
    first stored. *)
Record dict (V : Type) : Type := Dict { items : list (string * V) }.
Arguments Dict {V} items.
Arguments items {V} d.

Fixpoint alist_lookup {V} (k : string) (l : list (string * V)) : option V :=
  match l with
  | [] => None
  | (k', v) :: l' => if String.eqb k' k then Some v else alist_lookup k l'
  end.

(** The value of a key that is there is replaced in place; a new key
    goes to the end. *)
Fixpoint alist_insert {V} (k : string) (v : V) (l : list (string * V))
  : list (string * V) :=
  match l with
  | [] => [(k, v)]
  | (k', v') :: l' =>
      if String.eqb k' k then (k', v) :: l' else (k', v') :: alist_insert k v l'
  end.

(** [d.get(k)] is [d !! k], [d[k] = v] is [<[k := v]> d], [{}] is [∅]. *)
#[global] Instance dict_lookup {V} : Lookup string V (dict V) :=
  λ k d, alist_lookup k (items d).
#[global] Instance dict_insert {V} : Insert string V (dict V) :=
  λ k v d, Dict (alist_insert k v (items d)).
#[global] Instance dict_empty {V} : Empty (dict V) := Dict [].

(** The keys, in the order in which they were first stored. *)
Definition keys {V} (d : dict V) : list string := fst <$> items d.

(** The order in which a dictionary is iterated.  Python 2 does not
    specify it: it is the interpreter's, fixed by the keys and the order
    in which they were stored, and every key is visited once. *)
Record DictOrder : Type := {
  iter_order : list string -> list string;
  iter_order_perm : ∀ ks, iter_order ks ≡ₚ ks
}.

(** [d.iteritems()] *)
Definition iteritems {V} (o : DictOrder) (d : dict V) : list (string * V) :=
  omap (λ k, pair k <$> d !! k) (iter_order o (keys d)).

(** *** The order of CPython 2.7

    The dictionary of CPython 2.7 on a 64-bit platform, with hash
    randomisation off (the default): a table of 8 slots, open
    addressing on the hash of the key, growth to four times the number
    of keys when two thirds of the slots are taken.  Iteration visits
    the slots in order. *)

Module CPython.

Definition wrap (x : Z) : Z := x mod 2 ^ 64.

(** The hash of a [str], as the unsigned value of the C [long]. *)
Definition string_hash (s : string) : Z :=
  match s with
  | EmptyString => 0
  | String c _ =>
      let step (x : Z) (b : Ascii.ascii) :=
        Z.lxor (wrap (1000003 * x)) (Z.of_N (N_of_ascii b)) in
      let x := foldl step (Z.shiftl (Z.of_N (N_of_ascii c)) 7)
                 (String.list_ascii_of_string s) in
      let x := Z.lxor x (Z.of_nat (String.length s)) in
      if x =? 2 ^ 64 - 1 then 2 ^ 64 - 2 else x
  end.

(** A slot is free or holds a key and its hash. *)
Definition table : Type := list (option (string * Z)).

(** The probes after the first: [i = (i << 2) + i + perturb + 1], and
    [perturb >>= 5] after each. *)
Fixpoint probe (fuel : nat) (t : table) (mask i perturb : Z) : option nat :=
  match fuel with
  | O => None
  | S fuel' =>
      let i' := wrap (5 * i + perturb + 1) in
      let slot := Z.to_nat (Z.land i' mask) in
      match t !! slot with
      | Some None => Some slot
      | _ => probe fuel' t mask i' (Z.shiftr perturb 5)
      end
  end.

(** The slot for a key that is not in the table. *)
Definition free_slot (t : table) (hash : Z) : option nat :=
  let mask := Z.of_nat (length t) - 1 in
  let i := Z.land hash mask in
  match t !! Z.to_nat i with
  | Some None => Some (Z.to_nat i)
  | _ => probe (length t + 14) t mask i hash
  end.

Definition insert_clean (t : table) (e : string * Z) : table :=
  match free_slot t (snd e) with
  | Some slot => <[slot := Some e]> t
  | None => t
  end.

Definition entries (t : table) : list (string * Z) := omap id t.

(** The first power of two above [minused], from 8. *)
Fixpoint new_size (fuel size minused : nat) : nat :=
  match fuel with
  | O => size
  | S fuel' =>
      if (size <=? minused)%nat then new_size fuel' (2 * size) minused else size
  end.

Definition resize (t : table) (minused : nat) : table :=
  foldl insert_clean (replicate (new_size minused 8 minused) None) (entries t).

(** Storing under [key]: a key that is there keeps its slot. *)
Definition set_item (t : table) (key : string) : table :=
  if bool_decide (key ∈ (fst <$> entries t)) then t
  else
    let t' := insert_clean t (key, string_hash key) in
    let used := length (entries t') in
    if (2 * length t' <=? 3 * used)%nat
    then resize t' ((if (50000 <? Z.of_nat used)%Z then 2 else 4) * used)%nat
    else t'.

Definition order (ks : list string) : list string :=
  fst <$> entries (foldl set_item (replicate 8 None) ks).

End CPython.

Definition cpython27_order (ks : list string) : list string :=
  let r := CPython.order ks in
  if decide (r ⊆+ ks ∧ length ks ≤ length r)%nat then r else ks.

Definition cpython27 : DictOrder.
Proof.
  refine {| iter_order := cpython27_order |}.
  intros ks. unfold cpython27_order. cbv zeta.
  destruct (decide _) as [[H1 H2]|]; [|done].
  by apply submseteq_length_Permutation.
Defined.

(** ** Data model *)

(** One entry of the list returned by [HiveMetastoreHook.get_table_schema]:
    the dictionary [{'name': .., 'type': .., 'comment': ..}]. *)
Record Column : Type := {
  c_name : string;
  c_type : string;
  c_comment : string
}.

#[global] Instance Column_eq_dec : EqDecision Column.
Proof. solve_decision. Defined.

(** The fields of a [HiveCliHook] set by its constructor. *)
Record HiveCliHook : Type := {
  hive_cli_params : string
}.

(** The fields of a [HiveMetastoreHook] set by its constructor; the
    thrift client it holds is part of the environment (see [Env]). *)
Record HiveMetastoreHook : Type := {
  host : string;
  port : Z
}.

(** The fields of a [HiveToVWInput] object; [nsgroups] maps a namespace
    to its [(cname, ctype)] pairs. *)
Record HiveToVWInput : Type := {
  src_db : string;
  src_table_name : string;
  dst_db : string;
  dst_table_name : string;
  src_table : string;
  dst_table : string;
  filter_sql : option string;
  excludes : list string;
  label_column : string;
  limit : option Z;
  tag_column : string;
  custom_namespaces : gmap string string;
  metastore_conn : HiveMetastoreHook;
  hive_conn : HiveCliHook;
  nsgroups : dict (list (string * string))
}.

(** ** Namespace grouping *)

(** The body of the loop of [get_ns_groups] for one column [c]. *)
Definition ns_step (self : HiveToVWInput)
    (nsgroups : dict (list (string * string))) (c : Column)
  : dict (list (string * string)) :=
  let cname := c_name c in
  let ctype := c_type c in
  if bool_decide (cname ∈ excludes self ++ [label_column self; tag_column self])
  then nsgroups
  else match custom_namespaces self !! cname with
       | Some cns =>
           <[cns := default [] (nsgroups !! cns) ++ [(cname, ctype)]]> nsgroups
       | None =>
           if (2 <? length (Py.split "__" cname))%nat
           then
             let ns := nth 1 (Py.split "__" cname) EmptyString in
             <[ns := default [] (nsgroups !! ns) ++ [(cname, ctype)]]> nsgroups
           else
             <["other" := default [] (nsgroups !! "other") ++ [(cname, ctype)]]> nsgroups
       end.

(** The loop of [get_ns_groups] over the schema [cols] that the
    metastore returned for the source table (for the fetch, see
    [get_ns_groups_of_table]). *)
Definition get_ns_groups (self : HiveToVWInput) (cols : list Column)
  : dict (list (string * string)) :=
  foldl (ns_step self) ∅ cols.

(** ** Query generation *)

(** [__col_sql] *)
Definition col_sql (colname coltype : string) : res string :=
  if String.eqb coltype "double" then
    Py.format "CASE WHEN COALESCE(CAST({col} AS DOUBLE),0.0) = 0.0 THEN '' ELSE CONCAT('{col}:', PRINTF('%.2f', {col}), ' ') END"
      [] [("col", colname)]
  else if bool_decide (coltype ∈ ["bigint"; "int"]) then
    Py.format "CASE WHEN COALESCE({col},0) = 0 THEN '' ELSE CONCAT('{col}:', PRINTF('%d', {col}), ' ') END"
      [] [("col", colname)]
  else if bool_decide (coltype ∈ ["boolean"]) then
    Py.format "CASE WHEN COALESCE(CAST({col} as int),0) = 0 THEN '' ELSE CONCAT('{col}:', PRINTF('%d', CAST({col} as int)), ' ') END"
      [] [("col", colname)]
  else if String.eqb coltype "string" then
    Py.format "CASE WHEN COALESCE({col},'') = '' THEN '' ELSE CONCAT(REGEXP_REPLACE({col}, '[\\x00-\\x2a|\\x2c|\\x2f|\\x3a-\\x40|\\x5b-\\x5e|\\x60|\\x7b-\\x7f]', ''), ' ') END"
      [] [("col", colname)]
  else Raise NotImplementedError.

(** One round of the loop of [__col_ns]: the block of namespace [ns]. *)
Definition col_ns_block (item : string * list (string * string)) : res string :=
  (let '(ns, cols) := item in
   fs <-? res_map (fun c => col_sql (fst c) (snd c)) cols;
   Py.format "
'|{ns} '
, {fs}" [] [("ns", ns); ("fs", Py.join "
," fs)])%res.

(** [__col_ns]: one block for each item of the dictionary, in the order
    of [iteritems]. *)
Definition col_ns (o : DictOrder) (namespaces : dict (list (string * string)))
  : res string :=
  (featureset <-? res_map col_ns_block (iteritems o namespaces);
   Ok (Py.join "," featureset))%res.

(** [__assemble_sql] *)
Definition assemble_sql (o : DictOrder) (self : HiveToVWInput)
    (cols : dict (list (string * string)))
    (label_col tag_col src_table : string) : res string :=
  (s <-? (if Py.truthy_str (filter_sql self)
          then Py.format "AND {}" [default EmptyString (filter_sql self)] []
          else Ok EmptyString);
   cols_sql <-? col_ns o cols;
   Py.format "
            SELECT CONCAT(PRINTF('%.4f', COALESCE({label}, 0.0)), ' 1.0 ', {tag_col}, {cols} )
            FROM {table_name}
            WHERE ds > ''
                AND {label} IS NOT NULL
                {sample}
            " []
     [("label", label_col); ("cols", cols_sql); ("tag_col", tag_col);
      ("table_name", src_table); ("sample", s)])%res.

(** [gen_sql] *)
Definition gen_sql (o : DictOrder) (self : HiveToVWInput) : res string :=
  (select_sql <-? assemble_sql o self (nsgroups self) (label_column self)
                    (tag_column self) (src_table self);
   limit_sql <-? (if Py.truthy_int (limit self)
                  then Py.format "LIMIT {}" [Py.str_int (default 0 (limit self))] []
                  else Ok EmptyString);
   Py.format "
            SET hive.exec.compress.output=false;
            SET mapred.reduce.tasks=10;
            INSERT OVERWRITE TABLE {dst_db}.{dst_table}
            {select_sql}
            {limit_sql}
            ;
        " []
     [("dst_db", dst_db self); ("dst_table", dst_table_name self);
      ("select_sql", select_sql); ("limit_sql", limit_sql)])%res.

(** ** The generated expressions, as the engine evaluates them

    [__col_sql] returns HiveQL text; what a row's token is depends on how
    Hive evaluates that text.  [Hive.expr] is the syntax of the expression
    forms the generator emits, [Hive.render] prints it as the generator
    writes it, and [Hive.eval] gives the standard meaning of [COALESCE],
    [CAST], [PRINTF], [CONCAT], [REGEXP_REPLACE] and [CASE WHEN] on one
    row.  A double is modelled by the rational it denotes. *)

Module Hive.

Inductive value : Type :=
  | VNull
  | VInt (n : Z)
  | VDouble (q : Q)
  | VBool (b : bool)
  | VStr (s : string).

Inductive cast_type : Type := AsDouble | AsInt.

(** The items of a bracketed character class: a character or a range of
    characters given by [\x] escapes, or a literal bar. *)
Inductive class_item : Type :=
  | Hex (code : N)
  | HexRange (lo hi : N)
  | Bar.

Inductive expr : Type :=
  | Col (name : string)
  | IntLit (n : Z)
  | DoubleZero
  | StrLit (s : string)
  | Cast (e : expr) (t : cast_type)
  | Coalesce (a b : expr)
  | Printf (fmt : string) (e : expr)
  | Concat (es : list expr)
  | RegexpReplace (e : expr) (cls : list class_item) (repl : string)
  | CaseWhenEq (a b : expr) (e_then e_else : expr).

(** *** Concrete syntax *)

Definition hex_digit (n : N) : string :=
  match String.get (N.to_nat n) "0123456789abcdef" with
  | Some c => String c EmptyString
  | None => "?"
  end.

(** [\xhh] inside a quoted literal, where the backslash is doubled. *)
Definition render_hex (n : N) : string :=
  "\\x" +:+ hex_digit (n / 16) +:+ hex_digit (n mod 16).

Definition render_item (i : class_item) : string :=
  match i with
  | Hex n => render_hex n
  | HexRange lo hi => render_hex lo +:+ "-" +:+ render_hex hi
  | Bar => "|"
  end.

Definition render_class (cls : list class_item) : string :=
  "[" +:+ Py.join EmptyString (render_item <$> cls) +:+ "]".

Fixpoint render (e : expr) : string :=
  match e with
  | Col name => name
  | IntLit n => pretty n
  | DoubleZero => "0.0"
  | StrLit s => "'" +:+ s +:+ "'"
  | Cast e AsDouble => "CAST(" +:+ render e +:+ " AS DOUBLE)"
  | Cast e AsInt => "CAST(" +:+ render e +:+ " as int)"
  | Coalesce a b => "COALESCE(" +:+ render a +:+ "," +:+ render b +:+ ")"
  | Printf fmt e => "PRINTF('" +:+ fmt +:+ "', " +:+ render e +:+ ")"
  | Concat es => "CONCAT(" +:+ Py.join ", " (render <$> es) +:+ ")"
  | RegexpReplace e cls repl =>
      "REGEXP_REPLACE(" +:+ render e +:+ ", '" +:+ render_class cls +:+ "', '"
        +:+ repl +:+ "')"
  | CaseWhenEq a b e_then e_else =>
      "CASE WHEN " +:+ render a +:+ " = " +:+ render b +:+ " THEN "
        +:+ render e_then +:+ " ELSE " +:+ render e_else +:+ " END"
  end.

(** *** Meaning *)

Definition item_matches (c : ascii) (i : class_item) : bool :=
  let n := N_of_ascii c in
  match i with
  | Hex k => (n =? k)%N
  | HexRange lo hi => ((lo <=? n) && (n <=? hi))%N
  | Bar => (n =? 124)%N
  end.

Definition class_matches (cls : list class_item) (c : ascii) : bool :=
  existsb (item_matches c) cls.

(** [REGEXP_REPLACE(s, '[cls]', repl)]: every character of the class is
    replaced by [repl]. *)
Fixpoint replace_class (cls : list class_item) (repl : string) (s : string) : string :=
  match s with
  | EmptyString => EmptyString
  | String c s' =>
      if class_matches cls c
      then repl +:+ replace_class cls repl s'
      else String c (replace_class cls repl s')
  end.

Fixpoint zeros (n : nat) : string :=
  match n with
  | O => EmptyString
  | S n' => String "0" (zeros n')
  end.

(** [%.df]: [d] digits after the point, the last one rounded half up. *)
Definition fixed (d : nat) (q : Q) : string :=
  let scale := 10 ^ Z.of_nat d in
  let den := Z.pos (Qden q) in
  let r := (2 * Z.abs (Qnum q) * scale + den) / (2 * den) in
  let frac := pretty (r mod scale) in
  (if Qnum q <? 0 then "-" else EmptyString)
    +:+ pretty (r / scale) +:+ "."
    +:+ zeros (d - String.length frac) +:+ frac.

Definition printf (fmt : string) (v : value) : option string :=
  match v with
  | VInt n => if String.eqb fmt "%d" then Some (pretty n) else None
  | VDouble q =>
      if String.eqb fmt "%.2f" then Some (fixed 2 q)
      else if String.eqb fmt "%.4f" then Some (fixed 4 q)
      else None
  | _ => None
  end.

Definition cast (t : cast_type) (v : value) : option value :=
  match t, v with
  | _, VNull => Some VNull
  | AsDouble, VDouble q => Some (VDouble q)
  | AsDouble, VInt n => Some (VDouble (inject_Z n))
  | AsDouble, VBool b => Some (VDouble (if b then 1 else 0)%Q)
  | AsInt, VInt n => Some (VInt n)
  | AsInt, VBool b => Some (VInt (if b then 1 else 0))
  | AsInt, VDouble q => Some (VInt (Z.quot (Qnum q) (Z.pos (Qden q))))
  | _, VStr _ => None
  end.

(** [a = b] is true, or not true (false or unknown: a [NULL] operand);
    [None] for operands whose comparison is not modelled. *)
Definition sql_eq (a b : value) : option bool :=
  match a, b with
  | VNull, _ | _, VNull => Some false
  | VInt m, VInt n => Some (m =? n)
  | VDouble p, VDouble q => Some (Qeq_bool p q)
  | VInt m, VDouble q | VDouble q, VInt m => Some (Qeq_bool (inject_Z m) q)
  | VStr s, VStr t => Some (String.eqb s t)
  | VBool x, VBool y => Some (Bool.eqb x y)
  | _, _ => None
  end.

(** [CONCAT] of evaluated arguments: [NULL] if one of them is. *)
Fixpoint concat_values (vs : list (option value)) : option value :=
  match vs with
  | [] => Some (VStr EmptyString)
  | v :: vs' =>
      match v, concat_values vs' with
      | Some (VStr a), Some (VStr b) => Some (VStr (a +:+ b))
      | Some VNull, Some _ => Some VNull
      | Some (VStr _), Some VNull => Some VNull
      | _, _ => None
      end
  end.

Fixpoint eval (row : string -> value) (e : expr) : option value :=
  match e with
  | Col name => Some (row name)
  | IntLit n => Some (VInt n)
  | DoubleZero => Some (VDouble 0)
  | StrLit s => Some (VStr s)
  | Cast e t => v ← eval row e; cast t v
  | Coalesce a b =>
      match eval row a with
      | Some VNull => eval row b
      | r => r
      end
  | Printf fmt e => v ← eval row e; VStr <$> printf fmt v
  | Concat es => concat_values (eval row <$> es)
  | RegexpReplace e cls repl =>
      match eval row e with
      | Some (VStr s) => Some (VStr (replace_class cls repl s))
      | Some VNull => Some VNull
      | _ => None
      end
  | CaseWhenEq a b e_then e_else =>
      va ← eval row a;
      vb ← eval row b;
      c ← sql_eq va vb;
      if c : bool then eval row e_then else eval row e_else
  end.

(** *** The four rules of [__col_sql] as expressions *)

Definition double_rule (col : string) : expr :=
  CaseWhenEq (Coalesce (Cast (Col col) AsDouble) DoubleZero) DoubleZero
    (StrLit EmptyString)
    (Concat [StrLit (col +:+ ":"); Printf "%.2f" (Col col); StrLit " "]).

Definition int_rule (col : string) : expr :=
  CaseWhenEq (Coalesce (Col col) (IntLit 0)) (IntLit 0)
    (StrLit EmptyString)
    (Concat [StrLit (col +:+ ":"); Printf "%d" (Col col); StrLit " "]).

Definition boolean_rule (col : string) : expr :=
  CaseWhenEq (Coalesce (Cast (Col col) AsInt) (IntLit 0)) (IntLit 0)
    (StrLit EmptyString)
    (Concat [StrLit (col +:+ ":"); Printf "%d" (Cast (Col col) AsInt); StrLit " "]).

(** The character class of the [string] rule. *)
Definition denylist : list class_item :=
  [HexRange 0x00 0x2a; Bar; Hex 0x2c; Bar; Hex 0x2f; Bar; HexRange 0x3a 0x40; Bar;
   HexRange 0x5b 0x5e; Bar; Hex 0x60; Bar; HexRange 0x7b 0x7f]%N.

Definition string_rule (col : string) : expr :=
  CaseWhenEq (Coalesce (Col col) (StrLit EmptyString)) (StrLit EmptyString)
    (StrLit EmptyString)
    (Concat [RegexpReplace (Col col) denylist EmptyString; StrLit " "]).

End Hive.

(** ** The world outside the program *)

Inductive level : Type := INFO | ERROR.

(** What an observer of a run can see, in the order it happens. *)
Inductive event : Type :=
  | EvLog (lvl : level) (msg : string)
  | EvTmpCreate (path : string)
  | EvTmpWrite (path : string) (data : string)
  | EvTmpDelete (path : string)
  | EvSpawn (cmd : list string) (cwd : string)
  | EvWait (returncode : Z)
  | EvGetTable (table_name db : string)
  | EvTransportOpen
  | EvTransportClose.

(** How the environment answers one call of [run_cli]. *)
Inductive cli_outcome : Type :=
  | TmpFails                                   (* NamedTemporaryFile raises *)
  | WriteFails                                 (* f.write or f.flush raises *)
  | SpawnFails                                 (* subprocess.Popen raises *)
  | Runs (lines : list string) (returncode : Z).
      (* the process starts, prints [lines] and exits with [returncode] *)

(** A column of a table object the metastore returns. *)
Record FieldSchema : Type := {
  fs_name : string;
  fs_type : string;
  fs_comment : string
}.

(** The table object the metastore returns: the fields [sd.cols] and
    [sd.location] that the program reads. *)
Record Table : Type := {
  sd_cols : list FieldSchema;
  sd_location : string
}.

Record Env : Type := {
  (* the path NamedTemporaryFile picks at the n-th call of run_cli *)
  env_tmp_name : nat -> string;
  (* the answer to the n-th call of run_cli *)
  env_cli : nat -> cli_outcome;
  (* the thrift and hive_service modules can be imported *)
  env_thrift : bool;
  (* the transport to the metastore can be opened *)
  env_transport : bool;
  (* the table the metastore has under a database and a table name,
     None if its get_table raises *)
  env_table : string -> string -> option Table
}.

(** The [Popen] object kept in [HiveCliHook.sp]. *)
Record Popen : Type := {
  p_args : list string;
  p_returncode : option Z
}.

Record World : Type := {
  w_files : gmap string string;   (* the files under /tmp/ and their content *)
  w_trace : list event;           (* oldest event first *)
  w_calls : nat;                  (* calls of run_cli so far *)
  w_sp : option Popen             (* the field sp of the shared HiveCliHook *)
}.

Definition M (A : Type) : Type := World -> World * res A.

Definition ret {A} (a : A) : M A := fun w => (w, Ok a).
Definition raise {A} (e : exn) : M A := fun w => (w, Raise e).
Definition bind {A B} (m : M A) (k : A -> M B) : M B :=
  fun w =>
    match m w with
    | (w', Ok a) => k a w'
    | (w', Raise e) => (w', Raise e)
    end.
Definition lift {A} (r : res A) : M A := fun w => (w, r).

Declare Scope m_scope.
Delimit Scope m_scope with M.
Notation "x <- m ;; k" := (bind m (fun x => k))
  (at level 100, m at next level, right associativity) : m_scope.
Notation "m ;; k" := (bind m (fun _ => k))
  (at level 100, right associativity) : m_scope.

(** [try: body / except: handler], for a body whose value is bound to a
    local variable that the handler may read. *)
Definition try_except {A B} (body : M A) (on_ok : A -> M B) (handler : exn -> M B) : M B :=
  fun w =>
    match body w with
    | (w', Ok a) => on_ok a w'
    | (w', Raise e) => handler e w'
    end.

(** Reading a local variable that may not have been assigned. *)
Definition local {A} (name : string) (v : option A) : M A :=
  match v with
  | Some a => ret a
  | None => raise (UnboundLocalError name)
  end.

Definition add_events (evs : list event) (w : World) : World :=
  {| w_files := w_files w; w_trace := w_trace w ++ evs;
     w_calls := w_calls w; w_sp := w_sp w |}.

Definition emit (e : event) : M unit := fun w => (add_events [e] w, Ok tt).

Definition logging_info (msg : string) : M unit := emit (EvLog INFO msg).
Definition logging_error (msg : string) : M unit := emit (EvLog ERROR msg).

(** The environment's answer to this call of [run_cli]; the call is
    counted. *)
Definition next_call (env : Env) : M (nat * cli_outcome) :=
  fun w => ({| w_files := w_files w; w_trace := w_trace w;
               w_calls := S (w_calls w); w_sp := w_sp w |},
            Ok (w_calls w, env_cli env (w_calls w))).

Definition set_files (f : gmap string string -> gmap string string) : M unit :=
  fun w => ({| w_files := f (w_files w); w_trace := w_trace w;
               w_calls := w_calls w; w_sp := w_sp w |}, Ok tt).

Definition set_sp (sp : Popen) : M unit :=
  fun w => ({| w_files := w_files w; w_trace := w_trace w;
               w_calls := w_calls w; w_sp := Some sp |}, Ok tt).

(** [with NamedTemporaryFile(dir=tmp_dir) as f: body].  The file is
    created empty; leaving the block, by its end or by an exception,
    closes the file, which deletes it. *)
Definition with_NamedTemporaryFile {A} (outcome : cli_outcome) (path : string)
    (body : string -> M A) : M A :=
  match outcome with
  | TmpFails => raise OSError
  | _ =>
      fun w =>
        match (set_files (insert path EmptyString);; emit (EvTmpCreate path);;
               body path)%M w with
        | (w', r) =>
            match (set_files (delete path);; emit (EvTmpDelete path))%M w' with
            | (w'', _) => (w'', r)
            end
        end
  end.

(** [f.write(data); f.flush()] *)
Definition write_flush (outcome : cli_outcome) (path data : string) : M unit :=
  match outcome with
  | WriteFails => raise IOError
  | _ => (set_files (insert path data);; emit (EvTmpWrite path data))%M
  end.

(** [subprocess.Popen(cmd, stdout=PIPE, stderr=STDOUT, cwd=cwd)]: the
    lines the process will print, and its exit code. *)
Definition Popen_spawn (outcome : cli_outcome) (cmd : list string) (cwd : string)
  : M (list string * Z) :=
  match outcome with
  | Runs lines returncode => (emit (EvSpawn cmd cwd);; ret (lines, returncode))%M
  | _ => raise OSError
  end.

(** ** HiveCliHook *)

(** [_prepare_cli_cmd] *)
Definition _prepare_cli_cmd (self : HiveCliHook) : list string :=
  let hive_bin := "hive" in
  let cmd_extra := [] in
  let hive_params_list := Py.split_ws (hive_cli_params self) in
  [hive_bin] ++ cmd_extra ++ hive_params_list.

(** [_prepare_hiveconf]: for a non-empty dictionary the body calls
    [as_flattened_list], a name the module neither defines nor imports. *)
Definition _prepare_hiveconf (d : option (list (string * string))) : res (list string) :=
  match d with
  | None | Some [] => Ok []
  | Some _ => Raise (NameError "as_flattened_list")
  end.

(** The [while True] loop of [run_cli]: [readline] returns the next line
    of the process, and the empty string at the end of its output.
    Each line is decoded, once for [stdout] and once for the log. *)
Fixpoint read_lines (verbose : bool) (lines : list string) (stdout : string) : M string :=
  match lines with
  | [] => ret stdout
  | line :: rest =>
      match line with
      | EmptyString => ret stdout
      | _ =>
          (text <- lift (Py.decode_utf8 line);;
           let stdout := stdout +:+ text in
           (if verbose
            then text <- lift (Py.decode_utf8 line);; logging_info (Py.strip text)
            else ret tt);;
           read_lines verbose rest stdout)%M
      end
  end.

(** [run_cli] *)
Definition run_cli (env : Env) (self : HiveCliHook) (hql : string)
    (schema : option string) (verbose : bool)
    (hive_conf : option (list (string * string))) : M string :=
  (hql <- (if Py.truthy_str schema
           then lift (Py.format "USE {schema};
{hql}" [] [("hql", hql); ("schema", default EmptyString schema)])
           else ret hql);;
   let tmp_dir := "/tmp/" in
   call <- next_call env;;
   let '(n, outcome) := call in
   with_NamedTemporaryFile outcome (env_tmp_name env n) (fun f_name =>
     data <- lift (Py.encode_utf8 hql);;
     write_flush outcome f_name data;;
     let hive_cmd := _prepare_cli_cmd self in
     hive_conf_params <- lift (_prepare_hiveconf hive_conf);;
     let hive_cmd := hive_cmd ++ hive_conf_params in
     let hive_cmd := hive_cmd ++ ["-f"; f_name] in
     (if verbose then logging_info (Py.join " " hive_cmd) else ret tt);;
     sp <- Popen_spawn outcome hive_cmd tmp_dir;;
     let '(lines, returncode) := sp in
     set_sp {| p_args := hive_cmd; p_returncode := None |};;
     stdout <- read_lines verbose lines EmptyString;;
     emit (EvWait returncode);;
     set_sp {| p_args := hive_cmd; p_returncode := Some returncode |};;
     (if negb (returncode =? 0)
      then logging_error "Problem when running:";;
           logging_error hql;;
           msg <- lift (Py.format "Command returned {}" [Py.str_int returncode] []);;
           logging_error msg
      else ret tt);;
     ret stdout))%M.

(** [HiveCliHook.__init__] *)
Definition HiveCliHook_init (hive_cli_params : option string) : HiveCliHook :=
  {| hive_cli_params := if Py.truthy_str hive_cli_params
                        then default EmptyString hive_cli_params
                        else EmptyString |}.

(** ** HiveMetastoreHook *)

(** [HiveMetastoreHook.__init__]: [get_metastore_client] imports the
    thrift modules and builds the client around a socket that is not
    opened yet. *)
Definition HiveMetastoreHook_init (env : Env) (host : string) (port : Z)
  : M HiveMetastoreHook :=
  if env_thrift env then ret {| host := host; port := port |} else raise ImportError.

(** [sub in s] *)
Fixpoint contains (sub s : string) : bool :=
  (Py.startswith sub s
   || match s with
      | EmptyString => false
      | String _ s' => contains sub s'
      end)%bool.

(** The names [get_table] asks the metastore for: a qualified table name
    given with the database [default] is taken apart. *)
Definition get_table_names (table_name db : string) : res (string * string) :=
  if (String.eqb db "default" && contains "." table_name)%bool
  then match firstn 2 (Py.split "." table_name) with
       | [db'; table_name'] => Ok (table_name', db')
       | _ => Raise ValueError
       end
  else Ok (table_name, db).

(** [get_table]: the transport is opened, the table is asked for, and
    the transport is closed when the metastore answered. *)
Definition get_table (env : Env) (self : HiveMetastoreHook) (table_name db : string)
  : M Table :=
  (emit (EvGetTable table_name db);;
   (if env_transport env then emit EvTransportOpen else raise MetastoreError);;
   names <- lift (get_table_names table_name db);;
   let '(table_name, db) := names in
   table <- match env_table env db table_name with
            | Some t => ret t
            | None => raise MetastoreError
            end;;
   emit EvTransportClose;;
   ret table)%M.

(** [get_table_location] *)
Definition get_table_location (env : Env) (self : HiveMetastoreHook)
    (table_name db : string) : M string :=
  (table <- get_table env self table_name db;;
   ret (sd_location table))%M.

(** [get_table_schema]: the columns of the table, each as the
    dictionary of its name, type and comment. *)
Definition get_table_schema (env : Env) (self : HiveMetastoreHook)
    (table_name db : string) : M (list Column) :=
  (table <- get_table env self table_name db;;
   ret ((λ c, {| c_name := fs_name c; c_type := fs_type c; c_comment := fs_comment c |})
          <$> sd_cols table))%M.

(** ** The pipeline *)

(** [create_dest_table] *)
Definition create_dest_table (env : Env) (self : HiveToVWInput) : M unit :=
  (sql <- lift (Py.format "
        DROP TABLE IF EXISTS {ns}.{table};
        CREATE EXTERNAL TABLE {ns}.{table} (
            input_line    STRING
        )
        STORED AS TEXTFILE
        ;
        " [] [("ns", dst_db self); ("table", dst_table_name self)]);;
   logging_info sql;;
   try_except (run_cli env (hive_conn self) sql None true None)
     (fun output => ret tt)
     (fun _ =>
        (* the assignment of the try block did not happen *)
        output <- local "output" None;;
        logging_error output))%M.

(** [run] *)
Definition run (o : DictOrder) (env : Env) (self : HiveToVWInput) : M unit :=
  (create_dest_table env self;;
   finalsql <- lift (gen_sql o self);;
   logging_info finalsql;;
   output <- run_cli env (hive_conn self) finalsql None true None;;
   logging_info output;;
   dest_loc <- get_table_location env (metastore_conn self)
                 (dst_table_name self) (dst_db self);;
   msg <- lift (Py.format "You should be able to find your files at {}" [dest_loc] []);;
   logging_info msg)%M.

Definition with_nsgroups (self : HiveToVWInput)
    (g : dict (list (string * string))) : HiveToVWInput :=
  {| src_db := src_db self; src_table_name := src_table_name self;
     dst_db := dst_db self; dst_table_name := dst_table_name self;
     src_table := src_table self; dst_table := dst_table self;
     filter_sql := filter_sql self; excludes := excludes self;
     label_column := label_column self; limit := limit self;
     tag_column := tag_column self;
     custom_namespaces := custom_namespaces self;
     metastore_conn := metastore_conn self;
     hive_conn := hive_conn self; nsgroups := g |}.

(** [get_ns_groups] with its first line: the schema is fetched from the
    metastore, then grouped. *)
Definition get_ns_groups_of_table (env : Env) (self : HiveToVWInput)
    (table_name db : string) : M (dict (list (string * string))) :=
  (cols <- get_table_schema env (metastore_conn self) table_name db;;
   ret (get_ns_groups self cols))%M.

(** [HiveToVWInput.__init__] *)
Definition init (env : Env) (src_table dst_table label_column tag_column : string)
    (limit : option Z) (filter_sql : option string)
    (excludes : option (list string))
    (custom_namespaces : option (gmap string string))
    (hive_metastore_host : string) (hive_metastore_port : Z) : M HiveToVWInput :=
  match Py.split "." src_table with
  | [src_db; src_table_name] =>
      if negb (length (Py.split "." dst_table) =? 1)%nat then raise TypeError
      else
        (metastore_conn <- HiveMetastoreHook_init env hive_metastore_host
                             hive_metastore_port;;
         let self := {|
           src_db := src_db; src_table_name := src_table_name;
           dst_db := "tmp"; dst_table_name := dst_table;
           src_table := src_table; dst_table := dst_table;
           filter_sql := filter_sql;
           excludes := default [] excludes;
           label_column := label_column;
           limit := limit;
           tag_column := tag_column;
           custom_namespaces := default ∅ custom_namespaces;
           metastore_conn := metastore_conn;
           hive_conn := HiveCliHook_init None;
           nsgroups := ∅ |} in
         nsgroups <- get_ns_groups_of_table env self src_table_name src_db;;
         ret (with_nsgroups self nsgroups))%M
  | _ => raise TypeError
  end.

(** * The vocabulary of the statements *)

(** The first test of the loop body of [get_ns_groups]: the column is
    excluded, or is the label or the tag. *)
Definition omitted (self : HiveToVWInput) (cname : string) : Prop :=
  cname ∈ excludes self ∨ cname = label_column self ∨ cname = tag_column self.

#[global] Instance omitted_dec self cname : Decision (omitted self cname).
Proof. unfold omitted. apply _. Defined.

(** The namespace the remaining branches choose for a column name. *)
Definition namespace_of (self : HiveToVWInput) (cname : string) : string :=
  match custom_namespaces self !! cname with
  | Some cns => cns
  | None =>
      if (2 <? length (Py.split "__" cname))%nat
      then nth 1 (Py.split "__" cname) EmptyString
      else "other"
  end.

Definition pair_of (c : Column) : string * string := (c_name c, c_type c).

(** The columns of [cols] that belong to namespace [ns], in schema order. *)
Definition members (self : HiveToVWInput) (ns : string) (cols : list Column)
  : list (string * string) :=
  pair_of <$> filter (λ c, ¬ omitted self (c_name c) ∧ namespace_of self (c_name c) = ns) cols.

(** The schema of the example scenario: table [sales.orders]. *)
Definition orders_cols : list Column :=
  [ {| c_name := "amount"; c_type := "double"; c_comment := EmptyString |};
    {| c_name := "is_rush"; c_type := "boolean"; c_comment := EmptyString |};
    {| c_name := "region__geo__code"; c_type := "string"; c_comment := EmptyString |};
    {| c_name := "converted"; c_type := "int"; c_comment := EmptyString |};
    {| c_name := "order_id"; c_type := "string"; c_comment := EmptyString |} ].

(** Every line up to the first empty one is valid UTF-8: the output of
    a process that [run_cli] can decode. *)
Fixpoint decodable (lines : list string) : bool :=
  match lines with
  | [] => true
  | EmptyString :: _ => true
  | line :: rest => (Py.utf8_valid line && decodable rest)%bool
  end.

(** The types that have a rule. *)
Definition supported : list string := ["double"; "bigint"; "int"; "boolean"; "string"].

(** What [REGEXP_REPLACE(_, denylist, '')] does to a value. *)
Definition strip_denied (s : string) : string :=
  Hive.replace_class Hive.denylist EmptyString s.

Definition denied (c : ascii) : bool := Hive.class_matches Hive.denylist c.

(** The text [__assemble_sql] puts after the label test of the WHERE
    clause. *)
Definition sample_text (filter_sql : option string) : string :=
  match filter_sql with
  | None | Some EmptyString => EmptyString
  | Some f => "AND " +:+ f
  end.

(** The text [gen_sql] puts after the SELECT statement. *)
Definition limit_text (limit : option Z) : string :=
  match limit with
  | None => EmptyString
  | Some n => if n =? 0 then EmptyString else "LIMIT " +:+ pretty n
  end.

(** The SELECT statement, given the feature expression [feats]. *)
Definition select_text (label tag feats table sample : string) : string :=
  "
            SELECT CONCAT(PRINTF('%.4f', COALESCE(" +:+ label +:+ ", 0.0)), ' 1.0 ', "
    +:+ tag +:+ ", " +:+ feats +:+ " )
            FROM " +:+ table +:+ "
            WHERE ds > ''
                AND " +:+ label +:+ " IS NOT NULL
                " +:+ sample +:+ "
            ".

(** The INSERT statement around a SELECT statement. *)
Definition insert_text (db table select limit : string) : string :=
  "
            SET hive.exec.compress.output=false;
            SET mapred.reduce.tasks=10;
            INSERT OVERWRITE TABLE " +:+ db +:+ "." +:+ table +:+ "
            " +:+ select +:+ "
            " +:+ limit +:+ "
            ;
        ".

(** The block of one namespace, given the rules [fs] of its columns. *)
Definition block_text (ns : string) (fs : list string) : string :=
  "
'|" +:+ ns +:+ " '
, " +:+ Py.join "
," fs.

(** The rule of a column whose type has one, as [__col_sql] writes it. *)
Definition rule_text (c : string * string) : string :=
  if String.eqb (snd c) "double" then Hive.render (Hive.double_rule (fst c))
  else if bool_decide (snd c ∈ ["bigint"; "int"]) then Hive.render (Hive.int_rule (fst c))
  else if bool_decide (snd c ∈ ["boolean"]) then Hive.render (Hive.boolean_rule (fst c))
  else Hive.render (Hive.string_rule (fst c)).

(** The block of one item of the namespace map. *)
Definition block_of (item : string * list (string * string)) : string :=
  block_text (fst item) (rule_text <$> snd item).

(** The feature expression: the blocks of the items in the order of
    iteration, with commas between them. *)
Definition features_text (o : DictOrder) (m : dict (list (string * string))) : string :=
  Py.join "," (block_of <$> iteritems o m).

Definition with_limit (self : HiveToVWInput) (limit : option Z) : HiveToVWInput :=
  {| src_db := src_db self; src_table_name := src_table_name self;
     dst_db := dst_db self; dst_table_name := dst_table_name self;
     src_table := src_table self; dst_table := dst_table self;
     filter_sql := filter_sql self; excludes := excludes self;
     label_column := label_column self; limit := limit;
     tag_column := tag_column self;
     custom_namespaces := custom_namespaces self;
     metastore_conn := metastore_conn self;
     hive_conn := hive_conn self; nsgroups := nsgroups self |}.

Definition with_filter_sql (self : HiveToVWInput) (filter_sql : option string)
  : HiveToVWInput :=
  {| src_db := src_db self; src_table_name := src_table_name self;
     dst_db := dst_db self; dst_table_name := dst_table_name self;
     src_table := src_table self; dst_table := dst_table self;
     filter_sql := filter_sql; excludes := excludes self;
     label_column := label_column self; limit := limit self;
     tag_column := tag_column self;
     custom_namespaces := custom_namespaces self;
     metastore_conn := metastore_conn self;
     hive_conn := hive_conn self; nsgroups := nsgroups self |}.

(** The text the loop of [run_cli] accumulates when it can decode the
    lines: the lines up to the first empty one. *)
Fixpoint read_text (lines : list string) : string :=
  match lines with
  | [] => EmptyString
  | EmptyString :: _ => EmptyString
  | line :: rest => line +:+ read_text rest
  end.

(** The events of the loop of [run_cli]: the lines are logged up to
    the first one that is empty or cannot be decoded. *)
Fixpoint read_events (verbose : bool) (lines : list string) : list event :=
  match lines with
  | [] => []
  | EmptyString :: _ => []
  | line :: rest =>
      if Py.utf8_valid line
      then (if verbose then [EvLog INFO (Py.strip line)] else [])
           ++ read_events verbose rest
      else []
  end.

(** The query text [run_cli] writes to the file. *)
Definition effective_hql (schema : option string) (hql : string) : string :=
  match schema with
  | None | Some EmptyString => hql
  | Some s => "USE " +:+ s +:+ ";
" +:+ hql
  end.

(** A call of [run_cli] without [hive_conf] returns: the query text is
    ASCII, the process starts and its lines can be decoded. *)
Definition cli_returns (outcome : cli_outcome) (hql : string) : bool :=
  match outcome with
  | Runs lines _ => (Py.is_ascii hql && decodable lines)%bool
  | _ => false
  end.

(** The exception of a call of [run_cli] without [hive_conf] that does
    not return. *)
Definition cli_exn (outcome : cli_outcome) (hql : string) : exn :=
  match outcome with
  | TmpFails => OSError
  | WriteFails => if Py.is_ascii hql then IOError else UnicodeDecodeError
  | SpawnFails => if Py.is_ascii hql then OSError else UnicodeDecodeError
  | Runs _ _ => UnicodeDecodeError
  end.

(** The events after the loop of [run_cli], when it has read all the
    lines. *)
Definition wait_events (hql : string) (returncode : Z) : list event :=
  [EvWait returncode]
  ++ (if returncode =? 0 then []
      else [EvLog ERROR "Problem when running:"; EvLog ERROR hql;
            EvLog ERROR ("Command returned " +:+ pretty returncode)]).

(** The events of a call of [run_cli] whose process starts: the loop
    stops at a line that cannot be decoded, and the process is waited
    for only when all lines were read. *)
Definition cli_events (verbose : bool) (tmp hql : string) (cmd lines : list string)
    (returncode : Z) : list event :=
  [EvTmpCreate tmp; EvTmpWrite tmp hql]
  ++ (if verbose then [EvLog INFO (Py.join " " cmd)] else [])
  ++ [EvSpawn cmd "/tmp/"]
  ++ read_events verbose lines
  ++ (if decodable lines then wait_events hql returncode else [])
  ++ [EvTmpDelete tmp].

(** The statement [create_dest_table] runs. *)
Definition ddl_text (ns table : string) : string :=
  "
        DROP TABLE IF EXISTS " +:+ ns +:+ "." +:+ table +:+ ";
        CREATE EXTERNAL TABLE " +:+ ns +:+ "." +:+ table +:+ " (
            input_line    STRING
        )
        STORED AS TEXTFILE
        ;
        ".

(** The subprocesses started and the tables looked up, in order. *)
Definition spawned (evs : list event) : list (list string) :=
  omap (λ e, match e with EvSpawn cmd _ => Some cmd | _ => None end) evs.

Definition lookups (evs : list event) : list (string * string) :=
  omap (λ e, match e with EvGetTable t db => Some (t, db) | _ => None end) evs.

(** What [get_table] returns for the names it is given, [None] when it
    raises: the transport cannot be opened, or the metastore has no
    answer for the names [get_table] asks for. *)
Definition metastore_table (env : Env) (table_name db : string) : option Table :=
  if env_transport env
  then match get_table_names table_name db with
       | Ok (table_name', db') => env_table env db' table_name'
       | Raise _ => None
       end
  else None.

(** What [get_table_location] returns, [None] when it raises. *)
Definition env_location (env : Env) (table_name db : string) : option string :=
  sd_location <$> metastore_table env table_name db.

(** The schema [get_table_schema] returns for a table. *)
Definition schema_of (t : Table) : list Column :=
  (λ c, {| c_name := fs_name c; c_type := fs_type c; c_comment := fs_comment c |})
    <$> sd_cols t.

(** The events of a call of [get_table]: the transport is closed only
    when the metastore answered. *)
Definition get_table_events (env : Env) (table_name db : string) : list event :=
  [EvGetTable table_name db]
  ++ (if env_transport env
      then [EvTransportOpen]
           ++ match metastore_table env table_name db with
              | Some _ => [EvTransportClose]
              | None => []
              end
      else []).

(** The events of a run after the destination table statement, when
    query generation succeeded with [q], and the process of the query
    started and its output was read. *)
Definition run_tail_events (env : Env) (tmp q : string) (cmd lines : list string)
    (returncode : Z) (table db : string) : list event :=
  [EvLog INFO q]
  ++ cli_events true tmp q cmd lines returncode
  ++ [EvLog INFO (read_text lines)]
  ++ get_table_events env table db
  ++ match env_location env table db with
     | Some l => [EvLog INFO ("You should be able to find your files at " +:+ l)]
     | None => []
     end.

Definition field_of (c : Column) : FieldSchema :=
  {| fs_name := c_name c; fs_type := c_type c; fs_comment := c_comment c |}.

(** An environment that answers the calls of [run_cli] with [outcomes],
    in order, and whose metastore can be reached and has, when [loc] is
    given, every table, with the columns [cols] at the location [loc]. *)
Definition env_with (cols : list Column) (outcomes : list cli_outcome)
    (loc : option string) : Env :=
  {| env_tmp_name := λ n, "/tmp/tmp" +:+ pretty n;
     env_cli := λ n, nth n outcomes (Runs [] 0);
     env_thrift := true;
     env_transport := true;
     env_table := λ _ _,
       (λ l, {| sd_cols := field_of <$> cols; sd_location := l |}) <$> loc |}.

Definition env_of (outcomes : list cli_outcome) (loc : option string) : Env :=
  env_with [] outcomes loc.

Definition w0 : World :=
  {| w_files := ∅; w_trace := []; w_calls := 0; w_sp := None |}.

Definition hook0 : HiveCliHook := {| hive_cli_params := EmptyString |}.

Definition metastore0 : HiveMetastoreHook := {| host := "localhost"; port := 3621 |}.

(** The object of the constructor before its namespace map is built,
    for a source table [db.name]. *)
Definition init_self (src_table dst_table label_column tag_column : string)
    (limit : option Z) (filter_sql : option string)
    (excludes : option (list string))
    (custom_namespaces : option (gmap string string))
    (hive_metastore_host : string) (hive_metastore_port : Z)
    (db name : string) : HiveToVWInput :=
  {| src_db := db; src_table_name := name;
     dst_db := "tmp"; dst_table_name := dst_table;
     src_table := src_table; dst_table := dst_table;
     filter_sql := filter_sql;
     excludes := default [] excludes;
     label_column := label_column;
     limit := limit;
     tag_column := tag_column;
     custom_namespaces := default ∅ custom_namespaces;
     metastore_conn := {| host := hive_metastore_host; port := hive_metastore_port |};
     hive_conn := hook0;
     nsgroups := ∅ |}.

(** The constructor call of the example scenario, with a metastore that
    has the schema [cols] for the source table. *)
Definition orders_job (cols : list Column) : M HiveToVWInput :=
  init (env_with cols [] (Some "hdfs://warehouse/sales.db/orders"))
    "sales.orders" "vw_orders" "converted" "order_id" None None None None
    "localhost" 3621.

(** The object of the example scenario, for a schema [cols]. *)
Definition orders_self (cols : list Column) : HiveToVWInput :=
  let self :=
    {| src_db := "sales"; src_table_name := "orders";
       dst_db := "tmp"; dst_table_name := "vw_orders";
       src_table := "sales.orders"; dst_table := "vw_orders";
       filter_sql := None; excludes := [];
       label_column := "converted"; limit := None;
       tag_column := "order_id";
       custom_namespaces := ∅;
       metastore_conn := metastore0;
       hive_conn := hook0; nsgroups := ∅ |} in
  with_nsgroups self (get_ns_groups self cols).

(** The example schema with one more column, of a nested type. *)
Definition payload_cols : list Column :=
  orders_cols
  ++ [ {| c_name := "payload"; c_type := "struct<a:int>"; c_comment := EmptyString |} ].

(** An object with an override for a column whose name also follows the
    naming convention. *)
Definition override_self : HiveToVWInput :=
  {| src_db := "sales"; src_table_name := "orders";
     dst_db := "tmp"; dst_table_name := "vw_orders";
     src_table := "sales.orders"; dst_table := "vw_orders";
     filter_sql := None; excludes := ["note"];
     label_column := "converted"; limit := None;
     tag_column := "order_id";
     custom_namespaces := {[ "region__geo__code" := "place" ]};
     metastore_conn := metastore0;
     hive_conn := hook0; nsgroups := ∅ |}.

(** The number of occurrences of a character in a string. *)
Fixpoint count_char (c : ascii) (s : string) : nat :=
  match s with
  | EmptyString => O
  | String x s' => ((if Ascii.eqb x c then 1 else 0) + count_char c s')%nat
  end.

(** Every column of a namespace map has a type with a rule. *)
Definition all_supported (m : dict (list (string * string))) : Prop :=
  ∀ ns cols n t, m !! ns = Some cols → (n, t) ∈ cols → t ∈ supported.

(** The events that are log records at info level. *)
Definition is_info (e : event) : bool :=
  match e with
  | EvLog INFO _ => true
  | _ => false
  end.

(** The events that are log records at error level. *)
Definition is_error (e : event) : bool :=
  match e with
  | EvLog ERROR _ => true
  | _ => false
  end.



(** The events that write or delete the file [path]. *)
Definition touches (path : string) (e : event) : bool :=
  match e with
  | EvTmpWrite p _ | EvTmpDelete p => String.eqb p path
  | _ => false
  end.

(** A computation that leaves no new file behind and changes no file. *)
Definition keeps_files {A} (m : M A) : Prop := ∀ w, w_files (fst (m w)) ⊆ w_files w.

(** * Properties *)

(** ** Dictionaries *)

Section dict.
Context {V : Type}.
Implicit Types (d : dict V) (l : list (string * V)) (k : string) (v : V).

Lemma alist_lookup_insert_eq l k v : alist_lookup k (alist_insert k v l) = Some v.
Proof.
  induction l as [|[k' v'] l IH]; simpl.
  - by rewrite String.eqb_refl.
  - destruct (String.eqb k' k) eqn:E; simpl; rewrite E; done.
Qed.

Lemma alist_lookup_insert_ne l k k' v :
  k ≠ k' → alist_lookup k' (alist_insert k v l) = alist_lookup k' l.
Proof.
  intros Hne. induction l as [|[k0 v0] l IH]; simpl.
  - by rewrite (proj2 (String.eqb_neq k k') Hne).
  - destruct (String.eqb_spec k0 k) as [->|Hk]; simpl.
    + by rewrite (proj2 (String.eqb_neq k k') Hne).
    + by rewrite IH.
Qed.

Lemma dict_lookup_insert_eq d k v : <[k := v]> d !! k = Some v.
Proof. apply alist_lookup_insert_eq. Qed.

Lemma dict_lookup_insert_ne d k k' v : k ≠ k' → <[k := v]> d !! k' = d !! k'.
Proof. apply alist_lookup_insert_ne. Qed.

Lemma dict_lookup_empty k : (∅ : dict V) !! k = None.
Proof. reflexivity. Qed.

(** A dictionary without a value under any key is the empty one. *)
Lemma dict_empty_eq d : (∀ k, d !! k = None) → d = ∅.
Proof.
  destruct d as [[|[k v] l]]; [done|]. intros H. specialize (H k).
  unfold lookup, dict_lookup in H. simpl in H. by rewrite String.eqb_refl in H.
Qed.

Lemma alist_lookup_keys l k : k ∈ l.*1 ↔ is_Some (alist_lookup k l).
Proof.
  induction l as [|[k' v'] l IH]; simpl.
  - rewrite elem_of_nil. split; [done|]. by intros [? ?].
  - rewrite elem_of_cons, IH. destruct (String.eqb_spec k' k) as [->|Hk].
    + split; [by eexists|by left].
    + split; [by intros [?|?]|by right].
Qed.

Lemma dict_lookup_keys d k : k ∈ keys d ↔ is_Some (d !! k).
Proof. apply alist_lookup_keys. Qed.

Lemma alist_insert_keys l k v :
  (alist_insert k v l).*1 = if bool_decide (k ∈ l.*1) then l.*1 else l.*1 ++ [k].
Proof.
  induction l as [|[k' v'] l IH]; [done|].
  cbn [alist_insert]. rewrite fmap_cons. cbn [fst].
  destruct (String.eqb_spec k' k) as [->|Hk].
  - rewrite fmap_cons. cbn [fst]. rewrite bool_decide_eq_true_2 by left. done.
  - rewrite fmap_cons, IH. cbn [fst].
    case_bool_decide as H1; case_bool_decide as H2; try done.
    + exfalso. apply H2. by right.
    + exfalso. apply elem_of_cons in H2 as [?|?]; done.
Qed.

(** Storing under a key that is there changes no key; a new key goes
    after the others. *)
Lemma dict_insert_keys d k v :
  keys (<[k := v]> d) = if bool_decide (k ∈ keys d) then keys d else keys d ++ [k].
Proof. apply alist_insert_keys. Qed.

(** [iteritems] visits the keys of the dictionary, each once, with the
    value stored under it. *)
Lemma iteritems_keys (o : DictOrder) d : (iteritems o d).*1 = iter_order o (keys d).
Proof.
  unfold iteritems.
  assert (H : ∀ ks, Forall (λ k, k ∈ keys d) ks →
            (omap (λ k, pair k <$> d !! k) ks).*1 = ks).
  { induction 1 as [|k ks Hk _ IH]; [done|]. cbn [omap list_omap].
    apply dict_lookup_keys in Hk as [v Hv]. rewrite Hv. cbn [fmap option_fmap option_map].
    rewrite fmap_cons. cbn [fst]. f_equal. exact IH. }
  apply H. apply Forall_forall. intros k Hk. by rewrite <- (iter_order_perm o (keys d)).
Qed.

Lemma iteritems_keys_perm (o : DictOrder) d : (iteritems o d).*1 ≡ₚ keys d.
Proof. rewrite iteritems_keys. apply iter_order_perm. Qed.

Lemma elem_of_iteritems (o : DictOrder) d k v : (k, v) ∈ iteritems o d ↔ d !! k = Some v.
Proof.
  unfold iteritems. rewrite list_elem_of_omap. split.
  - intros (k' & _ & H). destruct (d !! k') as [v'|] eqn:E; [|done].
    simpl in H. injection H as -> ->. done.
  - intros H. exists k. split.
    + rewrite (iter_order_perm o (keys d)). apply dict_lookup_keys. by eexists.
    + by rewrite H.
Qed.

Lemma iteritems_empty (o : DictOrder) : iteritems o (∅ : dict V) = [].
Proof.
  apply (fmap_nil_inv fst). apply Permutation_nil_r. by rewrite iteritems_keys_perm.
Qed.

End dict.

(** ** Namespace grouping *)

Section grouping.
Context (self : HiveToVWInput).

Lemma omitted_test cname :
  bool_decide (cname ∈ excludes self ++ [label_column self; tag_column self])
  = bool_decide (omitted self cname).
Proof.
  apply bool_decide_ext. unfold omitted.
  rewrite elem_of_app, !elem_of_cons, elem_of_nil. tauto.
Qed.

Lemma ns_step_unfold m c :
  ns_step self m c =
  if bool_decide (omitted self (c_name c)) then m
  else <[namespace_of self (c_name c) :=
           default [] (m !! namespace_of self (c_name c)) ++ [pair_of c]]> m.
Proof.
  unfold ns_step, namespace_of, pair_of. cbv zeta. rewrite omitted_test.
  destruct (bool_decide (omitted self (c_name c))); [done|].
  destruct (custom_namespaces self !! c_name c); [done|].
  by destruct (2 <? length (Py.split "__" (c_name c)))%nat.
Qed.

Lemma members_cons ns c cols :
  members self ns (c :: cols) =
  (if bool_decide (omitted self (c_name c)) then []
   else if decide (namespace_of self (c_name c) = ns) then [pair_of c] else [])
  ++ members self ns cols.
Proof.
  unfold members. rewrite filter_cons.
  case_bool_decide as Ho.
  - rewrite decide_False by tauto. done.
  - destruct (decide (namespace_of self (c_name c) = ns)) as [Hn|Hn].
    + rewrite decide_True by tauto. done.
    + rewrite decide_False by tauto. done.
Qed.

Lemma ns_step_lookup m c ns :
  default [] (ns_step self m c !! ns) = default [] (m !! ns) ++ members self ns [c].
Proof.
  rewrite ns_step_unfold, members_cons. unfold members. rewrite filter_nil.
  simpl. rewrite app_nil_r.
  case_bool_decide; [by rewrite app_nil_r|].
  destruct (decide (namespace_of self (c_name c) = ns)) as [<-|Hne].
  - by rewrite dict_lookup_insert_eq.
  - rewrite dict_lookup_insert_ne by done. by rewrite app_nil_r.
Qed.

Lemma members_app ns cols1 cols2 :
  members self ns (cols1 ++ cols2) = members self ns cols1 ++ members self ns cols2.
Proof. unfold members. by rewrite filter_app, fmap_app. Qed.

Lemma foldl_ns_step_lookup cols : ∀ m ns,
  default [] (foldl (ns_step self) m cols !! ns)
  = default [] (m !! ns) ++ members self ns cols.
Proof.
  induction cols as [|c cols IH]; intros m ns; simpl.
  - by rewrite app_nil_r.
  - rewrite IH, ns_step_lookup, <- app_assoc, <- members_app. done.
Qed.

(** What [get_ns_groups] holds under each key. *)
Lemma get_ns_groups_lookup cols ns :
  default [] (get_ns_groups self cols !! ns) = members self ns cols.
Proof.
  unfold get_ns_groups. rewrite foldl_ns_step_lookup, dict_lookup_empty. done.
Qed.

Lemma get_ns_groups_Some cols ns l :
  get_ns_groups self cols !! ns = Some l → l = members self ns cols.
Proof. intros H. rewrite <- get_ns_groups_lookup, H. done. Qed.

Lemma get_ns_groups_member cols ns p :
  p ∈ members self ns cols → ∃ l, get_ns_groups self cols !! ns = Some l ∧ p ∈ l.
Proof.
  intros Hp. pose proof (get_ns_groups_lookup cols ns) as H.
  destruct (get_ns_groups self cols !! ns) as [l|] eqn:E; simpl in H.
  - exists l. by rewrite H.
  - rewrite <- H in Hp. by apply elem_of_nil in Hp.
Qed.

Lemma elem_of_members ns cols p :
  p ∈ members self ns cols ↔
  ∃ c, c ∈ cols ∧ pair_of c = p ∧ ¬ omitted self (c_name c) ∧ namespace_of self (c_name c) = ns.
Proof.
  unfold members. rewrite list_elem_of_fmap. split.
  - intros (c & -> & Hc). apply list_elem_of_filter in Hc.
    destruct Hc as [[Ho Hn] Hc]. by exists c.
  - intros (c & Hc & <- & Ho & Hn). exists c. split; [done|].
    apply list_elem_of_filter. done.
Qed.

(** The occurrences of a kept column in its namespace are its occurrences
    in the schema. *)
Lemma members_occurrences ns cols n t :
  ¬ omitted self n → namespace_of self n = ns →
  filter (eq (n, t)) (members self ns cols) = filter (eq (n, t)) (pair_of <$> cols).
Proof.
  intros Ho Hn. induction cols as [|c cols IH]; [done|].
  rewrite members_cons, filter_app, IH, fmap_cons, (filter_cons _ (pair_of c)).
  destruct (decide ((n, t) = pair_of c)) as [E|E].
  - unfold pair_of in E. inversion E; subst.
    rewrite bool_decide_eq_false_2 by done. rewrite decide_True by done.
    rewrite filter_cons_True by done. done.
  - case_bool_decide; [done|]. case_decide; [|done].
    rewrite filter_cons_False by done. done.
Qed.

End grouping.

Example orders_grouping :
  match snd (orders_job orders_cols w0) with
  | Ok job =>
      items (nsgroups job)
      = [("other", [("amount", "double"); ("is_rush", "boolean")]);
         ("geo", [("region__geo__code", "string")])]
  | Raise _ => False
  end.
Proof. vm_compute. reflexivity. Qed.

(** C1. For every object and every schema, the map returned by
    [get_ns_groups] (a) holds every column of the schema that is not
    excluded and is neither the label nor the tag; (b) holds nothing
    else: every entry is a column of the schema that is not omitted;
    (c) holds no column name under two namespaces; and (d) holds each
    column in its namespace exactly as many times as the schema lists
    it, so a column listed once appears exactly once. *)
Theorem get_ns_groups_partition (self : HiveToVWInput) (cols : list Column) :
  let g := get_ns_groups self cols in
  (∀ c, c ∈ cols → ¬ omitted self (c_name c) →
     ∃ ns l, g !! ns = Some l ∧ (c_name c, c_type c) ∈ l)
  ∧ (∀ ns l n t, g !! ns = Some l → (n, t) ∈ l →
       ¬ omitted self n ∧ ∃ c, c ∈ cols ∧ c_name c = n ∧ c_type c = t)
  ∧ (∀ ns1 ns2 l1 l2 n t1 t2,
       g !! ns1 = Some l1 → g !! ns2 = Some l2 →
       (n, t1) ∈ l1 → (n, t2) ∈ l2 → ns1 = ns2)
  ∧ (∀ ns l p, g !! ns = Some l → p ∈ l →
       length (filter (eq p) l)
       = length (filter (eq p) ((λ c, (c_name c, c_type c)) <$> cols))).
Proof.
  intros g. subst g. split; [|split; [|split]].
  - intros c Hc Ho.
    exists (namespace_of self (c_name c)).
    apply get_ns_groups_member, elem_of_members. by exists c.
  - intros ns l n t H Hin.
    apply get_ns_groups_Some in H. subst l.
    apply elem_of_members in Hin as (c & Hc & E & Ho & _).
    inversion E; subst. split; [done|]. by exists c.
  - intros ns1 ns2 l1 l2 n t1 t2 H1 H2 Hin1 Hin2.
    apply get_ns_groups_Some in H1, H2. subst l1 l2.
    apply elem_of_members in Hin1 as (c1 & _ & E1 & _ & N1).
    apply elem_of_members in Hin2 as (c2 & _ & E2 & _ & N2).
    inversion E1; inversion E2; subst. congruence.
  - intros ns l [n t] H Hin.
    apply get_ns_groups_Some in H. subst l.
    apply elem_of_members in Hin as (c & _ & E & Ho & Hn).
    inversion E; subst.
    by rewrite (members_occurrences self _ cols (c_name c) (c_type c) Ho eq_refl).
Qed.

(** C4. For a column of the schema that is not omitted: if the override
    mapping has its name, the column is filed under the override's
    namespace, also when the name splits on [__] into more than two
    parts; otherwise, if the name splits into more than two parts, it is
    filed under the second part; otherwise it is filed under ["other"].
    In each case it is filed under no other namespace. *)
Theorem namespace_precedence (self : HiveToVWInput) (cols : list Column) (c : Column) :
  c ∈ cols → ¬ omitted self (c_name c) →
  let g := get_ns_groups self cols in
  let filed (ns : string) :=
    (∃ l, g !! ns = Some l ∧ (c_name c, c_type c) ∈ l)
    ∧ (∀ ns' l' t', g !! ns' = Some l' → (c_name c, t') ∈ l' → ns' = ns) in
  (∀ cns, custom_namespaces self !! c_name c = Some cns → filed cns)
  ∧ (custom_namespaces self !! c_name c = None →
     (2 < length (Py.split "__" (c_name c)))%nat →
     filed (nth 1 (Py.split "__" (c_name c)) EmptyString))
  ∧ (custom_namespaces self !! c_name c = None →
     (length (Py.split "__" (c_name c)) ≤ 2)%nat →
     filed "other").
Proof.
  intros Hc Ho g filed.
  assert (Hfiled : filed (namespace_of self (c_name c))).
  { split.
    - apply get_ns_groups_member, elem_of_members. by exists c.
    - intros ns' l' t' H Hin. apply get_ns_groups_Some in H. subst l'.
      apply elem_of_members in Hin as (c' & _ & E & _ & N).
      inversion E. congruence. }
  unfold namespace_of in Hfiled. split; [|split].
  - intros cns E. by rewrite E in Hfiled.
  - intros E Hlen. rewrite E in Hfiled.
    apply Nat.ltb_lt in Hlen. by rewrite Hlen in Hfiled.
  - intros E Hlen. rewrite E in Hfiled.
    apply Nat.ltb_ge in Hlen. by rewrite Hlen in Hfiled.
Qed.

(** ** The rules of [__col_sql] *)

Section strings.
Implicit Types a b c : string.

Lemma append_cons x a b : String x a +:+ b = String x (a +:+ b).
Proof. reflexivity. Qed.

Lemma append_nil_r a : a +:+ EmptyString = a.
Proof. induction a as [|x a IH]; [done|]. rewrite append_cons. by f_equal. Qed.

Lemma append_assoc a b c : (a +:+ b) +:+ c = a +:+ (b +:+ c).
Proof. induction a as [|x a IH]; [done|]. rewrite !append_cons. by f_equal. Qed.

End strings.

(** Both sides are texts built around the same symbolic pieces:
    reassociate, then evaluate. *)
Ltac same_text :=
  repeat (progress (vm_compute; fold String.append;
                    rewrite ?append_assoc, ?append_nil_r));
  reflexivity.

Lemma col_sql_double col : col_sql col "double" = Ok (Hive.render (Hive.double_rule col)).
Proof. unfold Hive.double_rule. cbn [Hive.render fmap list_fmap Py.join]. same_text. Qed.

Lemma col_sql_bigint col : col_sql col "bigint" = Ok (Hive.render (Hive.int_rule col)).
Proof. unfold Hive.int_rule. cbn [Hive.render fmap list_fmap Py.join]. same_text. Qed.

Lemma col_sql_int col : col_sql col "int" = Ok (Hive.render (Hive.int_rule col)).
Proof. unfold Hive.int_rule. cbn [Hive.render fmap list_fmap Py.join]. same_text. Qed.

Lemma col_sql_boolean col : col_sql col "boolean" = Ok (Hive.render (Hive.boolean_rule col)).
Proof. unfold Hive.boolean_rule. cbn [Hive.render fmap list_fmap Py.join]. same_text. Qed.

Lemma col_sql_string col : col_sql col "string" = Ok (Hive.render (Hive.string_rule col)).
Proof. unfold Hive.string_rule. cbn [Hive.render fmap list_fmap Py.join]. same_text. Qed.

Lemma col_sql_unsupported colname coltype :
  coltype ∉ supported → col_sql colname coltype = Raise NotImplementedError.
Proof.
  intros H. unfold col_sql, supported in *.
  rewrite !not_elem_of_cons in H. destruct H as (H1 & H2 & H3 & H4 & H5 & _).
  rewrite (proj2 (String.eqb_neq _ _) H1), (proj2 (String.eqb_neq _ _) H5).
  rewrite !bool_decide_eq_false_2; [done|..].
  - rewrite !not_elem_of_cons. split; [done|apply not_elem_of_nil].
  - rewrite !not_elem_of_cons. split; [done|]. split; [done|apply not_elem_of_nil].
Qed.

Lemma col_sql_supported colname coltype :
  coltype ∈ supported → ∃ text, col_sql colname coltype = Ok text.
Proof.
  unfold supported. rewrite !elem_of_cons, elem_of_nil.
  intros [->|[->|[->|[->|[->|[]]]]]]; eexists.
  - apply col_sql_double.
  - apply col_sql_bigint.
  - apply col_sql_int.
  - apply col_sql_boolean.
  - apply col_sql_string.
Qed.

Section tokens.
Import Hive.
Context (row : string → value) (col : string).

Lemma eval_double_null :
  row col = VNull → eval row (double_rule col) = Some (VStr EmptyString).
Proof. intros E. unfold double_rule. simpl. rewrite E. reflexivity. Qed.

Lemma eval_double q :
  row col = VDouble q →
  eval row (double_rule col) =
  Some (VStr (if Qeq_bool q 0 then EmptyString
              else col +:+ ":" +:+ fixed 2 q +:+ " ")).
Proof.
  intros E. unfold double_rule. simpl. rewrite E. simpl.
  destruct (Qeq_bool q 0); simpl; [done|]. by rewrite ?append_assoc, ?append_nil_r.
Qed.

Lemma eval_int_null :
  row col = VNull → eval row (int_rule col) = Some (VStr EmptyString).
Proof. intros E. unfold int_rule. simpl. rewrite E. reflexivity. Qed.

Lemma eval_int n :
  row col = VInt n →
  eval row (int_rule col) =
  Some (VStr (if n =? 0 then EmptyString else col +:+ ":" +:+ pretty n +:+ " ")).
Proof.
  intros E. unfold int_rule. simpl. rewrite E. simpl.
  destruct (n =? 0); simpl; [done|]. by rewrite ?append_assoc, ?append_nil_r.
Qed.

Lemma eval_boolean_null :
  row col = VNull → eval row (boolean_rule col) = Some (VStr EmptyString).
Proof. intros E. unfold boolean_rule. simpl. rewrite E. reflexivity. Qed.

Lemma eval_boolean b :
  row col = VBool b →
  eval row (boolean_rule col) =
  Some (VStr (if b then col +:+ ":1 " else EmptyString)).
Proof.
  intros E. unfold boolean_rule. simpl. rewrite E.
  destruct b; simpl; [|done]. by rewrite ?append_assoc, ?append_nil_r.
Qed.

End tokens.

(** C5. The rule of a column is a function of its name and declared
    type alone, and it is the text of an expression that suppresses
    nulls and zeros: for a double column the token is empty when the
    value is null or equal to 0.0, and otherwise the name, a colon, the
    value with two decimals and one space; for a bigint or int column it
    is empty when the value is null or 0, and otherwise the name, a
    colon, the value in decimal and one space; for a boolean column it
    is empty when the value is null or false, and otherwise the name, a
    colon, [1] and one space. *)
Theorem col_sql_zero_null_suppression (col : string) (row : string → Hive.value) :
  (col_sql col "double" = Ok (Hive.render (Hive.double_rule col))
   ∧ (row col = Hive.VNull →
      Hive.eval row (Hive.double_rule col) = Some (Hive.VStr EmptyString))
   ∧ (∀ q, row col = Hive.VDouble q → (q == 0)%Q →
      Hive.eval row (Hive.double_rule col) = Some (Hive.VStr EmptyString))
   ∧ (∀ q, row col = Hive.VDouble q → ¬ (q == 0)%Q →
      Hive.eval row (Hive.double_rule col)
      = Some (Hive.VStr (col +:+ ":" +:+ Hive.fixed 2 q +:+ " "))))
  ∧ (col_sql col "bigint" = Ok (Hive.render (Hive.int_rule col))
   ∧ col_sql col "int" = Ok (Hive.render (Hive.int_rule col))
   ∧ (row col = Hive.VNull ∨ row col = Hive.VInt 0 →
      Hive.eval row (Hive.int_rule col) = Some (Hive.VStr EmptyString))
   ∧ (∀ n, row col = Hive.VInt n → n ≠ 0 →
      Hive.eval row (Hive.int_rule col)
      = Some (Hive.VStr (col +:+ ":" +:+ pretty n +:+ " "))))
  ∧ (col_sql col "boolean" = Ok (Hive.render (Hive.boolean_rule col))
   ∧ (row col = Hive.VNull ∨ row col = Hive.VBool false →
      Hive.eval row (Hive.boolean_rule col) = Some (Hive.VStr EmptyString))
   ∧ (row col = Hive.VBool true →
      Hive.eval row (Hive.boolean_rule col) = Some (Hive.VStr (col +:+ ":1 ")))).
Proof.
  split; [|split].
  - split; [apply col_sql_double|]. split; [apply eval_double_null|]. split.
    + intros q E Hq. rewrite (eval_double row col q E).
      apply Qeq_bool_iff in Hq. by rewrite Hq.
    + intros q E Hq. rewrite (eval_double row col q E).
      destruct (Qeq_bool q 0) eqn:Hb; [|done].
      apply Qeq_bool_iff in Hb. contradiction.
  - split; [apply col_sql_bigint|]. split; [apply col_sql_int|]. split.
    + intros [E|E]; [by apply eval_int_null|]. by rewrite (eval_int row col 0 E).
    + intros n E Hn. rewrite (eval_int row col n E).
      by rewrite (proj2 (Z.eqb_neq n 0) Hn).
  - split; [apply col_sql_boolean|]. split.
    + intros [E|E]; [by apply eval_boolean_null|].
      by rewrite (eval_boolean row col false E).
    + intros E. by rewrite (eval_boolean row col true E).
Qed.

(** The tokens of the example row: [amount = 0.0], [is_rush = true]. *)
Example orders_tokens :
  let row := λ name : string,
    if String.eqb name "amount" then Hive.VDouble 0
    else if String.eqb name "is_rush" then Hive.VBool true
    else Hive.VNull in
  Hive.eval row (Hive.double_rule "amount") = Some (Hive.VStr EmptyString)
  ∧ Hive.eval row (Hive.boolean_rule "is_rush") = Some (Hive.VStr "is_rush:1 ").
Proof. split; reflexivity. Qed.

(** ** The [string] rule *)

Lemma denied_codes c :
  denied c = true ↔
  let n := N_of_ascii c in
  (n ≤ 0x2a ∨ n = 0x2c ∨ n = 0x2f ∨ (0x3a ≤ n ∧ n ≤ 0x40)
   ∨ (0x5b ≤ n ∧ n ≤ 0x5e) ∨ n = 0x60 ∨ (0x7b ≤ n ∧ n ≤ 0x7f))%N.
Proof.
  unfold denied, Hive.class_matches, Hive.denylist. cbv zeta.
  cbn [existsb Hive.item_matches].
  rewrite !orb_true_iff, !andb_true_iff, !N.eqb_eq, !N.leb_le. lia.
Qed.

Lemma strip_denied_cons c s :
  strip_denied (String c s) =
  if denied c then strip_denied s else String c (strip_denied s).
Proof. reflexivity. Qed.

Lemma strip_denied_chars s :
  String.list_ascii_of_string (strip_denied s)
  = filter (λ c, denied c = false) (String.list_ascii_of_string s).
Proof.
  induction s as [|c s IH]; [done|].
  rewrite strip_denied_cons. cbn [String.list_ascii_of_string].
  rewrite filter_cons. destruct (denied c) eqn:E.
  - rewrite decide_False by done. exact IH.
  - rewrite decide_True by done. cbn [String.list_ascii_of_string]. by f_equal.
Qed.

Lemma strip_denied_idemp s : strip_denied (strip_denied s) = strip_denied s.
Proof.
  induction s as [|c s IH]; [done|].
  rewrite strip_denied_cons. destruct (denied c) eqn:E; [done|].
  rewrite strip_denied_cons, E. by f_equal.
Qed.

Lemma strip_denied_app s1 s2 :
  strip_denied (s1 +:+ s2) = strip_denied s1 +:+ strip_denied s2.
Proof.
  induction s1 as [|c s1 IH]; [done|].
  rewrite append_cons, !strip_denied_cons.
  destruct (denied c); [done|]. rewrite append_cons. by f_equal.
Qed.

Lemma eval_string_rule row col v :
  row col = Hive.VStr v →
  Hive.eval row (Hive.string_rule col) =
  Some (Hive.VStr (match v with
                   | EmptyString => EmptyString
                   | _ => strip_denied v +:+ " "
                   end)).
Proof.
  intros E. unfold Hive.string_rule. simpl. rewrite E.
  destruct v; simpl; [done|]. by rewrite ?append_assoc, ?append_nil_r.
Qed.

(** C6. The rule of a [string] column is the text of an expression
    that, for a value that is neither null nor empty, removes every
    character of the class (among them colon, comma, slash, bar,
    brackets, braces and parentheses), keeps the others in order and
    appends one space.  Removing the class a second time changes
    nothing, and encoding an encoded text gives the encoded text. *)
Theorem string_rule_strips (col : string) (row : string → Hive.value) (v : string) :
  col_sql col "string" = Ok (Hive.render (Hive.string_rule col))
  ∧ (row col = Hive.VStr v → v ≠ EmptyString →
     Hive.eval row (Hive.string_rule col)
     = Some (Hive.VStr (strip_denied v +:+ " ")))
  ∧ String.list_ascii_of_string (strip_denied v)
    = filter (λ c, denied c = false) (String.list_ascii_of_string v)
  ∧ Forall (λ c, denied c = true)
      [":"; ","; "/"; "|"; "["; "]"; "{"; "}"; "("; ")"; "\"; " "]%char
  ∧ strip_denied (strip_denied v) = strip_denied v
  ∧ strip_denied (strip_denied v +:+ " ") = strip_denied v
  ∧ (∀ row', row' col = Hive.VStr (strip_denied v +:+ " ") →
     Hive.eval row' (Hive.string_rule col)
     = Some (Hive.VStr (strip_denied v +:+ " "))).
Proof.
  split; [apply col_sql_string|]. split; [|split; [|split; [|split; [|split]]]].
  - intros E Hv. rewrite (eval_string_rule row col v E). by destruct v.
  - apply strip_denied_chars.
  - repeat constructor.
  - apply strip_denied_idemp.
  - by rewrite strip_denied_app, strip_denied_idemp, append_nil_r.
  - intros row' E. rewrite (eval_string_rule row' col _ E).
    rewrite strip_denied_app, strip_denied_idemp.
    change (strip_denied " ") with EmptyString. rewrite append_nil_r.
    destruct (strip_denied v); reflexivity.
Qed.

(** A value of the example row: the semicolon goes, and the token is the
    stripped value followed by a space. *)
Example orders_region_token :
  Hive.eval (λ _, Hive.VStr "EU;1") (Hive.string_rule "region__geo__code")
  = Some (Hive.VStr "EU1 ").
Proof. reflexivity. Qed.

(** ** The generated queries *)

Lemma col_ns_block_text ns cols :
  col_ns_block (ns, cols) =
  (fs <-? res_map (λ c, col_sql (fst c) (snd c)) cols; Ok (block_text ns fs))%res.
Proof.
  unfold col_ns_block, block_text.
  destruct (res_map _ cols) as [fs|e]; [|done].
  cbn [res_bind]. generalize (Py.join "
," fs). intros joined. same_text.
Qed.

Lemma assemble_sql_text o self cols label tag table :
  assemble_sql o self cols label tag table =
  (feats <-? col_ns o cols;
   Ok (select_text label tag feats table (sample_text (filter_sql self))))%res.
Proof.
  unfold assemble_sql, select_text, sample_text.
  destruct (col_ns o cols) as [feats|e].
  - destruct (filter_sql self) as [[|c f]|]; cbn [res_bind]; same_text.
  - destruct (filter_sql self) as [[|c f]|]; reflexivity.
Qed.

Lemma gen_sql_text o self :
  gen_sql o self =
  (feats <-? col_ns o (nsgroups self);
   Ok (insert_text (dst_db self) (dst_table_name self)
         (select_text (label_column self) (tag_column self) feats
            (src_table self) (sample_text (filter_sql self)))
         (limit_text (limit self))))%res.
Proof.
  unfold gen_sql. rewrite assemble_sql_text.
  destruct (col_ns o (nsgroups self)) as [feats|e]; [|done].
  cbn [res_bind]. generalize (select_text (label_column self) (tag_column self) feats
            (src_table self) (sample_text (filter_sql self))). intros select.
  unfold insert_text, limit_text.
  destruct (limit self) as [n|]; cbn [Py.truthy_int from_option id].
  - destruct (n =? 0); cbn [negb res_bind]; [same_text|].
    unfold Py.str_int. generalize (pretty n). intros digits. same_text.
  - cbn [res_bind]. same_text.
Qed.

Lemma col_sql_rule_text n t : t ∈ supported → col_sql n t = Ok (rule_text (n, t)).
Proof.
  unfold supported, rule_text. rewrite !elem_of_cons, elem_of_nil. cbn [fst snd].
  intros [->|[->|[->|[->|[->|[]]]]]].
  - apply col_sql_double.
  - apply col_sql_bigint.
  - apply col_sql_int.
  - apply col_sql_boolean.
  - apply col_sql_string.
Qed.

Lemma res_map_fmap {A B} (f : A → res B) (g : A → B) l :
  (∀ x, x ∈ l → f x = Ok (g x)) → res_map f l = Ok (g <$> l).
Proof.
  induction l as [|x l IH]; intros H; [done|].
  simpl. rewrite (H x) by left. rewrite IH; [done|].
  intros x' Hx'. apply H. by right.
Qed.

Lemma col_ns_block_ok ns cols :
  (∀ n t, (n, t) ∈ cols → t ∈ supported) →
  col_ns_block (ns, cols) = Ok (block_of (ns, cols)).
Proof.
  intros H. rewrite col_ns_block_text.
  rewrite (res_map_fmap _ rule_text); [done|].
  intros [n t] Hin. apply col_sql_rule_text. by apply (H n t).
Qed.

(** The feature expression of a map whose columns all have a rule. *)
Lemma col_ns_text o m : all_supported m → col_ns o m = Ok (features_text o m).
Proof.
  intros Hm. unfold col_ns, features_text.
  rewrite (res_map_fmap _ block_of); [done|].
  intros [ns cols] Hin. apply elem_of_iteritems in Hin.
  apply col_ns_block_ok. intros n t. by apply (Hm ns cols n t).
Qed.

(** The grouping reads the exclusions, the label, the tag and the
    overrides of the object, and nothing else. *)
Lemma get_ns_groups_ext self self' cols :
  excludes self' = excludes self → label_column self' = label_column self →
  tag_column self' = tag_column self → custom_namespaces self' = custom_namespaces self →
  get_ns_groups self' cols = get_ns_groups self cols.
Proof.
  intros E1 E2 E3 E4. unfold get_ns_groups. generalize (∅ : dict (list (string * string))).
  induction cols as [|c cols IH]; intros m; [done|].
  simpl. rewrite IH. f_equal. unfold ns_step. by rewrite E1, E2, E3, E4.
Qed.

Lemma ns_step_keys_NoDup self m c : NoDup (keys m) → NoDup (keys (ns_step self m c)).
Proof.
  intros Hm. rewrite ns_step_unfold. case_bool_decide; [done|].
  rewrite dict_insert_keys. case_bool_decide as Hk; [done|].
  apply NoDup_app. split; [done|]. split; [|apply NoDup_singleton].
  intros k Hin. rewrite list_elem_of_singleton. by intros ->.
Qed.

(** The map of a schema has each namespace once. *)
Lemma get_ns_groups_keys_NoDup self cols : NoDup (keys (get_ns_groups self cols)).
Proof.
  unfold get_ns_groups.
  assert (H : ∀ m, NoDup (keys m) → NoDup (keys (foldl (ns_step self) m cols))).
  { induction cols as [|c cols IH]; intros m Hm; [done|].
    simpl. by apply IH, ns_step_keys_NoDup. }
  apply H. constructor.
Qed.

(** C7. The SELECT statement that [__assemble_sql] builds prints, for
    each row, the label with four decimals ([0.0] for a null label), the
    literal [1.0], the tag column and the feature expression of the
    namespace map; it reads the source table, keeps the rows whose label
    is not null (and whose [ds] is not empty), and adds the caller's
    filter, when there is one, as a further [AND].  [gen_sql] wraps it in
    the INSERT statement and puts [LIMIT n] after it when there is a
    limit.  When every column of the map has a rule, the feature
    expression is the blocks of the items of the map with commas
    between them, a block being the line of the namespace and the rules
    of its columns; the items are those of the map, one for each
    namespace, in the order in which the interpreter iterates the
    dictionary.  Both texts are functions of the fields they print: two
    objects that agree on those fields get the same texts, and so do two
    objects that agree on the fields read and were given the same
    schema. *)
Theorem generated_queries (o : DictOrder) (self : HiveToVWInput) :
  assemble_sql o self (nsgroups self) (label_column self) (tag_column self)
    (src_table self)
  = (feats <-? col_ns o (nsgroups self);
     Ok (select_text (label_column self) (tag_column self) feats
           (src_table self) (sample_text (filter_sql self))))%res
  ∧ gen_sql o self
    = (select <-? assemble_sql o self (nsgroups self) (label_column self)
                    (tag_column self) (src_table self);
       Ok (insert_text (dst_db self) (dst_table_name self) select
             (limit_text (limit self))))%res
  ∧ (all_supported (nsgroups self) →
     col_ns o (nsgroups self)
     = Ok (Py.join "," (block_of <$> iteritems o (nsgroups self)))
     ∧ gen_sql o self
       = Ok (insert_text (dst_db self) (dst_table_name self)
               (select_text (label_column self) (tag_column self)
                  (Py.join "," (block_of <$> iteritems o (nsgroups self)))
                  (src_table self) (sample_text (filter_sql self)))
               (limit_text (limit self))))
  ∧ (∀ ns cols, (ns, cols) ∈ iteritems o (nsgroups self)
                ↔ nsgroups self !! ns = Some cols)
  ∧ (iteritems o (nsgroups self)).*1 ≡ₚ keys (nsgroups self)
  ∧ (∀ cols, nsgroups self = get_ns_groups self cols →
       NoDup (iteritems o (nsgroups self)).*1)
  ∧ (∀ f, f ≠ EmptyString → sample_text (Some f) = "AND " +:+ f)
  ∧ sample_text None = EmptyString
  ∧ (∀ n, n ≠ 0 → limit_text (Some n) = "LIMIT " +:+ pretty n)
  ∧ limit_text None = EmptyString
  ∧ (∀ self',
       nsgroups self' = nsgroups self →
       label_column self' = label_column self →
       tag_column self' = tag_column self →
       src_table self' = src_table self →
       filter_sql self' = filter_sql self →
       limit self' = limit self →
       dst_db self' = dst_db self →
       dst_table_name self' = dst_table_name self →
       assemble_sql o self' (nsgroups self') (label_column self')
         (tag_column self') (src_table self')
       = assemble_sql o self (nsgroups self) (label_column self)
           (tag_column self) (src_table self)
       ∧ gen_sql o self' = gen_sql o self)
  ∧ (∀ self' cols,
       nsgroups self = get_ns_groups self cols →
       nsgroups self' = get_ns_groups self' cols →
       excludes self' = excludes self →
       custom_namespaces self' = custom_namespaces self →
       label_column self' = label_column self →
       tag_column self' = tag_column self →
       src_table self' = src_table self →
       filter_sql self' = filter_sql self →
       limit self' = limit self →
       dst_db self' = dst_db self →
       dst_table_name self' = dst_table_name self →
       gen_sql o self' = gen_sql o self).
Proof.
  split; [apply assemble_sql_text|]. split.
  { rewrite gen_sql_text, assemble_sql_text.
    by destruct (col_ns o (nsgroups self)). }
  split.
  { intros Hm. split; [by apply col_ns_text|].
    rewrite gen_sql_text, (col_ns_text o _ Hm). done. }
  split; [intros ns cols; apply elem_of_iteritems|].
  split; [apply iteritems_keys_perm|]. split.
  { intros cols ->. rewrite iteritems_keys_perm. apply get_ns_groups_keys_NoDup. }
  split; [by intros [|c f]|]. split; [done|]. split.
  { intros n Hn. unfold limit_text. by rewrite (proj2 (Z.eqb_neq n 0) Hn). }
  split; [done|]. split.
  - intros self' E1 E2 E3 E4 E5 E6 E7 E8.
    rewrite !gen_sql_text, !assemble_sql_text.
    by rewrite E1, E2, E3, E4, E5, E6, E7, E8.
  - intros self' cols Hg Hg' Ex Ec E2 E3 E4 E5 E6 E7 E8.
    rewrite !gen_sql_text, Hg, Hg', (get_ns_groups_ext self self' cols Ex E2 E3 Ec).
    by rewrite E2, E3, E4, E5, E6, E7, E8.
Qed.

(** C10. An object whose limit is [0] generates the query of the same
    object without a limit, with nothing in the place of the LIMIT
    clause; an object whose filter is the empty string generates the
    query of the same object without a filter, with nothing in the place
    of the extra [AND]. *)
Theorem falsy_limit_and_filter (o : DictOrder) (self : HiveToVWInput) :
  gen_sql o (with_limit self (Some 0)) = gen_sql o (with_limit self None)
  ∧ gen_sql o (with_limit self (Some 0))
    = (select <-? assemble_sql o self (nsgroups self) (label_column self)
                    (tag_column self) (src_table self);
       Ok (insert_text (dst_db self) (dst_table_name self) select EmptyString))%res
  ∧ gen_sql o (with_filter_sql self (Some EmptyString))
    = gen_sql o (with_filter_sql self None)
  ∧ assemble_sql o (with_filter_sql self (Some EmptyString)) (nsgroups self)
      (label_column self) (tag_column self) (src_table self)
    = (feats <-? col_ns o (nsgroups self);
       Ok (select_text (label_column self) (tag_column self) feats
             (src_table self) EmptyString))%res.
Proof.
  split; [by rewrite !gen_sql_text|]. split.
  { rewrite gen_sql_text, assemble_sql_text. cbn.
    by destruct (col_ns o (nsgroups self)). }
  split; [by rewrite !gen_sql_text|].
  by rewrite assemble_sql_text.
Qed.

(** ** Running a query *)

Lemma add_events_nil w : add_events [] w = w.
Proof. destruct w. unfold add_events. simpl. by rewrite app_nil_r. Qed.

Lemma add_events_app evs1 evs2 w :
  add_events evs2 (add_events evs1 w) = add_events (evs1 ++ evs2) w.
Proof. unfold add_events. simpl. by rewrite app_assoc. Qed.

Lemma read_lines_spec verbose lines : ∀ stdout w,
  read_lines verbose lines stdout w
  = (add_events (read_events verbose lines) w,
     if decodable lines then Ok (stdout +:+ read_text lines) else Raise UnicodeDecodeError).
Proof.
  induction lines as [|line rest IH]; intros stdout w.
  - simpl. unfold ret. by rewrite add_events_nil, append_nil_r.
  - destruct line as [|c line].
    + simpl. unfold ret. by rewrite add_events_nil, append_nil_r.
    + cbn [read_lines read_events read_text decodable]. unfold Py.decode_utf8.
      destruct (Py.utf8_valid (String c line)).
      * unfold bind at 1. unfold lift at 1. cbv zeta. unfold bind at 1.
        destruct verbose.
        -- unfold bind at 1. unfold lift at 1. unfold logging_info, emit.
           rewrite IH, add_events_app, append_assoc. done.
        -- unfold ret. rewrite IH, append_assoc. done.
      * unfold bind, lift. by rewrite add_events_nil.
Qed.

Lemma read_text_nonempty lines :
  Forall (λ line, line ≠ EmptyString) lines → read_text lines = Py.join EmptyString lines.
Proof.
  induction 1 as [|line rest Hl _ IH]; [done|].
  destruct line as [|c line]; [done|].
  cbn [read_text]. rewrite IH. destruct rest; [|done].
  simpl. by rewrite append_nil_r.
Qed.

Lemma decodable_nonempty lines :
  Forall (λ line, line ≠ EmptyString) lines →
  decodable lines = true ↔ Forall (λ line, Py.utf8_valid line = true) lines.
Proof.
  induction 1 as [|line rest Hl _ IH]; [done|].
  destruct line as [|c line]; [done|].
  cbn [decodable]. rewrite andb_true_iff, IH, Forall_cons. done.
Qed.

Lemma use_schema_text s hql :
  Py.format "USE {schema};
{hql}" [] [("hql", hql); ("schema", s)] = Ok ("USE " +:+ s +:+ ";
" +:+ hql).
Proof. same_text. Qed.

Lemma command_returned_text digits :
  Py.format "Command returned {}" [digits] [] = Ok ("Command returned " +:+ digits).
Proof. same_text. Qed.

Lemma run_cli_hql schema hql :
  (if Py.truthy_str schema
   then lift (Py.format "USE {schema};
{hql}" [] [("hql", hql); ("schema", default EmptyString schema)])
   else ret hql)
  = ret (effective_hql schema hql).
Proof.
  destruct schema as [[|c s]|]; try reflexivity.
  cbn [Py.truthy_str from_option id effective_hql]. by rewrite use_schema_text.
Qed.

(** The process starts: the call goes on to the loop, and past it when
    the lines can be decoded. *)
Lemma run_cli_runs env self hql schema verbose hive_conf w lines returncode :
  env_cli env (w_calls w) = Runs lines returncode →
  Py.is_ascii (effective_hql schema hql) = true →
  _prepare_hiveconf hive_conf = Ok [] →
  let tmp := env_tmp_name env (w_calls w) in
  let cmd := _prepare_cli_cmd self ++ ["-f"; tmp] in
  run_cli env self hql schema verbose hive_conf w
  = ({| w_files := delete tmp (w_files w);
        w_trace := w_trace w
                   ++ cli_events verbose tmp (effective_hql schema hql) cmd lines returncode;
        w_calls := S (w_calls w);
        w_sp := Some {| p_args := cmd;
                        p_returncode := if decodable lines then Some returncode
                                        else None |} |},
     if decodable lines then Ok (read_text lines) else Raise UnicodeDecodeError).
Proof.
  destruct w as [files trace calls sp]. cbn [w_files w_trace w_calls w_sp].
  intros E Ha Hconf.
  set (tmp := env_tmp_name env calls).
  unfold run_cli. rewrite run_cli_hql.
  unfold bind at 1. unfold ret at 1.
  unfold bind at 1. unfold next_call at 1.
  cbv [w_files w_trace w_calls w_sp]. rewrite E.
  cbv beta iota. unfold with_NamedTemporaryFile.
  rewrite Hconf. unfold Py.encode_utf8. rewrite Ha.
  fold tmp. unfold cli_events, wait_events.
  destruct verbose;
  cbv [bind ret lift set_files emit write_flush logging_info logging_error Popen_spawn set_sp negb add_events w_files w_trace w_calls w_sp];
  rewrite read_lines_spec, ?command_returned_text;
  destruct (decodable lines); destruct (returncode =? 0);
  cbv [add_events w_files w_trace w_calls w_sp];
  rewrite !delete_insert_eq, ?app_nil_r; rewrite <- ?app_assoc; reflexivity.
Qed.

Lemma run_cli_tmp_fails env self hql schema verbose hive_conf w :
  env_cli env (w_calls w) = TmpFails →
  run_cli env self hql schema verbose hive_conf w
  = ({| w_files := w_files w; w_trace := w_trace w;
        w_calls := S (w_calls w); w_sp := w_sp w |}, Raise OSError).
Proof.
  destruct w as [files trace calls sp]. cbn [w_files w_trace w_calls w_sp].
  intros E. unfold run_cli. rewrite run_cli_hql.
  unfold bind at 1. unfold ret at 1.
  unfold bind at 1. unfold next_call at 1.
  cbv [w_files w_trace w_calls w_sp]. rewrite E. reflexivity.
Qed.

(** The query text has a byte above [\x7f]: the call stops at
    [hql.encode], before anything is written. *)
Lemma run_cli_not_ascii env self hql schema verbose hive_conf w :
  env_cli env (w_calls w) ≠ TmpFails →
  Py.is_ascii (effective_hql schema hql) = false →
  let tmp := env_tmp_name env (w_calls w) in
  run_cli env self hql schema verbose hive_conf w
  = ({| w_files := delete tmp (w_files w);
        w_trace := w_trace w ++ [EvTmpCreate tmp; EvTmpDelete tmp];
        w_calls := S (w_calls w); w_sp := w_sp w |}, Raise UnicodeDecodeError).
Proof.
  destruct w as [files trace calls sp]. cbn [w_files w_trace w_calls w_sp].
  intros E Ha. set (tmp := env_tmp_name env calls).
  unfold run_cli. rewrite run_cli_hql.
  unfold bind at 1. unfold ret at 1.
  unfold bind at 1. unfold next_call at 1.
  cbv [w_files w_trace w_calls w_sp].
  destruct (env_cli env calls) as [| | |lines returncode]; [done|..];
  cbv beta iota; unfold with_NamedTemporaryFile; fold tmp;
  unfold Py.encode_utf8; rewrite Ha;
  cbv [bind ret lift raise set_files emit add_events w_files w_trace w_calls w_sp];
  rewrite delete_insert_eq, <- app_assoc; reflexivity.
Qed.

Lemma run_cli_write_fails env self hql schema verbose hive_conf w :
  env_cli env (w_calls w) = WriteFails →
  Py.is_ascii (effective_hql schema hql) = true →
  let tmp := env_tmp_name env (w_calls w) in
  run_cli env self hql schema verbose hive_conf w
  = ({| w_files := delete tmp (w_files w);
        w_trace := w_trace w ++ [EvTmpCreate tmp; EvTmpDelete tmp];
        w_calls := S (w_calls w); w_sp := w_sp w |}, Raise IOError).
Proof.
  destruct w as [files trace calls sp]. cbn [w_files w_trace w_calls w_sp].
  intros E Ha. set (tmp := env_tmp_name env calls).
  unfold run_cli. rewrite run_cli_hql.
  unfold bind at 1. unfold ret at 1.
  unfold bind at 1. unfold next_call at 1.
  cbv [w_files w_trace w_calls w_sp]. rewrite E.
  cbv beta iota. unfold with_NamedTemporaryFile. fold tmp.
  unfold Py.encode_utf8. rewrite Ha.
  cbv [bind ret lift raise set_files emit write_flush add_events
       w_files w_trace w_calls w_sp].
  rewrite delete_insert_eq, <- app_assoc. reflexivity.
Qed.

Lemma run_cli_spawn_fails env self hql schema verbose hive_conf w :
  env_cli env (w_calls w) = SpawnFails →
  Py.is_ascii (effective_hql schema hql) = true →
  _prepare_hiveconf hive_conf = Ok [] →
  let tmp := env_tmp_name env (w_calls w) in
  let cmd := _prepare_cli_cmd self ++ ["-f"; tmp] in
  run_cli env self hql schema verbose hive_conf w
  = ({| w_files := delete tmp (w_files w);
        w_trace := w_trace w
                   ++ [EvTmpCreate tmp; EvTmpWrite tmp (effective_hql schema hql)]
                   ++ (if verbose then [EvLog INFO (Py.join " " cmd)] else [])
                   ++ [EvTmpDelete tmp];
        w_calls := S (w_calls w); w_sp := w_sp w |}, Raise OSError).
Proof.
  destruct w as [files trace calls sp]. cbn [w_files w_trace w_calls w_sp].
  intros E Ha Hconf. set (tmp := env_tmp_name env calls).
  unfold run_cli. rewrite run_cli_hql.
  unfold bind at 1. unfold ret at 1.
  unfold bind at 1. unfold next_call at 1.
  cbv [w_files w_trace w_calls w_sp]. rewrite E.
  cbv beta iota. unfold with_NamedTemporaryFile. rewrite Hconf. fold tmp.
  unfold Py.encode_utf8. rewrite Ha.
  destruct verbose;
  cbv [bind ret lift raise set_files emit write_flush logging_info Popen_spawn
       add_events w_files w_trace w_calls w_sp];
  rewrite !delete_insert_eq, ?app_nil_r; rewrite <- ?app_assoc; reflexivity.
Qed.

(** With a non-empty [hive_conf] the call stops at [_prepare_hiveconf]. *)
Lemma run_cli_hive_conf env self hql schema verbose kv rest w :
  env_cli env (w_calls w) ≠ TmpFails →
  env_cli env (w_calls w) ≠ WriteFails →
  Py.is_ascii (effective_hql schema hql) = true →
  let tmp := env_tmp_name env (w_calls w) in
  run_cli env self hql schema verbose (Some (kv :: rest)) w
  = ({| w_files := delete tmp (w_files w);
        w_trace := w_trace w
                   ++ [EvTmpCreate tmp; EvTmpWrite tmp (effective_hql schema hql);
                       EvTmpDelete tmp];
        w_calls := S (w_calls w); w_sp := w_sp w |},
     Raise (NameError "as_flattened_list")).
Proof.
  destruct w as [files trace calls sp]. cbn [w_files w_trace w_calls w_sp].
  intros E1 E2 Ha. set (tmp := env_tmp_name env calls).
  unfold run_cli. rewrite run_cli_hql.
  unfold bind at 1. unfold ret at 1.
  unfold bind at 1. unfold next_call at 1.
  cbv [w_files w_trace w_calls w_sp].
  destruct (env_cli env calls) as [| | |lines returncode]; [done|done|..];
  cbv beta iota; unfold with_NamedTemporaryFile; fold tmp;
  unfold Py.encode_utf8; rewrite Ha;
  cbv [bind ret lift raise set_files emit write_flush _prepare_hiveconf
       add_events w_files w_trace w_calls w_sp];
  rewrite !delete_insert_eq; rewrite <- ?app_assoc; reflexivity.
Qed.

Lemma prepare_hiveconf_cases hive_conf :
  _prepare_hiveconf hive_conf = Ok [] ∨ ∃ kv rest, hive_conf = Some (kv :: rest).
Proof. destruct hive_conf as [[|kv rest]|]; eauto. Qed.

Lemma cli_events_bracket verbose tmp hql cmd lines returncode :
  ∃ evs, cli_events verbose tmp hql cmd lines returncode
         = [EvTmpCreate tmp] ++ evs ++ [EvTmpDelete tmp].
Proof.
  unfold cli_events.
  exists ([EvTmpWrite tmp hql]
          ++ (if verbose then [EvLog INFO (Py.join " " cmd)] else [])
          ++ [EvSpawn cmd "/tmp/"]
          ++ read_events verbose lines
          ++ (if decodable lines then wait_events hql returncode else [])).
  rewrite <- !app_assoc. reflexivity.
Qed.

(** What a call of [run_cli] leaves of its temporary file, and what it
    does in between, whatever the outcome. *)
Lemma run_cli_bracket env self hql schema verbose hive_conf w :
  let tmp := env_tmp_name env (w_calls w) in
  let w' := fst (run_cli env self hql schema verbose hive_conf w) in
  match env_cli env (w_calls w) with
  | TmpFails => w_files w' = w_files w ∧ w_trace w' = w_trace w
  | _ => w_files w' = delete tmp (w_files w)
         ∧ ∃ evs, w_trace w' = w_trace w ++ [EvTmpCreate tmp] ++ evs ++ [EvTmpDelete tmp]
  end.
Proof.
  intros tmp w'. subst w'.
  destruct (env_cli env (w_calls w)) as [| | |lines returncode] eqn:E;
    [by rewrite run_cli_tmp_fails|..];
  (destruct (Py.is_ascii (effective_hql schema hql)) eqn:Ha;
   [|rewrite run_cli_not_ascii by (rewrite ?E; done); split; [done|];
     by exists (@nil event)]);
  destruct (prepare_hiveconf_cases hive_conf) as [Hconf|(kv & rest & ->)].
  - rewrite run_cli_write_fails by done. split; [done|]. by exists (@nil event).
  - rewrite run_cli_write_fails by done. split; [done|]. by exists (@nil event).
  - rewrite run_cli_spawn_fails by done. split; [done|]. cbn [fst w_trace]. fold tmp.
    exists ([EvTmpWrite tmp (effective_hql schema hql)]
            ++ (if verbose
                then [EvLog INFO (Py.join " " (_prepare_cli_cmd self ++ ["-f"; tmp]))]
                else [])).
    rewrite <- !app_assoc. reflexivity.
  - rewrite run_cli_hive_conf by (rewrite ?E; done). split; [done|].
    by eexists [_].
  - rewrite (run_cli_runs _ _ _ _ _ _ _ lines returncode) by done.
    split; [done|]. cbn [fst w_trace]. fold tmp.
    destruct (cli_events_bracket verbose tmp (effective_hql schema hql)
                (_prepare_cli_cmd self ++ ["-f"; tmp]) lines returncode) as [evs ->].
    by exists evs.
  - rewrite run_cli_hive_conf by (rewrite ?E; done). split; [done|].
    by eexists [_].
Qed.

(** C8. Whatever the environment answers, a call of [run_cli] leaves no
    temporary file behind: when [NamedTemporaryFile] raised there is no
    file and the files are untouched; in every other case, whether the
    call returns or raises (the query text cannot be encoded, the write
    fails, [_prepare_hiveconf] raises, the process does not start, a
    line of the process cannot be decoded, the process exits with any
    code), the file that was created is gone, its deletion is the last
    event of the call, and no other file has changed. *)
Theorem run_cli_releases_tmp (env : Env) (self : HiveCliHook) (hql : string)
    (schema : option string) (verbose : bool)
    (hive_conf : option (list (string * string))) (w : World) :
  let tmp := env_tmp_name env (w_calls w) in
  let w' := fst (run_cli env self hql schema verbose hive_conf w) in
  (env_cli env (w_calls w) = TmpFails → w_files w' = w_files w)
  ∧ (env_cli env (w_calls w) ≠ TmpFails →
     w_files w' !! tmp = None
     ∧ ∃ evs, w_trace w' = w_trace w ++ [EvTmpCreate tmp] ++ evs ++ [EvTmpDelete tmp])
  ∧ (∀ path, path ≠ tmp → w_files w' !! path = w_files w !! path)
  ∧ (w_files w !! tmp = None → w_files w' = w_files w).
Proof.
  intros tmp w'.
  pose proof (run_cli_bracket env self hql schema verbose hive_conf w) as H.
  cbv zeta in H. fold tmp w' in H.
  destruct (env_cli env (w_calls w)) as [| | |lines returncode]; destruct H as [Hf Ht].
  1: { split; [done|]. split; [done|]. split; [by rewrite Hf|done]. }
  all: split; [done|]; split;
    [intros _; split; [rewrite Hf; apply lookup_delete_eq|exact Ht]|];
    split; [intros path Hp; rewrite Hf; by apply lookup_delete_ne|];
    intros Hfresh; rewrite Hf; by apply delete_id.
Qed.

(** C3 (as the code has it). When the query text is ASCII and the
    process prints lines of valid UTF-8 and exits with a non-zero code,
    [run_cli] raises nothing and returns the text read from the
    process, the concatenation of its lines; it logs, at error level and
    after the wait, a heading, the query text and the exit code.  The
    exit code is not part of the value returned: it is kept in the
    [sp] field of the hook. *)
Theorem run_cli_nonzero_exit (env : Env) (self : HiveCliHook) (hql : string)
    (schema : option string) (verbose : bool) (w : World)
    (lines : list string) (returncode : Z) :
  env_cli env (w_calls w) = Runs lines returncode →
  returncode ≠ 0 →
  Forall (λ line, line ≠ EmptyString) lines →
  Py.is_ascii (effective_hql schema hql) = true →
  Forall (λ line, Py.utf8_valid line = true) lines →
  let '(w', r) := run_cli env self hql schema verbose None w in
  r = Ok (Py.join EmptyString lines)
  ∧ (∃ evs,
       w_trace w' = w_trace w ++ evs ++
         [EvWait returncode;
          EvLog ERROR "Problem when running:";
          EvLog ERROR (effective_hql schema hql);
          EvLog ERROR ("Command returned " +:+ pretty returncode);
          EvTmpDelete (env_tmp_name env (w_calls w))])
  ∧ (p_returncode <$> w_sp w') = Some (Some returncode).
Proof.
  intros E Hrc Hlines Ha Hd.
  apply decodable_nonempty in Hd; [|done].
  rewrite (run_cli_runs _ _ _ _ _ _ _ lines returncode) by done.
  rewrite Hd. split; [by rewrite read_text_nonempty|]. split; [|done].
  cbn [w_trace]. unfold cli_events, wait_events. rewrite Hd.
  rewrite (proj2 (Z.eqb_neq returncode 0) Hrc).
  exists ([EvTmpCreate (env_tmp_name env (w_calls w));
           EvTmpWrite (env_tmp_name env (w_calls w)) (effective_hql schema hql)]
          ++ (if verbose
              then [EvLog INFO (Py.join " " (_prepare_cli_cmd self
                                              ++ ["-f"; env_tmp_name env (w_calls w)]))]
              else [])
          ++ [EvSpawn (_prepare_cli_cmd self ++ ["-f"; env_tmp_name env (w_calls w)])
                "/tmp/"]
          ++ read_events verbose lines).
  rewrite <- !app_assoc. reflexivity.
Qed.

(** ** The pipeline *)

Lemma ddl_format ns table :
  Py.format "
        DROP TABLE IF EXISTS {ns}.{table};
        CREATE EXTERNAL TABLE {ns}.{table} (
            input_line    STRING
        )
        STORED AS TEXTFILE
        ;
        " [] [("ns", ns); ("table", table)] = Ok (ddl_text ns table).
Proof. unfold ddl_text. same_text. Qed.

Lemma location_format loc :
  Py.format "You should be able to find your files at {}" [loc] []
  = Ok ("You should be able to find your files at " +:+ loc).
Proof. same_text. Qed.

Lemma spawned_app evs1 evs2 : spawned (evs1 ++ evs2) = spawned evs1 ++ spawned evs2.
Proof. apply omap_app. Qed.

Lemma lookups_app evs1 evs2 : lookups (evs1 ++ evs2) = lookups evs1 ++ lookups evs2.
Proof. apply omap_app. Qed.

Lemma spawned_read_events verbose lines : spawned (read_events verbose lines) = [].
Proof.
  induction lines as [|[|c line] rest IH]; [done..|].
  cbn [read_events]. destruct (Py.utf8_valid _); [|done].
  rewrite spawned_app, IH. by destruct verbose.
Qed.

Lemma lookups_read_events verbose lines : lookups (read_events verbose lines) = [].
Proof.
  induction lines as [|[|c line] rest IH]; [done..|].
  cbn [read_events]. destruct (Py.utf8_valid _); [|done].
  rewrite lookups_app, IH. by destruct verbose.
Qed.

Lemma spawned_cli_events verbose tmp hql cmd lines returncode :
  spawned (cli_events verbose tmp hql cmd lines returncode) = [cmd].
Proof.
  unfold cli_events, wait_events. rewrite !spawned_app, spawned_read_events.
  by destruct verbose, (decodable lines), (returncode =? 0).
Qed.

Lemma lookups_cli_events verbose tmp hql cmd lines returncode :
  lookups (cli_events verbose tmp hql cmd lines returncode) = [].
Proof.
  unfold cli_events, wait_events. rewrite !lookups_app, lookups_read_events.
  by destruct verbose, (decodable lines), (returncode =? 0).
Qed.

(** [create_dest_table] is [run_cli] on the statement, after the
    statement is logged; its value is dropped, and an exception is
    replaced by the one of the handler, which reads [output], a name
    the interrupted assignment has not bound. *)
Lemma create_dest_table_unfold env self w :
  let sql := ddl_text (dst_db self) (dst_table_name self) in
  create_dest_table env self w
  = match run_cli env (hive_conn self) sql None true None
            (add_events [EvLog INFO sql] w) with
    | (w', Ok _) => (w', Ok tt)
    | (w', Raise _) => (w', Raise (UnboundLocalError "output"))
    end.
Proof.
  intros sql. unfold create_dest_table. rewrite ddl_format. fold sql.
  unfold bind at 1. unfold lift at 1.
  unfold bind at 1. unfold logging_info at 1, emit at 1.
  unfold try_except.
  by destruct (run_cli _ _ _ _ _ _ _) as [w' [out|e]].
Qed.

(** [create_dest_table] when the process of the statement starts and
    its output is read: the exit code does not matter. *)
Lemma create_dest_table_runs env self w lines returncode :
  env_cli env (w_calls w) = Runs lines returncode →
  Py.is_ascii (ddl_text (dst_db self) (dst_table_name self)) = true →
  decodable lines = true →
  let tmp := env_tmp_name env (w_calls w) in
  let cmd := _prepare_cli_cmd (hive_conn self) ++ ["-f"; tmp] in
  let sql := ddl_text (dst_db self) (dst_table_name self) in
  create_dest_table env self w
  = ({| w_files := delete tmp (w_files w);
        w_trace := w_trace w ++ [EvLog INFO sql]
                   ++ cli_events true tmp sql cmd lines returncode;
        w_calls := S (w_calls w);
        w_sp := Some {| p_args := cmd; p_returncode := Some returncode |} |},
     Ok tt).
Proof.
  intros E Ha Hd tmp cmd sql. rewrite create_dest_table_unfold. fold sql.
  rewrite (run_cli_runs env _ _ _ _ _ (add_events [EvLog INFO sql] w) lines returncode)
    by done.
  rewrite Hd. cbn [add_events w_files w_trace w_calls w_sp].
  rewrite <- app_assoc. reflexivity.
Qed.

(** The call of [run_cli] returns: the text is ASCII, the process
    starts and its lines can be decoded. *)
Lemma run_cli_returns_iff env self hql schema verbose w :
  (∃ out, snd (run_cli env self hql schema verbose None w) = Ok out)
  ↔ cli_returns (env_cli env (w_calls w)) (effective_hql schema hql) = true.
Proof.
  unfold cli_returns.
  destruct (env_cli env (w_calls w)) as [| | |lines returncode] eqn:E.
  - rewrite run_cli_tmp_fails by done. split; [by intros [? ?]|done].
  - destruct (Py.is_ascii (effective_hql schema hql)) eqn:Ha.
    + rewrite run_cli_write_fails by done. split; [by intros [? ?]|done].
    + rewrite run_cli_not_ascii by (rewrite ?E; done). split; [by intros [? ?]|done].
  - destruct (Py.is_ascii (effective_hql schema hql)) eqn:Ha.
    + rewrite run_cli_spawn_fails by done. split; [by intros [? ?]|done].
    + rewrite run_cli_not_ascii by (rewrite ?E; done). split; [by intros [? ?]|done].
  - destruct (Py.is_ascii (effective_hql schema hql)) eqn:Ha.
    + rewrite (run_cli_runs _ _ _ _ _ _ _ lines returncode) by done. cbn [snd andb].
      destruct (decodable lines); split; try done; [by eexists|by intros [? ?]].
    + rewrite run_cli_not_ascii by (rewrite ?E; done). split; [by intros [? ?]|done].
Qed.
(** ** Splitting and joining *)

Section split.
Context (sep : string).

Lemma startswith_app p rest : Py.startswith p (p +:+ rest) = true.
Proof.
  induction p as [|a p IH]; [done|].
  rewrite append_cons. cbn [Py.startswith]. by rewrite Ascii.eqb_refl.
Qed.

Lemma startswith_inv p s : Py.startswith p s = true → ∃ rest, s = p +:+ rest.
Proof.
  revert s. induction p as [|a p IH]; intros s H.
  - by exists s.
  - destruct s as [|b s]; [done|]. cbn [Py.startswith] in H.
    destruct (Ascii.eqb_spec a b) as [->|]; [|done].
    destruct (IH s H) as [rest ->]. by exists rest.
Qed.

Lemma split_go_skip p : ∀ rest cur,
  Py.split_go sep (String.length p) cur (p +:+ rest) = Py.split_go sep O cur rest.
Proof.
  induction p as [|a p IH]; intros rest cur; [by destruct rest|].
  rewrite append_cons. cbn [String.length Py.split_go]. apply IH.
Qed.

Lemma split_go_cons skip cur s : ∃ x l, Py.split_go sep skip cur s = x :: l.
Proof.
  revert skip cur. induction s as [|c s IH]; intros skip cur; [by eexists _, _|].
  cbn [Py.split_go]. destruct skip as [|k]; [|apply IH].
  destruct (Py.startswith sep (String c s)); [by eexists _, _|apply IH].
Qed.

Lemma join_cons_cons x y l :
  Py.join sep (x :: y :: l) = x +:+ sep +:+ Py.join sep (y :: l).
Proof. reflexivity. Qed.

Lemma append_length a b :
  String.length (a +:+ b) = (String.length a + String.length b)%nat.
Proof. induction a as [|x a IH]; [done|]. rewrite append_cons. simpl. by rewrite IH. Qed.

(** Joining the pieces with the separator gives the string back. *)
Lemma join_split_go c0 sep' (Hsep : sep = String c0 sep') n : ∀ s cur,
  (String.length s ≤ n)%nat →
  Py.join sep (Py.split_go sep O cur s) = cur +:+ s.
Proof.
  induction n as [|n IH]; intros s cur Hn.
  - destruct s; [|simpl in Hn; lia]. simpl. by rewrite append_nil_r.
  - destruct s as [|c s]; [simpl; by rewrite append_nil_r|].
    cbn [Py.split_go]. destruct (Py.startswith sep (String c s)) eqn:E.
    + apply startswith_inv in E as [rest E].
      assert (Hlen : (String.length sep - 1)%nat = String.length sep').
      { rewrite Hsep. simpl. lia. }
      assert (Hs : s = sep' +:+ rest).
      { rewrite Hsep, append_cons in E. by injection E. }
      rewrite Hlen, Hs, split_go_skip.
      destruct (split_go_cons O EmptyString rest) as (x & l & Hx).
      rewrite Hx, join_cons_cons, <- Hx, IH.
      * rewrite <- Hs, E. done.
      * simpl in Hn. rewrite Hs, append_length in Hn. lia.
    + rewrite IH by (simpl in Hn; lia). by rewrite append_assoc.
Qed.

(** A prefix without the first character of the separator is read
    into the current piece. *)
Lemma split_go_prefix c0 sep' (Hsep : sep = String c0 sep') p : ∀ cur s,
  count_char c0 p = O →
  Py.split_go sep O cur (p +:+ s) = Py.split_go sep O (cur +:+ p) s.
Proof.
  induction p as [|x p IH]; intros cur s Hp.
  - by rewrite append_nil_r.
  - cbn [count_char] in Hp. destruct (Ascii.eqb_spec x c0) as [->|Hx]; [done|].
    rewrite append_cons. cbn [Py.split_go].
    assert (Py.startswith sep (String x (p +:+ s)) = false) as ->.
    { rewrite Hsep. cbn [Py.startswith].
      destruct (Ascii.eqb_spec c0 x) as [->|]; [done|done]. }
    rewrite IH by done. by rewrite append_assoc.
Qed.

(** The piece before the first separator, when it has none of the
    separator's first character. *)
Lemma split_prefix c0 sep' (Hsep : sep = String c0 sep') p s :
  count_char c0 p = O →
  Py.split sep (p +:+ sep +:+ s) = p :: Py.split sep s.
Proof.
  intros Hp. unfold Py.split.
  rewrite (split_go_prefix c0 sep' Hsep) by done.
  change (EmptyString +:+ p) with p.
  assert (Hlen : (String.length sep - 1)%nat = String.length sep').
  { rewrite Hsep. simpl. lia. }
  assert (E : sep +:+ s = String c0 (sep' +:+ s)) by (by rewrite Hsep).
  rewrite E. cbn [Py.split_go]. rewrite <- E, startswith_app, Hlen.
  by rewrite split_go_skip.
Qed.

End split.

Lemma join_split sep s : sep ≠ EmptyString → Py.join sep (Py.split sep s) = s.
Proof.
  intros Hsep. destruct sep as [|c0 sep']; [done|]. unfold Py.split.
  by rewrite (join_split_go _ c0 sep' eq_refl (String.length s)).
Qed.

Section split_char.
Context (c : ascii).

Lemma count_char_app a b : count_char c (a +:+ b) = (count_char c a + count_char c b)%nat.
Proof.
  induction a as [|x a IH]; [done|]. rewrite append_cons. cbn [count_char].
  rewrite IH. lia.
Qed.

Lemma split_go_char_step x s cur :
  Py.split_go (String c EmptyString) O cur (String x s)
  = if Ascii.eqb c x then cur :: Py.split_go (String c EmptyString) O EmptyString s
    else Py.split_go (String c EmptyString) O (cur +:+ String x EmptyString) s.
Proof. cbn [Py.split_go Py.startswith]. by destruct (Ascii.eqb c x). Qed.

Lemma split_go_char_length s : ∀ cur,
  length (Py.split_go (String c EmptyString) O cur s) = S (count_char c s).
Proof.
  induction s as [|x s IH]; intros cur; [done|].
  rewrite split_go_char_step. cbn [count_char]. rewrite (Ascii.eqb_sym x c).
  destruct (Ascii.eqb c x); simpl; by rewrite IH.
Qed.

Lemma split_go_char_free s : ∀ cur,
  count_char c cur = O →
  Forall (λ p, count_char c p = O) (Py.split_go (String c EmptyString) O cur s).
Proof.
  induction s as [|x s IH]; intros cur Hcur; [by constructor|].
  rewrite split_go_char_step. destruct (Ascii.eqb c x) eqn:E.
  - constructor; [done|]. by apply IH.
  - apply IH. rewrite count_char_app, Hcur. cbn [count_char].
    rewrite (Ascii.eqb_sym x c), E. done.
Qed.

End split_char.

(** ** The metastore *)

Lemma contains_dot s : contains "." s = true ↔ count_char "." s ≠ O.
Proof.
  induction s as [|x s IH]; [done|].
  cbn [contains Py.startswith count_char]. rewrite (Ascii.eqb_sym "." x).
  destruct (Ascii.eqb x "."); simpl; [done|]. done.
Qed.

Lemma get_table_names_plain table_name db :
  db ≠ "default" ∨ count_char "." table_name = O →
  get_table_names table_name db = Ok (table_name, db).
Proof.
  intros H. unfold get_table_names.
  destruct (String.eqb_spec db "default") as [->|]; [|done].
  destruct H as [|H]; [done|].
  destruct (contains "." table_name) eqn:E; [|done].
  apply contains_dot in E. done.
Qed.

(** Taking a table name apart never fails. *)
Lemma get_table_names_ok table_name db :
  ∃ names, get_table_names table_name db = Ok names.
Proof.
  unfold get_table_names.
  destruct (String.eqb db "default" && contains "." table_name)%bool eqn:E;
    [|by eexists].
  apply andb_true_iff in E as [_ E]. apply contains_dot in E.
  pose proof (split_go_char_length "." table_name EmptyString) as Hlen.
  fold (Py.split "." table_name) in Hlen.
  destruct (Py.split "." table_name) as [|x [|y l]]; simpl in Hlen;
    [lia|lia|by eexists].
Qed.

Lemma get_table_spec env self table_name db w :
  get_table env self table_name db w
  = (add_events (get_table_events env table_name db) w,
     match metastore_table env table_name db with
     | Some t => Ok t
     | None => Raise MetastoreError
     end).
Proof.
  unfold get_table, get_table_events, metastore_table.
  destruct (get_table_names_ok table_name db) as [[t d] ->].
  destruct (env_transport env); cbv [bind ret raise lift emit];
    [destruct (env_table env d t)|];
    rewrite ?add_events_app; reflexivity.
Qed.

Lemma get_table_location_spec env self table_name db w :
  get_table_location env self table_name db w
  = (add_events (get_table_events env table_name db) w,
     match env_location env table_name db with
     | Some loc => Ok loc
     | None => Raise MetastoreError
     end).
Proof.
  unfold get_table_location, env_location. unfold bind. rewrite get_table_spec.
  by destruct (metastore_table env table_name db).
Qed.

Lemma get_table_schema_spec env self table_name db w :
  get_table_schema env self table_name db w
  = (add_events (get_table_events env table_name db) w,
     match metastore_table env table_name db with
     | Some t => Ok (schema_of t)
     | None => Raise MetastoreError
     end).
Proof.
  unfold get_table_schema. unfold bind. rewrite get_table_spec.
  by destruct (metastore_table env table_name db).
Qed.

Lemma spawned_get_table_events env table_name db :
  spawned (get_table_events env table_name db) = [].
Proof.
  unfold get_table_events.
  by destruct (env_transport env), (metastore_table env table_name db).
Qed.

Lemma lookups_get_table_events env table_name db :
  lookups (get_table_events env table_name db) = [(table_name, db)].
Proof.
  unfold get_table_events.
  by destruct (env_transport env), (metastore_table env table_name db).
Qed.

(** ** The run *)

Section run.
Context (o : DictOrder) (env : Env) (self : HiveToVWInput) (w : World).
Context (lines1 : list string) (returncode1 : Z).
Context (E1 : env_cli env (w_calls w) = Runs lines1 returncode1).
Context (A1 : Py.is_ascii (ddl_text (dst_db self) (dst_table_name self)) = true).
Context (D1 : decodable lines1 = true).

Let tmp1 := env_tmp_name env (w_calls w).
Let cmd1 := _prepare_cli_cmd (hive_conn self) ++ ["-f"; tmp1].
Let sql1 := ddl_text (dst_db self) (dst_table_name self).
Let tmp2 := env_tmp_name env (S (w_calls w)).
Let cmd2 := _prepare_cli_cmd (hive_conn self) ++ ["-f"; tmp2].
Let events1 := [EvLog INFO sql1] ++ cli_events true tmp1 sql1 cmd1 lines1 returncode1.

(** Query generation raises: the run stops there. *)
Lemma run_gen_sql_raises e :
  gen_sql o self = Raise e →
  run o env self w
  = ({| w_files := delete tmp1 (w_files w);
        w_trace := w_trace w ++ events1;
        w_calls := S (w_calls w);
        w_sp := Some {| p_args := cmd1; p_returncode := Some returncode1 |} |},
     Raise e).
Proof using E1 A1 D1.
  intros Hq. unfold run. unfold bind at 1.
  rewrite (create_dest_table_runs env self w lines1 returncode1 E1 A1 D1).
  rewrite Hq. reflexivity.
Qed.

(** Both statements are run and their output is read: the run goes on
    to the lookup, whatever the exit codes. *)
Lemma run_both_run q lines2 returncode2 :
  gen_sql o self = Ok q →
  env_cli env (S (w_calls w)) = Runs lines2 returncode2 →
  Py.is_ascii q = true → decodable lines2 = true →
  run o env self w
  = ({| w_files := delete tmp2 (delete tmp1 (w_files w));
        w_trace := w_trace w ++ events1
                   ++ run_tail_events env tmp2 q cmd2 lines2 returncode2
                        (dst_table_name self) (dst_db self);
        w_calls := S (S (w_calls w));
        w_sp := Some {| p_args := cmd2; p_returncode := Some returncode2 |} |},
     match env_location env (dst_table_name self) (dst_db self) with
     | Some _ => Ok tt
     | None => Raise MetastoreError
     end).
Proof using E1 A1 D1.
  intros Hq E2 A2 D2. unfold run. unfold bind at 1.
  rewrite (create_dest_table_runs env self w lines1 returncode1 E1 A1 D1).
  rewrite Hq. unfold bind at 1. unfold lift at 1.
  unfold bind at 1. unfold logging_info at 1, emit at 1.
  unfold bind at 1.
  rewrite (run_cli_runs env _ _ _ _ _ _ lines2 returncode2) by done.
  rewrite D2.
  cbn [add_events w_files w_trace w_calls w_sp effective_hql].
  unfold bind at 1. unfold logging_info at 1, emit at 1.
  unfold bind at 1. rewrite get_table_location_spec. unfold run_tail_events.
  fold tmp1 tmp2 cmd1 cmd2 sql1.
  destruct (env_location env (dst_table_name self) (dst_db self)) as [loc|].
  - cbv [bind ret lift emit logging_info add_events w_files w_trace w_calls w_sp].
    rewrite location_format.
    unfold events1. rewrite <- !app_assoc. reflexivity.
  - cbv [bind ret raise lift emit logging_info add_events w_files w_trace w_calls w_sp].
    unfold events1. rewrite <- !app_assoc. rewrite app_nil_r. reflexivity.
Qed.

(** The call of [run_cli] for the query raises: the run stops there. *)
Lemma run_second_fails q :
  gen_sql o self = Ok q →
  cli_returns (env_cli env (S (w_calls w))) q = false →
  let '(w', r) := run o env self w in
  r = Raise (cli_exn (env_cli env (S (w_calls w))) q)
  ∧ ∃ evs, w_trace w' = w_trace w ++ events1 ++ [EvLog INFO q] ++ evs
           ∧ spawned evs = match env_cli env (S (w_calls w)) with
                           | Runs _ _ => if Py.is_ascii q then [cmd2] else []
                           | _ => []
                           end
           ∧ lookups evs = [].
Proof using E1 A1 D1.
  intros Hq E2. unfold run. unfold bind at 1.
  rewrite (create_dest_table_runs env self w lines1 returncode1 E1 A1 D1).
  rewrite Hq. unfold bind at 1. unfold lift at 1.
  unfold bind at 1. unfold logging_info at 1, emit at 1.
  unfold bind at 1. unfold cli_returns in E2.
  destruct (env_cli env (S (w_calls w))) as [| | |lines2 returncode2] eqn:Eo.
  - rewrite run_cli_tmp_fails by done.
    cbn [add_events w_files w_trace w_calls w_sp].
    split; [unfold cli_exn; by rewrite ?A2|]. exists (@nil event). split; [|done].
    unfold events1. by rewrite <- !app_assoc.
  - destruct (Py.is_ascii q) eqn:A2.
    + rewrite run_cli_write_fails by done.
      cbn [add_events w_files w_trace w_calls w_sp].
      split; [unfold cli_exn; by rewrite ?A2|]. exists [EvTmpCreate tmp2; EvTmpDelete tmp2].
      split; [|done]. unfold events1. by rewrite <- !app_assoc.
    + rewrite run_cli_not_ascii by (cbn [add_events w_calls]; rewrite ?Eo; done).
      cbn [add_events w_files w_trace w_calls w_sp].
      split; [unfold cli_exn; by rewrite ?A2|]. exists [EvTmpCreate tmp2; EvTmpDelete tmp2].
      split; [|done]. unfold events1. by rewrite <- !app_assoc.
  - destruct (Py.is_ascii q) eqn:A2.
    + rewrite run_cli_spawn_fails by done.
      cbn [add_events w_files w_trace w_calls w_sp effective_hql].
      split; [unfold cli_exn; by rewrite ?A2|].
      exists [EvTmpCreate tmp2; EvTmpWrite tmp2 q; EvLog INFO (Py.join " " cmd2);
              EvTmpDelete tmp2].
      split; [|done]. unfold events1. by rewrite <- !app_assoc.
    + rewrite run_cli_not_ascii by (cbn [add_events w_calls]; rewrite ?Eo; done).
      cbn [add_events w_files w_trace w_calls w_sp].
      split; [unfold cli_exn; by rewrite ?A2|]. exists [EvTmpCreate tmp2; EvTmpDelete tmp2].
      split; [|done]. unfold events1. by rewrite <- !app_assoc.
  - destruct (Py.is_ascii q) eqn:A2.
    + cbn [andb] in E2.
      rewrite (run_cli_runs env _ _ _ _ _ _ lines2 returncode2) by done.
      rewrite E2. cbn [add_events w_files w_trace w_calls w_sp effective_hql].
      split; [unfold cli_exn; by rewrite ?A2|].
      exists (cli_events true tmp2 q cmd2 lines2 returncode2).
      split; [unfold events1; by rewrite <- !app_assoc|].
      by rewrite spawned_cli_events, lookups_cli_events.
    + rewrite run_cli_not_ascii by (cbn [add_events w_calls]; rewrite ?Eo; done).
      cbn [add_events w_files w_trace w_calls w_sp].
      split; [unfold cli_exn; by rewrite ?A2|]. exists [EvTmpCreate tmp2; EvTmpDelete tmp2].
      split; [|done]. unfold events1. by rewrite <- !app_assoc.
Qed.

End run.

Lemma read_events_no_error verbose lines :
  filter (λ e, is_error e = true) (read_events verbose lines) = [].
Proof.
  induction lines as [|[|c line] rest IH]; [done..|].
  cbn [read_events]. destruct (Py.utf8_valid _); [|done].
  rewrite filter_app, IH. by destruct verbose.
Qed.

(** [create_dest_table] when its call of [run_cli] raises: it raises
    the exception of the handler, which has logged nothing. *)
Lemma create_dest_table_fails env self w :
  let sql := ddl_text (dst_db self) (dst_table_name self) in
  let cmd := _prepare_cli_cmd (hive_conn self) ++ ["-f"; env_tmp_name env (w_calls w)] in
  cli_returns (env_cli env (w_calls w)) sql = false →
  ∃ evs files,
    create_dest_table env self w
    = ({| w_files := files;
          w_trace := w_trace w ++ [EvLog INFO sql] ++ evs;
          w_calls := S (w_calls w);
          w_sp := match env_cli env (w_calls w) with
                  | Runs _ _ =>
                      if Py.is_ascii sql
                      then Some {| p_args := cmd; p_returncode := None |}
                      else w_sp w
                  | _ => w_sp w
                  end |},
       Raise (UnboundLocalError "output"))
    ∧ filter (λ e, is_error e = true) evs = []
    ∧ spawned evs = match env_cli env (w_calls w) with
                    | Runs _ _ => if Py.is_ascii sql then [cmd] else []
                    | _ => []
                    end
    ∧ lookups evs = [].
Proof.
  intros sql cmd E. rewrite create_dest_table_unfold. fold sql.
  set (w1 := add_events _ w).
  assert (Hc : w_calls w1 = w_calls w) by done.
  unfold cli_returns in E.
  destruct (env_cli env (w_calls w)) as [| | |lines returncode] eqn:Eo.
  - rewrite run_cli_tmp_fails by (by rewrite Hc).
    exists (@nil event). eexists.
    split; [cbn [w1 add_events w_files w_trace w_calls w_sp]; by rewrite app_nil_r|].
    by repeat split.
  - destruct (Py.is_ascii sql) eqn:Ha.
    + rewrite run_cli_write_fails by (by rewrite ?Hc).
      eexists _, _.
      split; [cbn [w1 add_events w_files w_trace w_calls w_sp]; by rewrite <- !app_assoc|].
      by repeat split.
    + rewrite run_cli_not_ascii by (rewrite ?Hc, ?Eo; done).
      eexists _, _.
      split; [cbn [w1 add_events w_files w_trace w_calls w_sp]; by rewrite <- !app_assoc|].
      by repeat split.
  - destruct (Py.is_ascii sql) eqn:Ha.
    + rewrite run_cli_spawn_fails by (by rewrite ?Hc).
      eexists _, _.
      split; [cbn [w1 add_events w_files w_trace w_calls w_sp]; by rewrite <- !app_assoc|].
      by repeat split.
    + rewrite run_cli_not_ascii by (rewrite ?Hc, ?Eo; done).
      eexists _, _.
      split; [cbn [w1 add_events w_files w_trace w_calls w_sp]; by rewrite <- !app_assoc|].
      by repeat split.
  - destruct (Py.is_ascii sql) eqn:Ha.
    + cbn [andb] in E.
      rewrite (run_cli_runs env _ _ _ _ _ w1 lines returncode) by (by rewrite ?Hc).
      rewrite E. eexists _, _.
      split; [cbn [w1 add_events w_files w_trace w_calls w_sp effective_hql];
              by rewrite <- !app_assoc|].
      fold cmd. rewrite spawned_cli_events, lookups_cli_events.
      split; [|done]. unfold cli_events. rewrite E, !filter_app, read_events_no_error.
      done.
    + rewrite run_cli_not_ascii by (rewrite ?Hc, ?Eo; done).
      eexists _, _.
      split; [cbn [w1 add_events w_files w_trace w_calls w_sp]; by rewrite <- !app_assoc|].
      by repeat split.
Qed.

(** ** Unsupported types *)

Lemma col_sql_cases colname coltype :
  (∃ text, col_sql colname coltype = Ok text)
  ∨ col_sql colname coltype = Raise NotImplementedError.
Proof.
  destruct (decide (coltype ∈ supported)) as [H|H].
  - left. by apply col_sql_supported.
  - right. by apply col_sql_unsupported.
Qed.

Section res_map.
Context {A B : Type} (f : A → res B) (e : exn).
Context (l : list A).
Hypothesis Hf : ∀ x, x ∈ l → (∃ y, f x = Ok y) ∨ f x = Raise e.

Lemma res_map_cases : (∃ ys, res_map f l = Ok ys) ∨ res_map f l = Raise e.
Proof using Hf.
  induction l as [|x l' IH]; [left; by eexists|].
  simpl. destruct (Hf x) as [[y ->]| ->]; [by left| |by right].
  destruct IH as [[ys ->]| ->]; [|left; by eexists|by right].
  intros x' Hx'. apply Hf. by right.
Qed.

Lemma res_map_raises x : x ∈ l → f x = Raise e → res_map f l = Raise e.
Proof using Hf.
  induction l as [|x' l' IH]; intros Hx Hfx; [by apply elem_of_nil in Hx|].
  simpl. apply elem_of_cons in Hx as [<-|Hx]; [by rewrite Hfx|].
  destruct (Hf x') as [[y ->]| ->]; [by left| |done].
  rewrite IH; [done| |done..].
  intros x'' Hx''. apply Hf. by right.
Qed.

End res_map.

Lemma col_ns_block_cases item :
  (∃ text, col_ns_block item = Ok text)
  ∨ col_ns_block item = Raise NotImplementedError.
Proof.
  destruct item as [ns cols]. rewrite col_ns_block_text.
  destruct (res_map_cases (λ c, col_sql (fst c) (snd c)) NotImplementedError cols)
    as [[fs ->]| ->]; [|left; by eexists|by right].
  intros [n t] _. apply col_sql_cases.
Qed.

Lemma col_ns_unsupported o (namespaces : dict (list (string * string)))
    ns cols colname coltype :
  namespaces !! ns = Some cols → (colname, coltype) ∈ cols →
  coltype ∉ supported →
  col_ns o namespaces = Raise NotImplementedError.
Proof.
  intros Hns Hc Ht. unfold col_ns.
  rewrite (res_map_raises col_ns_block NotImplementedError _
             (λ x _, col_ns_block_cases x) (ns, cols)); [done| |].
  - by apply elem_of_iteritems.
  - rewrite col_ns_block_text.
    rewrite (res_map_raises (λ c, col_sql (fst c) (snd c)) NotImplementedError cols
               (λ x _, col_sql_cases (fst x) (snd x)) (colname, coltype));
      [done|done|]. by apply col_sql_unsupported.
Qed.



(** C9 (as the code has it). In a run whose destination table statement
    started its process and read its output, whatever that process's
    exit code: if query generation raises, the run raises the same and
    stops, with no process for the query and no lookup; otherwise the
    query is logged, and if its call of [run_cli] raises (the process
    does not start, or the query cannot be encoded, or the output cannot
    be decoded) the run raises the same and stops without a lookup; if
    the process starts and its output is read, then whatever its exit
    code the location is looked up, and the run returns nothing, after
    the location message, or raises what the lookup raised, without
    that message.  The output and the non-zero exit codes are in the
    log, and not in the value returned; the exit code of the query is
    also in the [sp] field of the hook. *)
Theorem run_stages (o : DictOrder) (env : Env) (self : HiveToVWInput) (w : World)
    (lines1 : list string) (returncode1 : Z) :
  env_cli env (w_calls w) = Runs lines1 returncode1 →
  Py.is_ascii (ddl_text (dst_db self) (dst_table_name self)) = true →
  decodable lines1 = true →
  let cmd1 := _prepare_cli_cmd (hive_conn self) ++ ["-f"; env_tmp_name env (w_calls w)] in
  let cmd2 := _prepare_cli_cmd (hive_conn self)
              ++ ["-f"; env_tmp_name env (S (w_calls w))] in
  let '(w', r) := run o env self w in
  ∃ evs, w_trace w' = w_trace w ++ evs ∧
  match gen_sql o self with
  | Raise e => r = Raise e ∧ spawned evs = [cmd1] ∧ lookups evs = []
  | Ok q =>
      EvLog INFO q ∈ evs ∧
      match env_cli env (S (w_calls w)) with
      | Runs lines2 returncode2 =>
          if (Py.is_ascii q && decodable lines2)%bool
          then
            spawned evs = [cmd1; cmd2]
            ∧ lookups evs = [(dst_table_name self, dst_db self)]
            ∧ r = match env_location env (dst_table_name self) (dst_db self) with
                  | Some _ => Ok tt
                  | None => Raise MetastoreError
                  end
            ∧ EvLog INFO (read_text lines2) ∈ evs
            ∧ (returncode1 ≠ 0 →
               EvLog ERROR ("Command returned " +:+ pretty returncode1) ∈ evs)
            ∧ (returncode2 ≠ 0 →
               EvLog ERROR ("Command returned " +:+ pretty returncode2) ∈ evs)
            ∧ w_sp w' = Some {| p_args := cmd2; p_returncode := Some returncode2 |}
            ∧ last evs
              = Some match env_location env (dst_table_name self) (dst_db self) with
                     | Some loc =>
                         EvLog INFO ("You should be able to find your files at " +:+ loc)
                     | None =>
                         if env_transport env then EvTransportOpen
                         else EvGetTable (dst_table_name self) (dst_db self)
                     end
          else
            r = Raise UnicodeDecodeError
            ∧ spawned evs = (if Py.is_ascii q then [cmd1; cmd2] else [cmd1])
            ∧ lookups evs = []
      | outcome => r = Raise (cli_exn outcome q) ∧ spawned evs = [cmd1] ∧ lookups evs = []
      end
  end.
Proof.
  intros E1 A1 D1 cmd1 cmd2.
  assert (Herr : ∀ tmp hql cmd lines rc, rc ≠ 0 → decodable lines = true →
            EvLog ERROR ("Command returned " +:+ pretty rc)
            ∈ cli_events true tmp hql cmd lines rc).
  { intros tmp hql cmd lines rc Hrc Hd. unfold cli_events, wait_events.
    rewrite Hd, (proj2 (Z.eqb_neq rc 0) Hrc).
    rewrite !elem_of_app, !elem_of_cons. tauto. }
  destruct (gen_sql o self) as [q|e] eqn:Hq.
  - destruct (cli_returns (env_cli env (S (w_calls w))) q) eqn:Hr.
    + unfold cli_returns in Hr.
      destruct (env_cli env (S (w_calls w))) as [| | |lines2 returncode2] eqn:E2;
        [done..|].
      rewrite Hr. apply andb_true_iff in Hr as [A2 D2].
      rewrite (run_both_run o env self w lines1 returncode1 E1 A1 D1 q lines2
                 returncode2 Hq E2 A2 D2).
      eexists. split; [reflexivity|]. unfold run_tail_events.
      split; [rewrite !elem_of_app, !elem_of_cons; tauto|].
      split.
      { rewrite !spawned_app, !spawned_cli_events, spawned_get_table_events.
        by destruct (env_location env (dst_table_name self) (dst_db self)). }
      split.
      { rewrite !lookups_app, !lookups_cli_events, lookups_get_table_events.
        by destruct (env_location env (dst_table_name self) (dst_db self)). }
      split; [done|]. split; [rewrite !elem_of_app, !elem_of_cons; tauto|].
      split.
      { intros Hrc. apply elem_of_app. left. apply elem_of_app. right. by apply Herr. }
      split.
      { intros Hrc. apply elem_of_app. right. apply elem_of_app. right.
        apply elem_of_app. left. by apply Herr. }
      split; [done|].
      unfold env_location, get_table_events.
      destruct (metastore_table env (dst_table_name self) (dst_db self)) as [t|] eqn:Et;
        destruct (env_transport env) eqn:Etr;
        try (unfold metastore_table in Et; rewrite Etr in Et; done);
        cbn [fmap option_fmap option_map]; rewrite !last_app; reflexivity.
    + pose proof (run_second_fails o env self w lines1 returncode1 E1 A1 D1 q Hq Hr) as H.
      unfold cli_returns in Hr.
      destruct (run o env self w) as [w' r].
      destruct H as (He & evs & Ht & Hs & Hl).
      eexists. split; [exact Ht|].
      split; [rewrite !elem_of_app, !elem_of_cons; tauto|].
      rewrite !spawned_app, !lookups_app, spawned_cli_events, lookups_cli_events, Hs, Hl.
      destruct (env_cli env (S (w_calls w))) as [| | |lines2 returncode2] eqn:E2;
        [done..|].
      rewrite Hr. by destruct (Py.is_ascii q).
  - rewrite (run_gen_sql_raises o env self w lines1 returncode1 E1 A1 D1 e Hq).
    eexists. split; [reflexivity|]. split; [done|].
    by rewrite spawned_app, lookups_app, spawned_cli_events, lookups_cli_events.
Qed.

(** ** Concrete runs *)

Ltac by_compute := apply (bool_decide_unpack _); vm_compute; exact I.

Lemma schema_of_fields cols loc :
  schema_of {| sd_cols := field_of <$> cols; sd_location := loc |} = cols.
Proof.
  unfold schema_of. cbn [sd_cols]. induction cols as [|[n t c] cols IH]; [done|].
  rewrite !fmap_cons. by f_equal.
Qed.

(** The constructor call of the example gives the object of the
    example. *)
Example orders_init :
  snd (orders_job orders_cols w0) = Ok (orders_self orders_cols).
Proof. vm_compute. reflexivity. Qed.

(** The query of the example, under CPython 2.7: the block of [other]
    comes before the block of [geo]. *)
Example orders_query :
  gen_sql cpython27 (orders_self orders_cols)
  = Ok (insert_text "tmp" "vw_orders"
          (select_text "converted" "order_id"
             (block_of ("other", [("amount", "double"); ("is_rush", "boolean")])
              +:+ "," +:+ block_of ("geo", [("region__geo__code", "string")]))
             "sales.orders" EmptyString)
          EmptyString).
Proof. vm_compute. reflexivity. Qed.

(** The decoder on some byte strings: ASCII, a letter with an accent
    ([\xc3\xa9]) and the euro sign ([\xe2\x82\xac]) are read; a lone
    [\xff], a lead byte without its continuation, the overlong
    [\xc0\x80] and a sequence above [U+10FFFF] are refused; a
    surrogate is let through. *)
Example utf8_decoding :
  Py.decode_utf8 "OK" = Ok "OK"
  ∧ Py.utf8_chars (String "195" (String "169" EmptyString))
    = Some [(0xE9%N, String "195" (String "169" EmptyString))]
  ∧ Py.utf8_chars (String "226" (String "130" (String "172" "!")))
    = Some [(0x20AC%N, String "226" (String "130" (String "172" EmptyString)));
            (0x21%N, "!")]
  ∧ Py.decode_utf8 (String "255" EmptyString) = Raise UnicodeDecodeError
  ∧ Py.decode_utf8 (String "195" EmptyString) = Raise UnicodeDecodeError
  ∧ Py.decode_utf8 (String "192" (String "128" EmptyString)) = Raise UnicodeDecodeError
  ∧ Py.utf8_valid (String "244" (String "144" (String "128" (String "128" EmptyString))))
    = false
  ∧ Py.utf8_valid (String "237" (String "160" (String "128" EmptyString))) = true.
Proof. repeat split; vm_compute; reflexivity. Qed.

(** [strip] removes the blanks of Unicode at both ends, here a space, a
    no-break space ([\xc2\xa0]) and a newline, and keeps those inside;
    [encode_utf8] refuses a byte above [\x7f]. *)
Example strip_and_encode :
  Py.strip (" a b" +:+ String "194" (String "160" (String "010" EmptyString))) = "a b"
  ∧ Py.encode_utf8 "SELECT 1" = Ok "SELECT 1"
  ∧ Py.encode_utf8 (String "195" (String "169" EmptyString)) = Raise UnicodeDecodeError.
Proof. repeat split; vm_compute; reflexivity. Qed.

(** The namespaces of the example of the class documentation, under
    CPython 2.7, whatever the order in which the three were stored. *)
Example titanic_order :
  iter_order cpython27 ["other"; "demographic"; "family"]
  = ["other"; "demographic"; "family"]
  ∧ iter_order cpython27 ["family"; "demographic"; "other"]
    = ["other"; "demographic"; "family"].
Proof. split; vm_compute; reflexivity. Qed.

(** Two schemas with the same two columns in a different order: the maps
    hold the same columns under the same namespaces, and under
    CPython 2.7, where the two namespaces meet in one slot of the table,
    the blocks of the two queries come in a different order. *)
Example block_order_follows_history :
  let a := {| c_name := "region__geo__code"; c_type := "string";
              c_comment := EmptyString |} in
  let b := {| c_name := "user__demographic__age"; c_type := "int";
              c_comment := EmptyString |} in
  let m1 := get_ns_groups (orders_self []) [a; b] in
  let m2 := get_ns_groups (orders_self []) [b; a] in
  (iteritems cpython27 m1).*1 = ["demographic"; "geo"]
  ∧ (iteritems cpython27 m2).*1 = ["geo"; "demographic"]
  ∧ (∀ ns, m1 !! ns = m2 !! ns)
  ∧ gen_sql cpython27 (with_nsgroups (orders_self []) m1)
    ≠ gen_sql cpython27 (with_nsgroups (orders_self []) m2).
Proof.
  cbv zeta. split; [vm_compute; reflexivity|]. split; [vm_compute; reflexivity|].
  split.
  - intros ns.
    set (a := {| c_name := "region__geo__code" |}).
    set (b := {| c_name := "user__demographic__age" |}).
    assert (get_ns_groups (orders_self []) [a; b]
            = Dict [("geo", [("region__geo__code", "string")]);
                    ("demographic", [("user__demographic__age", "int")])]) as ->
      by (vm_compute; reflexivity).
    assert (get_ns_groups (orders_self []) [b; a]
            = Dict [("demographic", [("user__demographic__age", "int")]);
                    ("geo", [("region__geo__code", "string")])]) as ->
      by (vm_compute; reflexivity).
    unfold lookup, dict_lookup. cbn [items alist_lookup].
    destruct (String.eqb_spec "geo" ns) as [<-|]; [done|].
    by destruct (String.eqb_spec "demographic" ns).
  - vm_compute. intros H. discriminate H.
Qed.

(** C1, on the example schema: the column [amount] is in the map. *)
Lemma get_ns_groups_partition_witness :
  ∃ ns l, get_ns_groups (orders_self []) orders_cols !! ns = Some l
          ∧ ("amount", "double") ∈ l.
Proof.
  refine (proj1 (get_ns_groups_partition (orders_self []) orders_cols)
            {| c_name := "amount"; c_type := "double"; c_comment := EmptyString |}
            _ _).
  - by_compute.
  - by_compute.
Defined.

(** C4, on the example schema with the override: the override wins. *)
Lemma namespace_precedence_witness :
  ∃ l, get_ns_groups override_self orders_cols !! "place" = Some l
       ∧ ("region__geo__code", "string") ∈ l.
Proof.
  refine (proj1 (proj1 (namespace_precedence override_self orders_cols
            {| c_name := "region__geo__code"; c_type := "string";
               c_comment := EmptyString |} _ _) "place" _)).
  - by_compute.
  - by_compute.
  - reflexivity.
Defined.

(** C3, refuted as stated: no function of the value returned gives the
    exit code, since two runs that differ only in the exit code return
    the same value, the output text. *)
Lemma run_cli_returns_output_only :
  ¬ ∃ exit_code : res string → Z,
      ∀ returncode, returncode ≠ 0 →
        exit_code (snd (run_cli (env_of [Runs ["syntax error at line 4"] returncode] None)
                          hook0 "SELECT 1" None true None w0))
        = returncode.
Proof.
  intros [exit_code H].
  pose proof (H 2 ltac:(done)) as H2. pose proof (H 3 ltac:(done)) as H3.
  vm_compute in H2, H3. congruence.
Qed.

(** C3, on the example: exit code 2 and one line of output. *)
Lemma run_cli_nonzero_exit_witness :
  let '(w', r) :=
    run_cli (env_of [Runs ["syntax error at line 4"] 2] None)
      hook0 "SELECT 1" None true None w0 in
  r = Ok (Py.join EmptyString ["syntax error at line 4"])
  ∧ (∃ evs,
       w_trace w' = w_trace w0 ++ evs ++
         [EvWait 2;
          EvLog ERROR "Problem when running:";
          EvLog ERROR (effective_hql None "SELECT 1");
          EvLog ERROR ("Command returned " +:+ pretty 2);
          EvTmpDelete "/tmp/tmp0"])
  ∧ (p_returncode <$> w_sp w') = Some (Some 2).
Proof.
  apply (run_cli_nonzero_exit (env_of [Runs ["syntax error at line 4"] 2] None)
           hook0 "SELECT 1" None true w0 ["syntax error at line 4"] 2).
  - reflexivity.
  - done.
  - by repeat constructor.
  - reflexivity.
  - by repeat constructor.
Defined.

(** C8, on a call whose process does not start. *)
Lemma run_cli_releases_tmp_witness :
  w_files (fst (run_cli (env_of [SpawnFails] None) hook0 "SELECT 1" None true None w0))
  !! "/tmp/tmp0" = None.
Proof.
  exact (proj1 (proj1 (proj2 (run_cli_releases_tmp (env_of [SpawnFails] None)
                                hook0 "SELECT 1" None true None w0))
                 ltac:(done))).
Defined.



(** C9, refuted as stated: the destination table statement exits with
    code 1, and the run still starts the process of the query, looks up
    the location and returns normally, with no value. *)
Lemma failed_creation_does_not_stop_run :
  let '(w', r) :=
    run cpython27
      (env_of [Runs ["FAILED: cannot drop"] 1; Runs ["OK"] 0]
         (Some "hdfs://warehouse/tmp.db/vw_orders"))
      (orders_self orders_cols) w0 in
  r = Ok tt
  ∧ EvWait 1 ∈ w_trace w'
  ∧ spawned (w_trace w') = [["hive"; "-f"; "/tmp/tmp0"]; ["hive"; "-f"; "/tmp/tmp1"]]
  ∧ lookups (w_trace w') = [("vw_orders", "tmp")].
Proof.
  vm_compute. split; [done|]. split; [|done].
  do 6 apply list_elem_of_further. apply list_elem_of_here.
Qed.

(** C9, on the run whose destination table statement exits with 1. *)
Lemma run_stages_witness :
  let env := env_of [Runs ["FAILED: cannot drop"] 1; Runs ["OK"] 0]
               (Some "hdfs://warehouse/tmp.db/vw_orders") in
  let self := orders_self orders_cols in
  let cmd1 := _prepare_cli_cmd (hive_conn self) ++ ["-f"; env_tmp_name env (w_calls w0)] in
  let cmd2 := _prepare_cli_cmd (hive_conn self)
              ++ ["-f"; env_tmp_name env (S (w_calls w0))] in
  let '(w', r) := run cpython27 env self w0 in
  ∃ evs, w_trace w' = w_trace w0 ++ evs ∧
  match gen_sql cpython27 self with
  | Raise e => r = Raise e ∧ spawned evs = [cmd1] ∧ lookups evs = []
  | Ok q =>
      EvLog INFO q ∈ evs ∧
      match env_cli env (S (w_calls w0)) with
      | Runs lines2 returncode2 =>
          if (Py.is_ascii q && decodable lines2)%bool
          then
            spawned evs = [cmd1; cmd2]
            ∧ lookups evs = [(dst_table_name self, dst_db self)]
            ∧ r = match env_location env (dst_table_name self) (dst_db self) with
                  | Some _ => Ok tt
                  | None => Raise MetastoreError
                  end
            ∧ EvLog INFO (read_text lines2) ∈ evs
            ∧ (1 ≠ 0 → EvLog ERROR ("Command returned " +:+ pretty 1) ∈ evs)
            ∧ (returncode2 ≠ 0 →
               EvLog ERROR ("Command returned " +:+ pretty returncode2) ∈ evs)
            ∧ w_sp w' = Some {| p_args := cmd2; p_returncode := Some returncode2 |}
            ∧ last evs
              = Some match env_location env (dst_table_name self) (dst_db self) with
                     | Some loc =>
                         EvLog INFO ("You should be able to find your files at " +:+ loc)
                     | None =>
                         if env_transport env then EvTransportOpen
                         else EvGetTable (dst_table_name self) (dst_db self)
                     end
          else
            r = Raise UnicodeDecodeError
            ∧ spawned evs = (if Py.is_ascii q then [cmd1; cmd2] else [cmd1])
            ∧ lookups evs = []
      | outcome => r = Raise (cli_exn outcome q) ∧ spawned evs = [cmd1] ∧ lookups evs = []
      end
  end.
Proof.
  exact (run_stages cpython27
           (env_of [Runs ["FAILED: cannot drop"] 1; Runs ["OK"] 0]
              (Some "hdfs://warehouse/tmp.db/vw_orders"))
           (orders_self orders_cols) w0 ["FAILED: cannot drop"] 1 eq_refl eq_refl eq_refl).
Defined.

(** * Further properties *)

(** ** The constructor *)

Section init.
Context (env : Env) (st dt label tag : string) (lim : option Z) (flt : option string)
  (ex : option (list string)) (cn : option (gmap string string))
  (host : string) (port : Z) (w : World).

(** The constructor, stage by stage. *)
Lemma init_cases :
  init env st dt label tag lim flt ex cn host port w
  = match Py.split "." st with
    | [db; name] =>
        if decide (count_char "." dt = O)
        then
          if env_thrift env
          then
            let self := init_self st dt label tag lim flt ex cn host port db name in
            (add_events (get_table_events env name db) w,
             match metastore_table env name db with
             | Some t => Ok (with_nsgroups self (get_ns_groups self (schema_of t)))
             | None => Raise MetastoreError
             end)
          else (w, Raise ImportError)
        else (w, Raise TypeError)
    | _ => (w, Raise TypeError)
    end.
Proof.
  unfold init.
  destruct (Py.split "." st) as [|db [|name [|x l]]]; try done.
  pose proof (split_go_char_length "." dt EmptyString) as Hdt.
  fold (Py.split "." dt) in Hdt. rewrite Hdt.
  destruct (decide (count_char "." dt = O)) as [->|Hne];
    [|by destruct (count_char "." dt)].
  cbn [Nat.eqb negb]. unfold HiveMetastoreHook_init.
  destruct (env_thrift env); [|done].
  unfold bind at 1. unfold ret at 1. cbv zeta.
  unfold get_ns_groups_of_table. unfold bind. cbn [metastore_conn].
  rewrite get_table_schema_spec. fold (init_self st dt label tag lim flt ex cn host port db name).
  by destruct (metastore_table env name db).
Qed.

Lemma init_split_length : length (Py.split "." st) = S (count_char "." st).
Proof. apply split_go_char_length. Qed.

End init.

(** X1. The constructor raises [TypeError] exactly when the source table
    name does not have one dot or the destination table name has a dot,
    and then before anything else is done.  With names of the right
    form it raises [ImportError] exactly when the thrift modules cannot
    be imported, also before anything else is done; otherwise it asks
    the metastore for the source table, and it raises the metastore's
    exception exactly when the table could not be fetched, and returns
    an object exactly when it could. *)
Theorem init_raises_iff (env : Env) (src_table dst_table label_column tag_column : string)
    (limit : option Z) (filter_sql : option string)
    (excludes : option (list string))
    (custom_namespaces : option (gmap string string))
    (hive_metastore_host : string) (hive_metastore_port : Z) (w : World) :
  let names_ok := count_char "." src_table = 1%nat ∧ count_char "." dst_table = O in
  let fetched :=
    ∃ db name, Py.split "." src_table = [db; name]
               ∧ is_Some (metastore_table env name db) in
  let '(w', r) := init env src_table dst_table label_column tag_column limit filter_sql
                    excludes custom_namespaces hive_metastore_host
                    hive_metastore_port w in
  (r = Raise TypeError ↔ ¬ names_ok)
  ∧ (r = Raise ImportError ↔ names_ok ∧ env_thrift env = false)
  ∧ (r = Raise MetastoreError ↔ names_ok ∧ env_thrift env = true ∧ ¬ fetched)
  ∧ ((∃ self, r = Ok self) ↔ names_ok ∧ env_thrift env = true ∧ fetched)
  ∧ (r = Raise TypeError ∨ r = Raise ImportError → w' = w)
  ∧ (names_ok → env_thrift env = true →
     ∃ db name, Py.split "." src_table = [db; name]
                ∧ w' = add_events (get_table_events env name db) w).
Proof.
  intros names_ok fetched. subst names_ok fetched. rewrite init_cases.
  pose proof (init_split_length src_table) as Hlen.
  assert (Hex : ∀ e, ¬ ∃ self : HiveToVWInput, Raise e = Ok self)
    by (by intros e [self ?]).
  destruct (Py.split "." src_table) as [|db [|name [|x l]]]; simpl in Hlen;
    [lia| | |];
    [split_and!; first [done|split; [done|intros [[? ?] ?]; lia]
                       |split; [intros _ [? ?]; lia|done]
                       |split; [intros H; by apply Hex in H|intros [[? ?] ?]; lia]
                       |intros [? ?]; lia]
    |
    |split_and!; first [done|split; [done|intros [[? ?] ?]; lia]
                       |split; [intros _ [? ?]; lia|done]
                       |split; [intros H; by apply Hex in H|intros [[? ?] ?]; lia]
                       |intros [? ?]; lia]].
  assert (Hc : count_char "." src_table = 1%nat) by lia.
  destruct (decide (count_char "." dst_table = O)) as [Hd|Hd].
  2: { split_and!; first [done|split; [done|intros [[? ?] ?]; done]
                         |split; [by intros _ [? ?]|done]
                         |split; [intros H; by apply Hex in H|intros [[? ?] ?]; done]
                         |intros [? ?]; done]. }
  destruct (env_thrift env) eqn:Et.
  2: { split_and!; first [done|split; [done|intros H; exfalso; by apply H]
                         |split; [done|by intros (_ & ? & _)]
                         |split; [intros H; by apply Hex in H|by intros (_ & ? & _)]]. }
  cbv zeta.
  destruct (metastore_table env name db) as [t|] eqn:Em.
  - assert (Hf : ∃ db0 name0 : string,
               [db; name] = [db0; name0] ∧ is_Some (metastore_table env name0 db0)).
    { exists db, name. by rewrite Em. }
    split_and!.
    + split; [done|]. intros H. exfalso. by apply H.
    + split; [done|]. by intros [_ ?].
    + split; [done|]. intros (_ & _ & H). by destruct H.
    + split; [done|]. intros _. by eexists.
    + by intros [?|?].
    + intros _ _. by eexists _, _.
  - assert (Hn : ¬ ∃ db0 name0 : string,
               [db; name] = [db0; name0] ∧ is_Some (metastore_table env name0 db0)).
    { intros (d & n & [= <- <-] & [t Ht]). by rewrite Em in Ht. }
    split_and!.
    + split; [done|]. intros H. exfalso. by apply H.
    + split; [done|]. by intros [_ ?].
    + done.
    + split; [intros H; by apply Hex in H|]. by intros (_ & _ & ?).
    + by intros [?|?].
    + intros _ _. by eexists _, _.
Qed.

(** X2. An object the constructor returns has the two parts of the
    source table name, which contain no dot and give the name back when
    joined with a dot; its destination is the given table in the
    namespace [tmp]; a missing exclusion list or override mapping is
    empty; its hooks are a metastore hook for the given host and port
    and a command line hook without parameters; and its namespace map
    is the grouping of the schema that the metastore has for the source
    table. *)
Theorem init_fields (env : Env) (src_table' dst_table' label_column' tag_column' : string)
    (limit' : option Z) (filter_sql' : option string)
    (excludes' : option (list string))
    (custom_namespaces' : option (gmap string string))
    (hive_metastore_host : string) (hive_metastore_port : Z) (w : World)
    (self : HiveToVWInput) :
  snd (init env src_table' dst_table' label_column' tag_column' limit' filter_sql'
         excludes' custom_namespaces' hive_metastore_host hive_metastore_port w)
  = Ok self →
  src_db self +:+ "." +:+ src_table_name self = src_table'
  ∧ count_char "." (src_db self) = O
  ∧ count_char "." (src_table_name self) = O
  ∧ src_table self = src_table'
  ∧ dst_db self = "tmp"
  ∧ dst_table_name self = dst_table'
  ∧ count_char "." (dst_table_name self) = O
  ∧ excludes self = default [] excludes'
  ∧ custom_namespaces self = default ∅ custom_namespaces'
  ∧ label_column self = label_column' ∧ tag_column self = tag_column'
  ∧ limit self = limit' ∧ filter_sql self = filter_sql'
  ∧ metastore_conn self = {| host := hive_metastore_host; port := hive_metastore_port |}
  ∧ hive_conn self = {| hive_cli_params := EmptyString |}
  ∧ ∃ t, metastore_table env (src_table_name self) (src_db self) = Some t
         ∧ nsgroups self = get_ns_groups self (schema_of t).
Proof.
  intros Hinit.
  pose proof (join_split "." src_table' ltac:(done)) as Hjoin.
  pose proof (split_go_char_free "." src_table' EmptyString eq_refl) as Hfree.
  fold (Py.split "." src_table') in Hfree.
  rewrite init_cases in Hinit.
  destruct (Py.split "." src_table') as [|db [|name [|x l]]]; try done.
  destruct (decide _) as [Hd|] in Hinit; [|done].
  destruct (env_thrift env); [|done]. cbv zeta in Hinit. cbn [snd] in Hinit.
  destruct (metastore_table env name db) as [t|] eqn:Em; [|done].
  injection Hinit as <-. cbn.
  apply Forall_cons in Hfree as [Hdb Hfree]. apply Forall_cons in Hfree as [Hname _].
  split_and!; try done. by exists t.
Qed.
(** ** More on the grouping *)

Lemma ns_step_nonempty self m c :
  (∀ ns l, m !! ns = Some l → l ≠ []) →
  ∀ ns l, ns_step self m c !! ns = Some l → l ≠ [].
Proof.
  intros Hm ns l. rewrite ns_step_unfold. case_bool_decide; [apply Hm|].
  destruct (decide (namespace_of self (c_name c) = ns)) as [<-|Hne].
  - rewrite dict_lookup_insert_eq. intros [= <-]. by destruct (default [] _).
  - rewrite dict_lookup_insert_ne by done. apply Hm.
Qed.

Lemma foldl_ns_step_nonempty self cols : ∀ m,
  (∀ ns l, m !! ns = Some l → l ≠ []) →
  ∀ ns l, foldl (ns_step self) m cols !! ns = Some l → l ≠ [].
Proof.
  induction cols as [|c cols IH]; intros m Hm; [done|].
  simpl. apply IH. by apply ns_step_nonempty.
Qed.

(** X3. Under each namespace the map holds the columns assigned to it
    that are not omitted, in the order of the schema, and it has no
    entry for a namespace without such a column; the map of two schemas
    put one after the other holds, under each namespace, the columns of
    the first followed by those of the second. *)
Theorem get_ns_groups_contents (self : HiveToVWInput) (cols cols' : list Column)
    (ns : string) :
  get_ns_groups self cols !! ns
  = match members self ns cols with
    | [] => None
    | l => Some l
    end
  ∧ members self ns cols
    = (λ c, (c_name c, c_type c))
        <$> filter (λ c, ¬ omitted self (c_name c) ∧ namespace_of self (c_name c) = ns) cols
  ∧ default [] (get_ns_groups self (cols ++ cols') !! ns)
    = default [] (get_ns_groups self cols !! ns)
      ++ default [] (get_ns_groups self cols' !! ns).
Proof.
  split; [|split; [done|]].
  - pose proof (get_ns_groups_lookup self cols ns) as H.
    destruct (get_ns_groups self cols !! ns) as [l|] eqn:E; simpl in H.
    + assert (l ≠ []) as Hl.
      { apply (foldl_ns_step_nonempty self cols ∅) with ns; [|done].
        intros ns' l'. by rewrite dict_lookup_empty. }
      rewrite <- H. by destruct l.
    + by rewrite <- H.
  - by rewrite !get_ns_groups_lookup, members_app.
Qed.

Lemma split_convention p ns rest :
  count_char "_" p = O → count_char "_" ns = O →
  ∃ l, Py.split "__" (p +:+ "__" +:+ ns +:+ "__" +:+ rest) = p :: ns :: l ∧ l ≠ [].
Proof.
  intros Hp Hns.
  rewrite (split_prefix "__" "_" "_" eq_refl p) by done.
  rewrite (split_prefix "__" "_" "_" eq_refl ns) by done.
  destruct (split_go_cons "__" O EmptyString rest) as (x & l & Hx).
  exists (Py.split "__" rest). split; [done|]. unfold Py.split. by rewrite Hx.
Qed.

(** X4. A column named [prefix__namespace__suffix], whose prefix and
    namespace have no underscore, that is in the schema, is not omitted
    and has no override, is filed under that namespace. *)
Theorem naming_convention (self : HiveToVWInput) (cols : list Column) (c : Column)
    (p ns rest : string) :
  c ∈ cols → ¬ omitted self (c_name c) →
  custom_namespaces self !! c_name c = None →
  c_name c = p +:+ "__" +:+ ns +:+ "__" +:+ rest →
  count_char "_" p = O → count_char "_" ns = O →
  ∃ l, get_ns_groups self cols !! ns = Some l ∧ (c_name c, c_type c) ∈ l.
Proof.
  intros Hc Ho Hcn Hname Hp Hns.
  apply get_ns_groups_member, elem_of_members. exists c.
  split; [done|]. split; [done|]. split; [done|].
  unfold namespace_of. rewrite Hcn, Hname.
  destruct (split_convention p ns rest Hp Hns) as (l & -> & Hl).
  destruct l; done.
Qed.

(** ** When query generation succeeds *)

Section res_map_ok.
Context {A B : Type} (f : A → res B).

Lemma res_map_ok l : (∀ x, x ∈ l → ∃ y, f x = Ok y) → ∃ ys, res_map f l = Ok ys.
Proof.
  induction l as [|x l IH]; intros H; [by eexists|].
  simpl. destruct (H x) as [y ->]; [by left|].
  destruct IH as [ys ->]; [|by eexists].
  intros x' Hx'. apply H. by right.
Qed.

Lemma res_map_ok_inv l ys x : res_map f l = Ok ys → x ∈ l → ∃ y, f x = Ok y.
Proof.
  revert ys. induction l as [|x' l IH]; intros ys H Hx; [by apply elem_of_nil in Hx|].
  simpl in H. destruct (f x') as [y|e] eqn:E; [|done].
  destruct (res_map f l) as [ys'|e] eqn:E'; [|done].
  apply elem_of_cons in Hx as [->|Hx]; [by eexists|]. by apply (IH ys').
Qed.

End res_map_ok.

Lemma col_sql_ok_supported colname coltype text :
  col_sql colname coltype = Ok text → coltype ∈ supported.
Proof.
  intros H. destruct (decide (coltype ∈ supported)) as [|Hn]; [done|].
  by rewrite (col_sql_unsupported colname coltype Hn) in H.
Qed.

Lemma col_ns_ok o m : all_supported m → ∃ feats, col_ns o m = Ok feats.
Proof. intros Hm. rewrite (col_ns_text o m Hm). by eexists. Qed.

Lemma col_ns_ok_inv o m feats : col_ns o m = Ok feats → all_supported m.
Proof.
  intros H ns cols n t Hns Hc.
  destruct (decide (t ∈ supported)) as [|Hn]; [done|].
  by rewrite (col_ns_unsupported o m ns cols n t Hns Hc Hn) in H.
Qed.

(** X5. Query generation succeeds exactly when every column of the
    namespace map has a type with a rule.  For the map of a schema this
    is: every column that is not omitted has such a type; the types of
    the label, the tag and the excluded columns do not matter. *)
Theorem gen_sql_succeeds_iff (o : DictOrder) (self : HiveToVWInput)
    (cols : list Column) :
  ((∃ q, gen_sql o self = Ok q)
   ↔ ∀ ns l n t, nsgroups self !! ns = Some l → (n, t) ∈ l → t ∈ supported)
  ∧ ((∃ q, gen_sql o (with_nsgroups self (get_ns_groups self cols)) = Ok q)
     ↔ ∀ c, c ∈ cols → ¬ omitted self (c_name c) → c_type c ∈ supported).
Proof.
  assert (Hgen : ∀ s, (∃ q, gen_sql o s = Ok q) ↔ all_supported (nsgroups s)).
  { intros s. rewrite gen_sql_text. split.
    - intros [q Hq]. destruct (col_ns o (nsgroups s)) as [feats|e] eqn:E; [|done].
      by apply (col_ns_ok_inv o _ feats).
    - intros Hm. destruct (col_ns_ok o _ Hm) as [feats ->]. by eexists. }
  split; [apply Hgen|]. rewrite Hgen. cbn [nsgroups with_nsgroups]. split.
  - intros Hm c Hc Ho.
    destruct (get_ns_groups_member self cols (namespace_of self (c_name c))
                (c_name c, c_type c)) as (l & Hl & Hin).
    { apply elem_of_members. by exists c. }
    by apply (Hm (namespace_of self (c_name c)) l (c_name c) (c_type c)).
  - intros H ns l n t Hl Hin. apply get_ns_groups_Some in Hl. subst l.
    apply elem_of_members in Hin as (c & Hc & E & Ho & _).
    inversion E; subst. by apply H.
Qed.

(** X6. When every column of the schema is omitted (an empty schema, or
    one with only the label, the tag and excluded columns), the map is
    empty and the queries are still generated, with nothing in the
    place of the feature expression: the argument list of [CONCAT] ends
    in a comma. *)
Theorem no_feature_columns (o : DictOrder) (self : HiveToVWInput)
    (cols : list Column) :
  (∀ c, c ∈ cols → omitted self (c_name c)) →
  get_ns_groups self cols = ∅
  ∧ gen_sql o (with_nsgroups self (get_ns_groups self cols))
    = Ok (insert_text (dst_db self) (dst_table_name self)
            (select_text (label_column self) (tag_column self) EmptyString
               (src_table self) (sample_text (filter_sql self)))
            (limit_text (limit self))).
Proof.
  intros H.
  assert (Hempty : get_ns_groups self cols = ∅).
  { apply dict_empty_eq. intros ns.
    pose proof (get_ns_groups_lookup self cols ns) as Hl.
    destruct (get_ns_groups self cols !! ns) as [l|] eqn:E; [|done].
    simpl in Hl. exfalso.
    apply (foldl_ns_step_nonempty self cols ∅) in E as Hne;
      [|intros ns' l'; by rewrite dict_lookup_empty].
    destruct l as [|p l]; [done|].
    assert (Hp : p ∈ members self ns cols) by (rewrite <- Hl; by left).
    apply elem_of_members in Hp as (c & Hc & _ & Ho & _). by apply Ho, H. }
  split; [done|]. rewrite Hempty, gen_sql_text. cbn [nsgroups with_nsgroups].
  unfold col_ns. rewrite iteritems_empty. reflexivity.
Qed.

(** ** More on [run_cli] *)

Lemma filter_read_events_info lines :
  filter (λ e, is_info e = false) (read_events true lines) = read_events false lines.
Proof.
  induction lines as [|[|c line] rest IH]; [done..|].
  cbn [read_events]. destruct (Py.utf8_valid _); [|done].
  rewrite filter_app, IH. done.
Qed.

Lemma filter_cli_events_info tmp hql cmd lines returncode :
  filter (λ e, is_info e = false) (cli_events true tmp hql cmd lines returncode)
  = cli_events false tmp hql cmd lines returncode.
Proof.
  unfold cli_events, wait_events. rewrite !filter_app, filter_read_events_info.
  by destruct (decodable lines), (returncode =? 0).
Qed.

(** X7. [verbose] only decides whether the command line and the lines of
    the process are logged at info level: with and without it a call
    returns or raises the same, leaves the same files, call count and
    [sp], and the events of the quiet call are those of the verbose
    call without its info records. *)
Theorem run_cli_verbose (env : Env) (self : HiveCliHook) (hql : string)
    (schema : option string) (hive_conf : option (list (string * string)))
    (w : World) :
  let '(w1, r1) := run_cli env self hql schema true hive_conf w in
  let '(w2, r2) := run_cli env self hql schema false hive_conf w in
  r2 = r1 ∧ w_files w2 = w_files w1 ∧ w_calls w2 = w_calls w1 ∧ w_sp w2 = w_sp w1
  ∧ ∃ evs, w_trace w1 = w_trace w ++ evs
           ∧ w_trace w2 = w_trace w ++ filter (λ e, is_info e = false) evs.
Proof.
  destruct (env_cli env (w_calls w)) as [| | |lines returncode] eqn:E.
  { rewrite !run_cli_tmp_fails by done. cbn [w_files w_trace w_calls w_sp].
    repeat (split; [done|]). exists (@nil event).
    split; rewrite ?filter_nil, ?app_nil_r; done. }
  all: destruct (Py.is_ascii (effective_hql schema hql)) eqn:Ha;
    [|rewrite !run_cli_not_ascii by (rewrite ?E; done);
      cbn [w_files w_trace w_calls w_sp]; repeat (split; [done|]); by eexists].
  all: destruct (prepare_hiveconf_cases hive_conf) as [Hconf|(kv & rest & ->)].
  - rewrite !run_cli_write_fails by done. cbn [w_files w_trace w_calls w_sp].
    repeat (split; [done|]). by eexists.
  - rewrite !run_cli_write_fails by done. cbn [w_files w_trace w_calls w_sp].
    repeat (split; [done|]). by eexists.
  - rewrite !run_cli_spawn_fails by done. cbn [w_files w_trace w_calls w_sp].
    repeat (split; [done|]). eexists. split; [done|]. by rewrite !filter_app.
  - rewrite !run_cli_hive_conf by (rewrite ?E; done).
    cbn [w_files w_trace w_calls w_sp]. repeat (split; [done|]). by eexists.
  - rewrite !(run_cli_runs _ _ _ _ _ _ _ lines returncode) by done.
    cbn [w_files w_trace w_calls w_sp]. repeat (split; [done|]).
    eexists. split; [done|]. by rewrite filter_cli_events_info.
  - rewrite !run_cli_hive_conf by (rewrite ?E; done).
    cbn [w_files w_trace w_calls w_sp]. repeat (split; [done|]). by eexists.
Qed.

(** X8. When the query text is ASCII and the process prints lines that
    can be decoded and exits with code 0, [run_cli] returns the text
    read from it, logs nothing at error level, and leaves the command
    and the code 0 in [sp]. *)
Theorem run_cli_zero_exit (env : Env) (self : HiveCliHook) (hql : string)
    (schema : option string) (verbose : bool) (w : World) (lines : list string) :
  env_cli env (w_calls w) = Runs lines 0 →
  Py.is_ascii (effective_hql schema hql) = true →
  decodable lines = true →
  let '(w', r) := run_cli env self hql schema verbose None w in
  r = Ok (read_text lines)
  ∧ w_sp w' = Some {| p_args := _prepare_cli_cmd self
                                ++ ["-f"; env_tmp_name env (w_calls w)];
                      p_returncode := Some 0 |}
  ∧ ∃ evs, w_trace w' = w_trace w ++ evs
           ∧ filter (λ e, is_error e = true) evs = [].
Proof.
  intros E Ha Hd. rewrite (run_cli_runs _ _ _ _ _ _ _ lines 0) by done.
  rewrite Hd. split; [done|]. split; [done|]. eexists. split; [done|].
  unfold cli_events, wait_events. rewrite Hd, !filter_app, read_events_no_error.
  by destruct verbose.
Qed.

(** X9. When the query text is ASCII and the process starts, it is
    started in [/tmp/] with the command of the hook followed by [-f] and
    the path of the temporary file, and at that moment the file holds
    the query text (after [USE schema;] and a newline when a non-empty
    schema is given) and has not been deleted. *)
Theorem run_cli_file_at_spawn (env : Env) (self : HiveCliHook) (hql : string)
    (schema : option string) (verbose : bool) (w : World)
    (lines : list string) (returncode : Z) :
  env_cli env (w_calls w) = Runs lines returncode →
  let tmp := env_tmp_name env (w_calls w) in
  let text := match schema with
              | None | Some EmptyString => hql
              | Some s => "USE " +:+ s +:+ ";
" +:+ hql
              end in
  Py.is_ascii text = true →
  let w' := fst (run_cli env self hql schema verbose None w) in
  ∃ before after,
    w_trace w' = w_trace w ++ before
                 ++ [EvSpawn (_prepare_cli_cmd self ++ ["-f"; tmp]) "/tmp/"] ++ after
    ∧ last (filter (λ e, touches tmp e = true) before)
      = Some (EvTmpWrite tmp text)
    ∧ spawned before = [] ∧ spawned after = [].
Proof.
  intros E tmp text Ha w'. subst w'.
  rewrite (run_cli_runs _ _ _ _ _ _ _ lines returncode) by done.
  cbn [fst w_trace]. fold tmp. unfold cli_events.
  exists ([EvTmpCreate tmp; EvTmpWrite tmp (effective_hql schema hql)]
          ++ (if verbose
              then [EvLog INFO (Py.join " " (_prepare_cli_cmd self ++ ["-f"; tmp]))]
              else [])),
    (read_events verbose lines
     ++ (if decodable lines then wait_events (effective_hql schema hql) returncode
         else [])
     ++ [EvTmpDelete tmp]).
  split; [by rewrite <- !app_assoc|]. split; [|split].
  - rewrite filter_app, filter_cons_False by done.
    rewrite filter_cons_True by (cbn [touches]; apply String.eqb_refl).
    rewrite filter_nil. by destruct verbose.
  - by destruct verbose.
  - rewrite !spawned_app, spawned_read_events. unfold wait_events.
    by destruct (decodable lines), (returncode =? 0).
Qed.

(** X10. With a non-empty [hive_conf] a call of [run_cli] never starts
    a process and never returns: it raises, and [sp] is as before.  When
    the temporary file could be created and written, with a query text
    that is ASCII, what it raises is the [NameError] of
    [as_flattened_list], and the file is deleted. *)
Theorem run_cli_hive_conf_raises (env : Env) (self : HiveCliHook) (hql : string)
    (schema : option string) (verbose : bool) (kv : string * string)
    (rest : list (string * string)) (w : World) :
  let '(w', r) := run_cli env self hql schema verbose (Some (kv :: rest)) w in
  (∃ e, r = Raise e)
  ∧ w_sp w' = w_sp w
  ∧ (∃ evs, w_trace w' = w_trace w ++ evs ∧ spawned evs = [])
  ∧ (env_cli env (w_calls w) ≠ TmpFails → env_cli env (w_calls w) ≠ WriteFails →
     Py.is_ascii (effective_hql schema hql) = true →
     r = Raise (NameError "as_flattened_list")
     ∧ w_files w' !! env_tmp_name env (w_calls w) = None).
Proof.
  destruct (env_cli env (w_calls w)) as [| | |lines returncode] eqn:E.
  { rewrite run_cli_tmp_fails by done. cbn [w_trace w_sp].
    split; [by eexists|]. split; [done|]. split; [|done].
    exists (@nil event). by rewrite app_nil_r. }
  all: destruct (Py.is_ascii (effective_hql schema hql)) eqn:Ha;
    [|rewrite run_cli_not_ascii by (rewrite ?E; done); cbn [w_trace w_sp];
      split; [by eexists|]; split; [done|]; split; [by eexists|done]].
  - rewrite run_cli_write_fails by done. cbn [w_trace w_sp].
    split; [by eexists|]. split; [done|]. split; [|done]. by eexists.
  - rewrite run_cli_hive_conf by (rewrite ?E; done). cbn [w_files w_trace w_sp].
    split; [by eexists|]. split; [done|]. split; [by eexists|].
    intros _ _ _. split; [done|]. apply lookup_delete_eq.
  - rewrite run_cli_hive_conf by (rewrite ?E; done). cbn [w_files w_trace w_sp].
    split; [by eexists|]. split; [done|]. split; [by eexists|].
    intros _ _ _. split; [done|]. apply lookup_delete_eq.
Qed.

Lemma not_elem_of_read_events verbose lines rc :
  EvWait rc ∉ read_events verbose lines.
Proof.
  induction lines as [|[|c line] rest IH]; [apply not_elem_of_nil..|].
  cbn [read_events]. destruct (Py.utf8_valid _); [|apply not_elem_of_nil].
  rewrite elem_of_app. intros [H|H]; [|done].
  destruct verbose; [|by apply elem_of_nil in H].
  apply list_elem_of_singleton in H. done.
Qed.

(** X17. When the process prints a line that is not valid UTF-8,
    [run_cli] raises [UnicodeDecodeError] from its loop: the process
    has been started and is in [sp], but it is not waited for, so [sp]
    has no exit code and nothing is logged at error level, whatever
    the exit code would be; the lines before the bad one have been
    logged, and the temporary file is deleted. *)
Theorem run_cli_undecodable (env : Env) (self : HiveCliHook) (hql : string)
    (schema : option string) (verbose : bool) (w : World)
    (lines : list string) (returncode : Z) :
  env_cli env (w_calls w) = Runs lines returncode →
  Py.is_ascii (effective_hql schema hql) = true →
  decodable lines = false →
  let tmp := env_tmp_name env (w_calls w) in
  let cmd := _prepare_cli_cmd self ++ ["-f"; tmp] in
  let '(w', r) := run_cli env self hql schema verbose None w in
  r = Raise UnicodeDecodeError
  ∧ w_sp w' = Some {| p_args := cmd; p_returncode := None |}
  ∧ w_files w' !! tmp = None
  ∧ ∃ before,
      w_trace w' = w_trace w ++ before ++ [EvSpawn cmd "/tmp/"]
                   ++ read_events verbose lines ++ [EvTmpDelete tmp]
      ∧ spawned before = []
      ∧ (∀ rc, EvWait rc ∉ read_events verbose lines)
      ∧ filter (λ e, is_error e = true) (read_events verbose lines) = [].
Proof.
  intros E Ha Hd tmp cmd.
  rewrite (run_cli_runs _ _ _ _ _ _ _ lines returncode) by done.
  rewrite Hd. fold tmp cmd. cbn [w_files w_trace w_sp].
  split; [done|]. split; [done|]. split; [apply lookup_delete_eq|].
  unfold cli_events. rewrite Hd.
  exists ([EvTmpCreate tmp; EvTmpWrite tmp (effective_hql schema hql)]
          ++ (if verbose then [EvLog INFO (Py.join " " cmd)] else [])).
  split; [by rewrite <- !app_assoc|]. split; [by destruct verbose|].
  split; [intros rc; apply not_elem_of_read_events|apply read_events_no_error].
Qed.

(** X18. When the query text has a byte above [\x7f], [run_cli] raises
    [UnicodeDecodeError] at [hql.encode]: the temporary file has been
    created, nothing is written to it, no process is started, [sp] is
    as before, and the file is deleted. *)
Theorem run_cli_query_not_ascii (env : Env) (self : HiveCliHook) (hql : string)
    (schema : option string) (verbose : bool)
    (hive_conf : option (list (string * string))) (w : World) :
  env_cli env (w_calls w) ≠ TmpFails →
  Py.is_ascii (effective_hql schema hql) = false →
  let tmp := env_tmp_name env (w_calls w) in
  let '(w', r) := run_cli env self hql schema verbose hive_conf w in
  r = Raise UnicodeDecodeError
  ∧ w_sp w' = w_sp w
  ∧ w_files w' !! tmp = None
  ∧ w_trace w' = w_trace w ++ [EvTmpCreate tmp; EvTmpDelete tmp].
Proof.
  intros E Ha tmp. rewrite run_cli_not_ascii by done.
  cbn [w_files w_trace w_sp]. split; [done|]. split; [done|].
  split; [apply lookup_delete_eq|done].
Qed.

(** An ASCII text is valid UTF-8. *)
Lemma is_ascii_utf8_valid s : Py.is_ascii s = true → Py.utf8_valid s = true.
Proof.
  unfold Py.utf8_valid. induction s as [|c s IH]; [done|].
  cbn [Py.is_ascii]. intros [Hc Hs]%andb_true_iff. unfold Py.is_ascii_char in Hc.
  cbn [Py.utf8_chars]. rewrite Hc. specialize (IH Hs).
  by destruct (Py.utf8_chars s).
Qed.

(** ** The command line *)





(** ** Files *)

Section files.

Lemma keeps_ret {A} (a : A) : keeps_files (ret a).
Proof. by intros w. Qed.

Lemma keeps_raise {A} e : keeps_files (@raise A e).
Proof. by intros w. Qed.

Lemma keeps_lift {A} (r : res A) : keeps_files (lift r).
Proof. by intros w. Qed.

Lemma keeps_emit e : keeps_files (emit e).
Proof. by intros w. Qed.

Lemma keeps_bind {A B} (m : M A) (k : A → M B) :
  keeps_files m → (∀ a, keeps_files (k a)) → keeps_files (bind m k).
Proof.
  intros Hm Hk w. unfold bind. specialize (Hm w).
  destruct (m w) as [w' [a|e]]; [|done].
  etrans; [apply Hk|done].
Qed.

Lemma keeps_try_except {A B} (m : M A) (k : A → M B) (h : exn → M B) :
  keeps_files m → (∀ a, keeps_files (k a)) → (∀ e, keeps_files (h e)) →
  keeps_files (try_except m k h).
Proof.
  intros Hm Hk Hh w. unfold try_except. specialize (Hm w).
  destruct (m w) as [w' [a|e]]; (etrans; [|done]); [apply Hk|apply Hh].
Qed.

Lemma keeps_run_cli env self hql schema verbose hive_conf :
  keeps_files (run_cli env self hql schema verbose hive_conf).
Proof.
  intros w.
  pose proof (run_cli_bracket env self hql schema verbose hive_conf w) as H.
  cbv zeta in H.
  destruct (env_cli env (w_calls w)); destruct H as [-> _];
    [done|apply delete_subseteq..].
Qed.

Lemma keeps_create_dest_table env self : keeps_files (create_dest_table env self).
Proof.
  unfold create_dest_table. rewrite ddl_format.
  apply keeps_bind; [apply keeps_lift|]. intros sql.
  apply keeps_bind; [apply keeps_emit|]. intros _.
  apply keeps_try_except; [apply keeps_run_cli|intros; apply keeps_ret|].
  intros e. apply keeps_bind; [apply keeps_raise|]. intros output. apply keeps_emit.
Qed.

Lemma keeps_get_table env self table_name db :
  keeps_files (get_table env self table_name db).
Proof. intros w. by rewrite get_table_spec. Qed.

Lemma keeps_run o env self : keeps_files (run o env self).
Proof.
  unfold run.
  apply keeps_bind; [apply keeps_create_dest_table|]. intros _.
  apply keeps_bind; [apply keeps_lift|]. intros finalsql.
  apply keeps_bind; [apply keeps_emit|]. intros _.
  apply keeps_bind; [apply keeps_run_cli|]. intros output.
  apply keeps_bind; [apply keeps_emit|]. intros _.
  apply keeps_bind.
  { unfold get_table_location. apply keeps_bind; [apply keeps_get_table|].
    intros table. apply keeps_ret. }
  intros dest_loc. apply keeps_bind; [apply keeps_lift|]. intros msg. apply keeps_emit.
Qed.

End files.

(** X14. Whatever the environment answers and wherever it stops,
    [run] (and [create_dest_table], and [run_cli]) leaves no file
    behind and changes no file: every file that exists afterwards
    existed before with the same content. *)
Theorem run_keeps_files (o : DictOrder) (env : Env) (self : HiveToVWInput)
    (hook : HiveCliHook) (hql : string) (schema : option string) (verbose : bool)
    (hive_conf : option (list (string * string))) (w : World) (path data : string) :
  (w_files (fst (run o env self w)) !! path = Some data → w_files w !! path = Some data)
  ∧ (w_files (fst (create_dest_table env self w)) !! path = Some data →
     w_files w !! path = Some data)
  ∧ (w_files (fst (run_cli env hook hql schema verbose hive_conf w)) !! path = Some data →
     w_files w !! path = Some data).
Proof.
  split; [|split]; intros H; (eapply lookup_weaken; [exact H|]).
  - apply keeps_run.
  - apply keeps_create_dest_table.
  - apply keeps_run_cli.
Qed.

(** ** When the destination table statement cannot be run *)

(** X12. [create_dest_table] logs the statement, calls [run_cli] on it,
    and leaves the state as that call left it: when the call returns,
    its value is dropped; when it raises, whatever it raised, the
    exception is replaced by [UnboundLocalError] for [output], and the
    handler logs nothing.  The call raises exactly when the statement
    is not ASCII, or the process does not start, or its output cannot
    be decoded; [sp] is then as before, unless the process had started:
    then it holds the command, without an exit code. *)
Theorem create_dest_table_masks_exception (env : Env) (self : HiveToVWInput)
    (w : World) :
  let sql := ddl_text (dst_db self) (dst_table_name self) in
  let cmd := _prepare_cli_cmd (hive_conn self) ++ ["-f"; env_tmp_name env (w_calls w)] in
  let '(w1, r1) := run_cli env (hive_conn self) sql None true None
                     (add_events [EvLog INFO sql] w) in
  let '(w', r) := create_dest_table env self w in
  w' = w1
  ∧ ((∃ out, r1 = Ok out) → r = Ok tt)
  ∧ ((∃ e, r1 = Raise e) → r = Raise (UnboundLocalError "output"))
  ∧ ((∃ e, r1 = Raise e) ↔ cli_returns (env_cli env (w_calls w)) sql = false)
  ∧ (cli_returns (env_cli env (w_calls w)) sql = false →
     w_sp w' = match env_cli env (w_calls w) with
               | Runs _ _ =>
                   if Py.is_ascii sql
                   then Some {| p_args := cmd; p_returncode := None |}
                   else w_sp w
               | _ => w_sp w
               end
     ∧ ∃ evs, w_trace w' = w_trace w ++ [EvLog INFO sql] ++ evs
              ∧ filter (λ e, is_error e = true) evs = []
              ∧ spawned evs = match env_cli env (w_calls w) with
                              | Runs _ _ => if Py.is_ascii sql then [cmd] else []
                              | _ => []
                              end).
Proof.
  intros sql cmd.
  pose proof (create_dest_table_unfold env self w) as Hu. cbv zeta in Hu. fold sql in Hu.
  pose proof (run_cli_returns_iff env (hive_conn self) sql None true
                (add_events [EvLog INFO sql] w)) as Hr.
  cbn [effective_hql add_events w_calls] in Hr.
  pose proof (create_dest_table_fails env self w) as Hf. cbv zeta in Hf.
  fold sql cmd in Hf.
  destruct (run_cli env (hive_conn self) sql None true None
              (add_events [EvLog INFO sql] w)) as [w1 r1].
  destruct (create_dest_table env self w) as [w' r]. cbn [snd] in Hr.
  assert (Hiff : (∃ e, r1 = Raise e)
                 ↔ cli_returns (env_cli env (w_calls w)) sql = false).
  { rewrite <- not_true_iff_false, <- Hr. destruct r1 as [out|e].
    - split; [by intros [? ?]|]. intros H. exfalso. apply H. by eexists.
    - split; [by intros _ [? ?]|]. intros _. by eexists. }
  split; [by destruct r1; injection Hu|]. split.
  { intros [out ->]. by injection Hu. }
  split.
  { intros [e ->]. by injection Hu. }
  split; [done|].
  intros Hc. destruct (Hf Hc) as (evs & files & [= -> ->] & He & Hs & _).
  cbn [w_sp w_trace]. split; [done|]. by exists evs.
Qed.

(** X13. When [run_cli] raises inside [create_dest_table], [run] stops
    with the same exception and in the same state as
    [create_dest_table]: the query is not generated (an unsupported type
    is not reported), [run_cli] is called once, no process is started
    for the query and no location is looked up. *)
Theorem run_stops_when_creation_raises (o : DictOrder) (env : Env)
    (self : HiveToVWInput) (w : World) :
  let sql := ddl_text (dst_db self) (dst_table_name self) in
  let cmd := _prepare_cli_cmd (hive_conn self) ++ ["-f"; env_tmp_name env (w_calls w)] in
  cli_returns (env_cli env (w_calls w)) sql = false →
  run o env self w = create_dest_table env self w
  ∧ let '(w', r) := run o env self w in
    r = Raise (UnboundLocalError "output")
    ∧ w_calls w' = S (w_calls w)
    ∧ ∃ evs, w_trace w' = w_trace w ++ evs
             ∧ spawned evs = match env_cli env (w_calls w) with
                             | Runs _ _ => if Py.is_ascii sql then [cmd] else []
                             | _ => []
                             end
             ∧ lookups evs = [].
Proof.
  intros sql cmd E. destruct (create_dest_table_fails env self w E)
    as (evs & files & Hc & He & Hs & Hl).
  assert (Hrun : run o env self w = create_dest_table env self w).
  { unfold run. unfold bind at 1. by rewrite Hc. }
  split; [done|]. rewrite Hrun, Hc. cbn [w_calls w_trace].
  split; [done|]. split; [done|]. eexists. split; [done|].
  by rewrite spawned_app, lookups_app, Hs, Hl.
Qed.

(** X16. When both statements are ASCII, print lines that can be decoded
    and exit with code 0, and the metastore knows the destination,
    [run] returns normally; it has logged nothing at error level, its
    last record is the location message, both temporary files are
    gone, and [sp] holds the command of the query with the code 0. *)
Theorem run_succeeds (o : DictOrder) (env : Env) (self : HiveToVWInput) (w : World)
    (lines1 lines2 : list string) (q loc : string) :
  env_cli env (w_calls w) = Runs lines1 0 →
  Py.is_ascii (ddl_text (dst_db self) (dst_table_name self)) = true →
  decodable lines1 = true →
  gen_sql o self = Ok q →
  env_cli env (S (w_calls w)) = Runs lines2 0 →
  Py.is_ascii q = true →
  decodable lines2 = true →
  env_location env (dst_table_name self) (dst_db self) = Some loc →
  let '(w', r) := run o env self w in
  r = Ok tt
  ∧ last (w_trace w')
    = Some (EvLog INFO ("You should be able to find your files at " +:+ loc))
  ∧ (∃ evs, w_trace w' = w_trace w ++ evs ∧ filter (λ e, is_error e = true) evs = [])
  ∧ w_files w' = delete (env_tmp_name env (S (w_calls w)))
                   (delete (env_tmp_name env (w_calls w)) (w_files w))
  ∧ w_sp w' = Some {| p_args := _prepare_cli_cmd (hive_conn self)
                                ++ ["-f"; env_tmp_name env (S (w_calls w))];
                      p_returncode := Some 0 |}.
Proof.
  intros E1 A1 D1 Hq E2 A2 D2 Hloc.
  rewrite (run_both_run o env self w lines1 0 E1 A1 D1 q lines2 0 Hq E2 A2 D2), Hloc.
  cbn [w_files w_trace w_sp]. split; [done|]. unfold run_tail_events. rewrite Hloc.
  split; [by rewrite !app_assoc, last_snoc|]. split; [|done].
  eexists. split; [done|]. unfold cli_events, wait_events, get_table_events.
  rewrite D1, D2, !filter_app, !read_events_no_error.
  by destruct (env_transport env),
       (metastore_table env (dst_table_name self) (dst_db self)).
Qed.

(** ** The names given to the metastore *)

Lemma init_names env src_table' dst_table' label_column' tag_column' limit' filter_sql'
    excludes' custom_namespaces' host' port' w self :
  snd (init env src_table' dst_table' label_column' tag_column' limit' filter_sql'
         excludes' custom_namespaces' host' port' w) = Ok self →
  count_char "." (src_table_name self) = O
  ∧ dst_db self = "tmp"
  ∧ count_char "." (dst_table_name self) = O.
Proof.
  intros Hinit.
  pose proof (split_go_char_free "." src_table' EmptyString eq_refl) as Hfree.
  fold (Py.split "." src_table') in Hfree.
  rewrite init_cases in Hinit.
  destruct (Py.split "." src_table') as [|db [|name [|x l]]]; try done.
  destruct (decide _) as [Hd|] in Hinit; [|done].
  destruct (env_thrift env); [|done]. cbv zeta in Hinit. cbn [snd] in Hinit.
  destruct (metastore_table env name db) as [t|] eqn:Em; [|done].
  injection Hinit as <-. cbn.
  apply Forall_cons in Hfree as [Hdb Hfree]. apply Forall_cons in Hfree as [Hname _].
  done.
Qed.

(** X15. [get_table] asks the metastore for the names it is given,
    unless the database is [default] and the table name has a dot: then
    it asks for the part after the first dot (up to the second) in the
    database named by the part before it; taking the name apart never
    fails.  The names an object made by the constructor passes (its
    source table and database, its destination table in [tmp]) are
    never taken apart. *)
Theorem get_table_names_spec (table_name db a b rest : string) :
  (∃ names, get_table_names table_name db = Ok names)
  ∧ (db ≠ "default" ∨ count_char "." table_name = O →
     get_table_names table_name db = Ok (table_name, db))
  ∧ (count_char "." a = O → count_char "." b = O →
     get_table_names (a +:+ "." +:+ b) "default" = Ok (b, a)
     ∧ get_table_names (a +:+ "." +:+ b +:+ "." +:+ rest) "default" = Ok (b, a))
  ∧ (∀ env src_table' dst_table' label_column' tag_column' limit' filter_sql'
       excludes' custom_namespaces' host' port' w self,
       snd (init env src_table' dst_table' label_column' tag_column' limit' filter_sql'
              excludes' custom_namespaces' host' port' w) = Ok self →
       get_table_names (src_table_name self) (src_db self)
       = Ok (src_table_name self, src_db self)
       ∧ get_table_names (dst_table_name self) (dst_db self)
         = Ok (dst_table_name self, dst_db self)).
Proof.
  split; [apply get_table_names_ok|split; [apply get_table_names_plain|split]].
  - intros Ha Hb. unfold get_table_names. cbn [String.eqb Ascii.eqb Bool.eqb andb].
    assert (Hc : ∀ s, contains "." (a +:+ "." +:+ s) = true).
    { intros s. apply contains_dot. rewrite !count_char_app. simpl. lia. }
    rewrite !Hc.
    rewrite !(split_prefix "." "." EmptyString eq_refl a) by done.
    split.
    + destruct (split_go_cons "." O EmptyString b) as (x & l & Hx).
      pose proof (split_go_char_length "." b EmptyString) as Hlen.
      pose proof (join_split "." b ltac:(done)) as Hj. unfold Py.split in *.
      rewrite Hx in *. rewrite Hb in Hlen. destruct l; [|done].
      simpl in Hj. by subst x.
    + rewrite (split_prefix "." "." EmptyString eq_refl b) by done. done.
  - intros env src_table' dst_table' label_column' tag_column' limit' filter_sql'
      excludes' custom_namespaces' host' port' w self Hinit.
    destruct (init_names _ _ _ _ _ _ _ _ _ _ _ _ _ Hinit) as (Hs & _ & Hd).
    split; apply get_table_names_plain; by right.
Qed.

(** ** The transport to the metastore *)

(** X19. A call of [get_table] opens the transport unless that fails,
    and closes it only when the metastore answered: when the metastore
    raises, the call raises with the transport left open. *)
Theorem get_table_transport (env : Env) (self : HiveMetastoreHook)
    (table_name db : string) (w : World) :
  let '(w', r) := get_table env self table_name db w in
  ∃ evs, w_trace w' = w_trace w ++ EvGetTable table_name db :: evs
  ∧ match r with
    | Ok t =>
        evs = [EvTransportOpen; EvTransportClose]
        ∧ metastore_table env table_name db = Some t
    | Raise e =>
        e = MetastoreError
        ∧ metastore_table env table_name db = None
        ∧ evs = if env_transport env then [EvTransportOpen] else []
    end.
Proof.
  rewrite get_table_spec. unfold get_table_events. cbn [add_events w_trace].
  eexists. split; [reflexivity|].
  destruct (metastore_table env table_name db) as [t|] eqn:Em.
  - unfold metastore_table in Em. by destruct (env_transport env).
  - by destruct (env_transport env).
Qed.

(** ** The order of iteration *)

(** X20. Whatever order the interpreter iterates a dictionary in, the
    items visited are the same up to their order, and so are the blocks
    of the feature expression; query generation succeeds under one
    order exactly when it succeeds under another, and raises the same
    exception. *)
Theorem iteration_order_independence (o1 o2 : DictOrder) (self : HiveToVWInput) :
  iteritems o1 (nsgroups self) ≡ₚ iteritems o2 (nsgroups self)
  ∧ block_of <$> iteritems o1 (nsgroups self) ≡ₚ block_of <$> iteritems o2 (nsgroups self)
  ∧ ((∃ q, gen_sql o1 self = Ok q) ↔ (∃ q, gen_sql o2 self = Ok q))
  ∧ (∀ e, gen_sql o1 self = Raise e ↔ gen_sql o2 self = Raise e).
Proof.
  assert (Hp : iteritems o1 (nsgroups self) ≡ₚ iteritems o2 (nsgroups self)).
  { unfold iteritems. by rewrite !iter_order_perm. }
  split; [done|]. split; [by rewrite Hp|].
  assert (Hok : ∀ o, (∃ q, gen_sql o self = Ok q) ↔ all_supported (nsgroups self)).
  { intros o. rewrite gen_sql_text. split.
    - intros [q Hq]. destruct (col_ns o (nsgroups self)) as [feats|e] eqn:E; [|done].
      by apply (col_ns_ok_inv o _ feats).
    - intros Hm. destruct (col_ns_ok o _ Hm) as [feats ->]. by eexists. }
  split; [by rewrite !Hok|].
  assert (Hr : ∀ o e, gen_sql o self = Raise e
               ↔ e = NotImplementedError ∧ ¬ all_supported (nsgroups self)).
  { intros o e. rewrite <- (Hok o). rewrite gen_sql_text.
    unfold col_ns.
    destruct (res_map_cases col_ns_block NotImplementedError (iteritems o (nsgroups self))
                (λ x _, col_ns_block_cases x)) as [[blocks ->]| ->]; cbn [res_bind].
    - split; [done|]. intros [_ H]. exfalso. apply H. by eexists.
    - split; [intros [= <-]; split; [done|]; by intros [q ?]|]. by intros [-> _]. }
  intros e. by rewrite !Hr.
Qed.

(** ** Concrete instances of the further properties *)

(** X2, on the example. *)
Lemma init_fields_witness :
  src_db (orders_self orders_cols) +:+ "." +:+ src_table_name (orders_self orders_cols)
  = "sales.orders"
  ∧ count_char "." (src_db (orders_self orders_cols)) = O.
Proof.
  pose proof (init_fields (env_with orders_cols [] (Some "hdfs://warehouse/sales.db/orders"))
                "sales.orders" "vw_orders" "converted" "order_id"
                None None None None "localhost" 3621 w0
                (orders_self orders_cols) orders_init) as H.
  exact (conj (proj1 H) (proj1 (proj2 H))).
Defined.

(** X4, on the example: [region__geo__code] is filed under [geo]. *)
Lemma naming_convention_witness :
  ∃ l, get_ns_groups (orders_self []) orders_cols !! "geo" = Some l
       ∧ ("region__geo__code", "string") ∈ l.
Proof.
  refine (naming_convention (orders_self []) orders_cols
            {| c_name := "region__geo__code"; c_type := "string";
               c_comment := EmptyString |} "region" "geo" "code" _ _ _ _ _ _).
  - by_compute.
  - by_compute.
  - reflexivity.
  - reflexivity.
  - reflexivity.
  - reflexivity.
Defined.

(** X6, on a schema with only the label and the tag. *)
Lemma no_feature_columns_witness :
  get_ns_groups (orders_self [])
    [ {| c_name := "converted"; c_type := "int"; c_comment := EmptyString |};
      {| c_name := "order_id"; c_type := "string"; c_comment := EmptyString |} ]
  = ∅.
Proof.
  refine (proj1 (no_feature_columns cpython27 (orders_self []) _ _)).
  intros c Hc. rewrite !elem_of_cons, elem_of_nil in Hc.
  destruct Hc as [->|[->|[]]]; by_compute.
Defined.

(** X8, on a process that prints one line and exits with 0. *)
Lemma run_cli_zero_exit_witness :
  let '(w', r) :=
    run_cli (env_of [Runs ["OK"] 0] None) hook0 "SELECT 1" None true None w0 in
  r = Ok (read_text ["OK"])
  ∧ w_sp w' = Some {| p_args := _prepare_cli_cmd hook0 ++ ["-f"; "/tmp/tmp0"];
                      p_returncode := Some 0 |}
  ∧ ∃ evs, w_trace w' = w_trace w0 ++ evs
           ∧ filter (λ e, is_error e = true) evs = [].
Proof.
  exact (run_cli_zero_exit (env_of [Runs ["OK"] 0] None) hook0 "SELECT 1" None true
           w0 ["OK"] eq_refl eq_refl eq_refl).
Defined.

(** X9, on a call with a schema. *)
Lemma run_cli_file_at_spawn_witness :
  ∃ before after,
    w_trace (fst (run_cli (env_of [Runs ["OK"] 0] None) hook0 "SELECT 1"
                    (Some "mydb") true None w0))
    = w_trace w0 ++ before ++ [EvSpawn ["hive"; "-f"; "/tmp/tmp0"] "/tmp/"] ++ after
    ∧ last (filter (λ e, touches "/tmp/tmp0" e = true) before)
      = Some (EvTmpWrite "/tmp/tmp0" "USE mydb;
SELECT 1")
    ∧ spawned before = [] ∧ spawned after = [].
Proof.
  exact (run_cli_file_at_spawn (env_of [Runs ["OK"] 0] None) hook0 "SELECT 1"
           (Some "mydb") true w0 ["OK"] 0 eq_refl eq_refl).
Defined.

(** X13, on a run where the process of the statement does not start,
    with the schema that has a nested column. *)
Lemma run_stops_when_creation_raises_witness :
  run cpython27 (env_of [SpawnFails] None) (orders_self payload_cols) w0
  = create_dest_table (env_of [SpawnFails] None) (orders_self payload_cols) w0.
Proof.
  exact (proj1 (run_stops_when_creation_raises cpython27 (env_of [SpawnFails] None)
                  (orders_self payload_cols) w0 eq_refl)).
Defined.

(** X16, on the example with both statements exiting with 0. *)
Lemma run_succeeds_witness :
  ∃ q, gen_sql cpython27 (orders_self orders_cols) = Ok q
  ∧ let '(w', r) :=
      run cpython27
        (env_of [Runs ["OK"] 0; Runs ["OK"] 0] (Some "hdfs://warehouse/vw_orders"))
        (orders_self orders_cols) w0 in
    r = Ok tt
    ∧ last (w_trace w')
      = Some (EvLog INFO ("You should be able to find your files at "
                          +:+ "hdfs://warehouse/vw_orders")).
Proof.
  destruct (gen_sql cpython27 (orders_self orders_cols)) as [q|e] eqn:Hq;
    [|vm_compute in Hq; discriminate Hq].
  exists q. split; [done|].
  assert (Ha : Py.is_ascii q = true).
  { vm_compute in Hq. injection Hq as <-. vm_compute. reflexivity. }
  pose proof (run_succeeds cpython27
                (env_of [Runs ["OK"] 0; Runs ["OK"] 0] (Some "hdfs://warehouse/vw_orders"))
                (orders_self orders_cols) w0 ["OK"] ["OK"] q
                "hdfs://warehouse/vw_orders" eq_refl eq_refl eq_refl Hq eq_refl Ha
                eq_refl eq_refl) as H.
  destruct (run _ _ _ w0) as [w' r].
  exact (conj (proj1 H) (proj1 (proj2 H))).
Defined.

(** X17, on a process whose second line is the byte [\xff]. *)
Lemma run_cli_undecodable_witness :
  let '(w', r) :=
    run_cli (env_of [Runs ["OK"; String "255" EmptyString] 0] None)
      hook0 "SELECT 1" None true None w0 in
  r = Raise UnicodeDecodeError
  ∧ w_sp w' = Some {| p_args := ["hive"; "-f"; "/tmp/tmp0"]; p_returncode := None |}.
Proof.
  pose proof (run_cli_undecodable
                (env_of [Runs ["OK"; String "255" EmptyString] 0] None)
                hook0 "SELECT 1" None true w0 ["OK"; String "255" EmptyString] 0
                eq_refl eq_refl eq_refl) as H.
  cbv zeta in H. destruct (run_cli _ _ _ _ _ _ w0) as [w' r].
  exact (conj (proj1 H) (proj1 (proj2 H))).
Defined.

(** X18, on a query with the two bytes of a Latin letter with an
    accent. *)
Lemma run_cli_query_not_ascii_witness :
  snd (run_cli (env_of [Runs ["OK"] 0] None) hook0
         ("SELECT '" +:+ String "195" (String "169" "'")) None true None w0)
  = Raise UnicodeDecodeError.
Proof.
  pose proof (run_cli_query_not_ascii (env_of [Runs ["OK"] 0] None) hook0
                ("SELECT '" +:+ String "195" (String "169" "'")) None true None w0
                ltac:(discriminate) eq_refl) as H.
  cbv zeta in H. destruct (run_cli _ _ _ _ _ _ w0) as [w' r].
  exact (proj1 H).
Defined.
